(** * sentinews-api: the pipeline orchestration subsystem

    A shallow embedding of [database.py], [scrapers/scraper_manager.py],
    [pipeline.py] and the job controller of [app.py], and the properties of
    the orchestration specification checked against it; then the code around
    it ([analysis/sentiment_analyzer.py], [main.py], the stop, listing and
    schedule requests of [app.py]) with further properties.

    Conventions of the embedding:
    - a Python function that mutates the process state is a function in the
      state monad [St] over [world]; one that may raise returns a [result];
    - the SQLite file is the record [db]; an [INSERT] that violates a
      [UNIQUE] constraint is the [IntegrityError] the code catches, any other
      failure of the store is an [OperationalError] injected by the
      environment ([fault]);
    - a [threading.Event] is only ever set, never cleared: the environment
      says before which poll of [is_set] it becomes set ([stop_at]);
    - [print] statements are dropped; a ghost [trace] records the calls the
      properties speak about. *)

From Stdlib Require Import List String Ascii Arith Bool Lia PeanoNat.
From Stdlib Require Import DecimalString.
From Stdlib Require Import Sorting.Permutation Sorting.Sorted.
Import ListNotations.
Local Open Scope string_scope.
Local Open Scope nat_scope.
Local Open Scope list_scope.

Set Implicit Arguments.

(** ** Python exceptions and results *)

Inductive exn : Type :=
| IntegrityError (msg : string)     (* sqlite3.IntegrityError *)
| OperationalError (msg : string)   (* any other sqlite3 failure *)
| ImportError (msg : string)
| PyException (msg : string).       (* any other subclass of Exception *)

(** [str(e)] *)
Definition str (e : exn) : string :=
  match e with
  | IntegrityError m | OperationalError m | ImportError m | PyException m => m
  end.

Inductive result (A : Type) : Type :=
| Ok (a : A)
| Raise (e : exn).
Arguments Ok {A} a.
Arguments Raise {A} e.

(** [str(n)] for a non-negative integer *)
Definition str_of_nat (n : nat) : string :=
  NilZero.string_of_uint (Nat.to_uint n).

(** ** Python dictionaries keyed by strings

    Insertion-ordered: assigning to a key that is present replaces the value
    in place, assigning to a new key appends. *)

Module Dict.
Section Dict.
Variable V : Type.

Definition t := list (string * V).

Definition empty : t := [].

Fixpoint get (d : t) (k : string) : option V :=
  match d with
  | [] => None
  | (k', v) :: d' => if String.eqb k' k then Some v else get d' k
  end.

Fixpoint set (d : t) (k : string) (v : V) : t :=
  match d with
  | [] => [(k, v)]
  | (k', v') :: d' =>
      if String.eqb k' k then (k', v) :: d' else (k', v') :: set d' k v
  end.

Definition keys (d : t) : list string := map fst d.
Definition values (d : t) : list V := map snd d.

(** truth value of a dict: non-empty *)
Definition truthy (d : t) : bool :=
  match d with [] => false | _ :: _ => true end.

Definition mem (d : t) (k : string) : bool :=
  match get d k with Some _ => true | None => false end.
End Dict.
End Dict.

(** ** database.py *)

Module Database.

(** Rows.  The timestamp columns ([scraped_date], [run_timestamp],
    [timestamp]) are left out: tables keep their rows in insertion order. *)

Record link_row := {
  link_id : nat;
  link_url : string;
  source_website : string }.

(** the dict a scraper's [scrape_article_content] returns *)
Record article_data := {
  ad_url : string;
  ad_title : string;
  ad_author : string;
  ad_publication_date : string;
  ad_raw_text : string;
  ad_cleaned_text : option string }.

Record article_row := {
  article_id : nat;
  art_link_id : nat;
  art_url : string;
  art_title : string;
  art_author : string;
  art_publication_date : string;
  art_raw_text : string;
  cleaned_text : option string;     (* nullable column *)
  is_analyzed : bool }.

Record sentiment_row := {
  s_article_id : nat;
  entity_name : string;
  entity_type : string;
  financial_sentiment : string;
  overall_sentiment : string;
  reasoning : string }.

(** [usage_stats]; the floating-point [total_cost_usd] is left out *)
Record usage_stats := {
  total_tokens : nat;
  prompt_tokens : nat;
  completion_tokens : nat }.

Record usage_row := {
  u_article_id : nat;
  u_provider : string;
  u_stats : usage_stats }.

Record run_row := {
  new_links_found : nat;
  articles_scraped : nat;
  entities_analyzed : nat;
  run_status : string }.

(** The statistics dicts of the pipeline: the four keys the code uses,
    each present or absent. *)
Record stats := {
  st_new_links_found : option nat;
  st_articles_scraped : option nat;
  st_entities_analyzed : option nat;
  st_status : option string }.

Definition empty_stats : stats :=
  {| st_new_links_found := None; st_articles_scraped := None;
     st_entities_analyzed := None; st_status := None |}.

Definition override {A} (a b : option A) : option A :=
  match b with Some _ => b | None => a end.

(** [{**a, **b}] *)
Definition merge (a b : stats) : stats :=
  {| st_new_links_found := override (st_new_links_found a) (st_new_links_found b);
     st_articles_scraped := override (st_articles_scraped a) (st_articles_scraped b);
     st_entities_analyzed := override (st_entities_analyzed a) (st_entities_analyzed b);
     st_status := override (st_status a) (st_status b) |}.

(** [dict.get(key, default)] *)
Definition get_default {A} (o : option A) (default : A) : A :=
  match o with Some a => a | None => default end.

Record db := {
  links : list link_row;
  articles : list article_row;
  sentiments : list sentiment_row;
  usage_logs : list usage_row;
  pipeline_runs : list run_row;
  seq_links : nat;          (* sqlite_sequence of AUTOINCREMENT ids *)
  seq_articles : nat }.

(** the tables [create_database] makes *)
Definition create_database : db :=
  {| links := []; articles := []; sentiments := []; usage_logs := [];
     pipeline_runs := []; seq_links := 0; seq_articles := 0 |}.

Definition url_in_links (url : string) (d : db) : bool :=
  existsb (fun l => String.eqb (link_url l) url) (links d).

Definition url_in_articles (url : string) (d : db) : bool :=
  existsb (fun a => String.eqb (art_url a) url) (articles d).

(** [add_link]: [None] when the UNIQUE constraint on [url] rejects the
    row, the new row id otherwise. *)
Definition add_link (url source : string) (d : db) : option nat * db :=
  if url_in_links url d then (None, d)
  else
    let id := S (seq_links d) in
    (Some id,
     {| links := links d ++ [{| link_id := id; link_url := url; source_website := source |}];
        articles := articles d; sentiments := sentiments d;
        usage_logs := usage_logs d; pipeline_runs := pipeline_runs d;
        seq_links := id; seq_articles := seq_articles d |}).

(** [add_article]: same shape, the UNIQUE constraint is on the article's
    own [url] field. *)
Definition add_article (link_id : nat) (data : article_data) (d : db) : option nat * db :=
  if url_in_articles (ad_url data) d then (None, d)
  else
    let id := S (seq_articles d) in
    (Some id,
     {| links := links d;
        articles := articles d ++
          [{| article_id := id; art_link_id := link_id; art_url := ad_url data;
              art_title := ad_title data; art_author := ad_author data;
              art_publication_date := ad_publication_date data;
              art_raw_text := ad_raw_text data;
              cleaned_text := ad_cleaned_text data; is_analyzed := false |}];
        sentiments := sentiments d; usage_logs := usage_logs d;
        pipeline_runs := pipeline_runs d;
        seq_links := seq_links d; seq_articles := id |}).

Definition add_sentiment (row : sentiment_row) (d : db) : db :=
  {| links := links d; articles := articles d;
     sentiments := sentiments d ++ [row];
     usage_logs := usage_logs d; pipeline_runs := pipeline_runs d;
     seq_links := seq_links d; seq_articles := seq_articles d |}.

Definition add_usage_log (article_id : nat) (provider : string) (u : usage_stats) (d : db) : db :=
  {| links := links d; articles := articles d; sentiments := sentiments d;
     usage_logs := usage_logs d ++
       [{| u_article_id := article_id; u_provider := provider; u_stats := u |}];
     pipeline_runs := pipeline_runs d;
     seq_links := seq_links d; seq_articles := seq_articles d |}.

Definition add_pipeline_run (s : stats) (d : db) : db :=
  {| links := links d; articles := articles d; sentiments := sentiments d;
     usage_logs := usage_logs d;
     pipeline_runs := pipeline_runs d ++
       [{| new_links_found := get_default (st_new_links_found s) 0;
           articles_scraped := get_default (st_articles_scraped s) 0;
           entities_analyzed := get_default (st_entities_analyzed s) 0;
           run_status := get_default (st_status s) "Completed" |}];
     seq_links := seq_links d; seq_articles := seq_articles d |}.

(** [links l LEFT JOIN articles a ON l.id = a.link_id WHERE a.id IS NULL] *)
Definition get_unscraped_links (d : db) : list link_row :=
  filter (fun l => negb (existsb (fun a => Nat.eqb (art_link_id a) (link_id l)) (articles d)))
         (links d).

Definition text_ok (t : option string) : bool :=
  match t with
  | None => false
  | Some s => negb (String.eqb s "N/A")
  end.

(** [WHERE is_analyzed = 0 AND cleaned_text IS NOT NULL AND cleaned_text != "N/A"] *)
Definition unanalyzed (a : article_row) : bool :=
  negb (is_analyzed a) && text_ok (cleaned_text a).

(** the dicts [{'id': ..., 'text': ...}] the query returns *)
Record todo := { todo_id : nat; todo_text : string }.

Definition to_todo (a : article_row) : todo :=
  {| todo_id := article_id a; todo_text := get_default (cleaned_text a) "" |}.

Definition get_unanalyzed_articles (d : db) : list todo :=
  map to_todo (filter unanalyzed (articles d)).

Definition set_analyzed (a : article_row) : article_row :=
  {| article_id := article_id a; art_link_id := art_link_id a; art_url := art_url a;
     art_title := art_title a; art_author := art_author a;
     art_publication_date := art_publication_date a; art_raw_text := art_raw_text a;
     cleaned_text := cleaned_text a; is_analyzed := true |}.

(** [UPDATE articles SET is_analyzed = 1 WHERE id = ?] *)
Definition mark_article_as_analyzed (id : nat) (d : db) : db :=
  {| links := links d;
     articles := map (fun a => if Nat.eqb (article_id a) id then set_analyzed a else a) (articles d);
     sentiments := sentiments d; usage_logs := usage_logs d;
     pipeline_runs := pipeline_runs d;
     seq_links := seq_links d; seq_articles := seq_articles d |}.

End Database.

Import Database.

(** ** The objects the orchestration passes around *)

(** A scraper module that passed validation: its [SOURCE_NAME] and its two
    functions.  What the functions return is the adapter's output; they touch
    the network only, so they are values here. *)
Record scraper := {
  SOURCE_NAME : string;
  get_article_urls : result (list string);
  scrape_article_content : string -> result (option article_data) }.

(** A module attribute as [hasattr]/[isinstance]/[inspect.isfunction] see it. *)
Inductive attr (A : Type) : Type :=
| Absent
| WrongType
| Has (a : A).
Arguments Absent {A}.
Arguments WrongType {A}.
Arguments Has {A} a.

(** A candidate module found in the [scrapers] directory. *)
Record pymodule := {
  attr_SOURCE_NAME : attr string;
  attr_get_article_urls : attr (result (list string));
  attr_scrape_article_content : attr (string -> result (option article_data)) }.

(** A directory entry with what [importlib.import_module] does on it. *)
Record dir_entry := {
  filename : string;
  import_module : result pymodule }.

(** One [EntitySentiment] of the extractor's answer. *)
Record entity := {
  e_entity_name : string;
  e_entity_type : string;
  e_financial_sentiment : string;
  e_overall_sentiment : string;
  e_reasoning : string }.

(** A constructed [SentimentAnalyzer]: the language-model call is external. *)
Record analyzer := {
  provider : string;
  analyze_text_for_sentiment : string -> result (list entity * option usage_stats) }.

(** the keyword arguments of [SentimentAnalyzer] *)
Record llm_config := {
  cfg_provider : option string;
  cfg_model_name : option string;
  cfg_openai_api_key : option string;
  cfg_groq_api_key : option string }.

Definition default_llm_config : llm_config :=
  {| cfg_provider := None; cfg_model_name := None;
     cfg_openai_api_key := None; cfg_groq_api_key := None |}.

(** [app.pipeline_status_tracker]; [stop_event] holds the identity of the
    run's [threading.Event]. *)
Record tracker := {
  is_running : bool;
  status : string;
  progress : nat;
  total : nat;
  current_task : string;
  stop_event : option nat }.

(** Ghost trace: calls whose occurrence the properties speak about. *)
Inductive event : Type :=
| EnterScraping                             (* pipeline.run_scraping_pipeline entered *)
| EnterAnalysis                             (* pipeline.run_analysis_pipeline entered *)
| Analyze (article_id : nat)                (* analyzer.analyze_text_for_sentiment called *)
| AnalyzeFailed (article_id : nat) (e : exn). (* the except branch of the analysis loop *)

(** The process state. *)
Record world := {
  w_db : db;                          (* news_data.db *)
  w_tracker : tracker;                (* app.pipeline_status_tracker *)
  w_scraper_cache : Dict.t scraper;   (* scraper_manager._scraper_cache *)
  db_calls : nat;                     (* ghost: database calls made so far *)
  polls : nat;                        (* ghost: is_set() calls made so far *)
  scans : nat;                        (* ghost: os.listdir calls made so far *)
  events_made : nat;                  (* ghost: threading.Event objects made *)
  trace : list event }.

(** What the process does not control. *)
Record env := {
  (** failure of the n-th database call other than a constraint violation *)
  fault : nat -> option string;
  (** [stop_at ev = Some k]: event [ev] is set from the k-th poll on *)
  stop_at : nat -> option nat;
  (** [os.listdir(scrapers_dir)] at the n-th scan: the content of the
      directory, or the exception of a directory that cannot be listed
      (an [OSError]) *)
  listdir : nat -> result (list dir_entry);
  (** the constructor of the extractor *)
  SentimentAnalyzer : llm_config -> result analyzer }.

Definition with_db (d : db) (w : world) : world :=
  {| w_db := d; w_tracker := w_tracker w; w_scraper_cache := w_scraper_cache w;
     db_calls := db_calls w; polls := polls w; scans := scans w;
     events_made := events_made w; trace := trace w |}.

Definition with_tracker (t : tracker) (w : world) : world :=
  {| w_db := w_db w; w_tracker := t; w_scraper_cache := w_scraper_cache w;
     db_calls := db_calls w; polls := polls w; scans := scans w;
     events_made := events_made w; trace := trace w |}.

Definition with_cache (c : Dict.t scraper) (w : world) : world :=
  {| w_db := w_db w; w_tracker := w_tracker w; w_scraper_cache := c;
     db_calls := db_calls w; polls := polls w; scans := scans w;
     events_made := events_made w; trace := trace w |}.

Definition tick_db (w : world) : world :=
  {| w_db := w_db w; w_tracker := w_tracker w; w_scraper_cache := w_scraper_cache w;
     db_calls := S (db_calls w); polls := polls w; scans := scans w;
     events_made := events_made w; trace := trace w |}.

Definition tick_poll (w : world) : world :=
  {| w_db := w_db w; w_tracker := w_tracker w; w_scraper_cache := w_scraper_cache w;
     db_calls := db_calls w; polls := S (polls w); scans := scans w;
     events_made := events_made w; trace := trace w |}.

Definition tick_scan (w : world) : world :=
  {| w_db := w_db w; w_tracker := w_tracker w; w_scraper_cache := w_scraper_cache w;
     db_calls := db_calls w; polls := polls w; scans := S (scans w);
     events_made := events_made w; trace := trace w |}.

Definition tick_event (w : world) : world :=
  {| w_db := w_db w; w_tracker := w_tracker w; w_scraper_cache := w_scraper_cache w;
     db_calls := db_calls w; polls := polls w; scans := scans w;
     events_made := S (events_made w); trace := trace w |}.

Definition log (e : event) (w : world) : world :=
  {| w_db := w_db w; w_tracker := w_tracker w; w_scraper_cache := w_scraper_cache w;
     db_calls := db_calls w; polls := polls w; scans := scans w;
     events_made := events_made w; trace := trace w ++ [e] |}.

(** ** The state monad, with exceptions as results *)

Definition St (A : Type) : Type := world -> A * world.

Definition ret {A} (a : A) : St A := fun w => (a, w).

Definition bind {A B} (m : St A) (f : A -> St B) : St B :=
  fun w => match m w with (a, w') => f a w' end.

Declare Scope st_scope.
Delimit Scope st_scope with st.
Notation "x <- m ;; k" := (bind m (fun x => k))
  (at level 61, m at next level, right associativity) : st_scope.
Notation "m ;; k" := (bind m (fun _ => k))
  (at level 61, right associativity) : st_scope.
Local Open Scope st_scope.

(** a computation that may raise *)
Definition M (A : Type) : Type := St (result A).

(** sequencing that stops at the first exception *)
Definition bindM {A B} (m : M A) (f : A -> M B) : M B :=
  r <- m ;; match r with Ok a => f a | Raise e => ret (Raise e) end.

Notation "x <~ m ;; k" := (bindM m (fun x => k))
  (at level 61, m at next level, right associativity) : st_scope.

(** [try: m  except Exception as e: h e] *)
Definition try_except {A} (m : M A) (h : exn -> M A) : M A :=
  r <- m ;; match r with Ok a => ret (Ok a) | Raise e => h e end.

(** [try: m  finally: f], where [f] does not raise *)
Definition try_finally {A} (m : M A) (f : St unit) : M A :=
  r <- m ;; f ;; ret r.

Definition modify (f : world -> world) : St unit := fun w => (tt, f w).

Definition update_tracker (f : tracker -> tracker) : St unit :=
  modify (fun w => with_tracker (f (w_tracker w)) w).

Definition set_status (s : string) (t : tracker) : tracker :=
  {| is_running := is_running t; status := s; progress := progress t;
     total := total t; current_task := current_task t; stop_event := stop_event t |}.

Definition set_progress (n : nat) (t : tracker) : tracker :=
  {| is_running := is_running t; status := status t; progress := n;
     total := total t; current_task := current_task t; stop_event := stop_event t |}.

Definition set_current_task (s : string) (t : tracker) : tracker :=
  {| is_running := is_running t; status := status t; progress := progress t;
     total := total t; current_task := s; stop_event := stop_event t |}.

Definition set_is_running (b : bool) (t : tracker) : tracker :=
  {| is_running := b; status := status t; progress := progress t;
     total := total t; current_task := current_task t; stop_event := stop_event t |}.

Definition set_stop_event (ev : option nat) (t : tracker) : tracker :=
  {| is_running := is_running t; status := status t; progress := progress t;
     total := total t; current_task := current_task t; stop_event := ev |}.

(** [status_tracker.update({'status': s, 'progress': 0, 'total': n})] *)
Definition set_phase (s : string) (n : nat) (t : tracker) : tracker :=
  {| is_running := is_running t; status := s; progress := 0;
     total := n; current_task := current_task t; stop_event := stop_event t |}.

Section Program.

Variable E : env.

(** A database call: the environment may make it fail before it touches the
    store; otherwise it runs. *)
Definition db_call {A} (f : db -> A * db) : M A :=
  fun w =>
    match fault E (db_calls w) with
    | Some msg => (Raise (OperationalError msg), tick_db w)
    | None => match f (w_db w) with (a, d) => (Ok a, with_db d (tick_db w)) end
    end.

Definition db_write (f : db -> db) : M unit := db_call (fun d => (tt, f d)).
Definition db_read {A} (f : db -> A) : M A := db_call (fun d => (f d, d)).

(** [stop_event.is_set()] *)
Definition is_set (ev : nat) : St bool :=
  fun w =>
    (match stop_at E ev with Some k => k <=? polls w | None => false end,
     tick_poll w).

(** [threading.Event()] *)
Definition new_event : St nat :=
  fun w => (events_made w, tick_event w).

(** ** scrapers/scraper_manager.py *)

Definition startswith (s p : string) : bool := String.prefix p s.

Definition endswith (s suffix : string) : bool :=
  (String.length suffix <=? String.length s) &&
  String.eqb (substring (String.length s - String.length suffix) (String.length suffix) s) suffix.

(** the validation of [discover_scrapers] *)
Definition validate (m : pymodule) : option scraper :=
  match attr_SOURCE_NAME m, attr_get_article_urls m, attr_scrape_article_content m with
  | Has name, Has urls, Has content =>
      Some {| SOURCE_NAME := name; get_article_urls := urls;
              scrape_article_content := content |}
  | _, _, _ => None
  end.

(** the [for filename in os.listdir(scrapers_dir)] loop *)
Fixpoint scan (entries : list dir_entry) (discovered_scrapers : Dict.t scraper)
  : result (Dict.t scraper) :=
  match entries with
  | [] => Ok discovered_scrapers
  | entry :: rest =>
      if endswith (filename entry) "_scraper.py" && negb (startswith (filename entry) "__")
      then
        match import_module entry with
        | Ok module =>
            match validate module with
            | Some s => scan rest (Dict.set discovered_scrapers (SOURCE_NAME s) s)
            | None => scan rest discovered_scrapers
            end
        | Raise (ImportError _) => scan rest discovered_scrapers
        | Raise e => Raise e
        end
      else scan rest discovered_scrapers
  end.

Definition discover_scrapers : M (Dict.t scraper) :=
  fun w =>
    if Dict.truthy (w_scraper_cache w) then (Ok (w_scraper_cache w), w)
    else
      match listdir E (scans w) with
      | Raise e => (Raise e, tick_scan w)          (* line 28, outside the [try] *)
      | Ok entries =>
          match scan entries (Dict.empty scraper) with
          | Ok discovered_scrapers =>
              (Ok discovered_scrapers, with_cache discovered_scrapers (tick_scan w))
          | Raise e => (Raise e, tick_scan w)
          end
      end.

(** the [for name in names] loop of [get_scraper_modules] *)
Fixpoint select_modules (all_scrapers : Dict.t scraper) (names : list string)
  (selected_modules : list scraper) : list scraper :=
  match names with
  | [] => selected_modules
  | name :: rest =>
      match Dict.get all_scrapers name with
      | Some module => select_modules all_scrapers rest (selected_modules ++ [module])
      | None => select_modules all_scrapers rest selected_modules
      end
  end.

Definition get_scraper_modules (names : option (list string)) : M (list scraper) :=
  all_scrapers <~ discover_scrapers ;;
  match names with
  | None => ret (Ok (Dict.values all_scrapers))
  | Some names => ret (Ok (select_modules all_scrapers names []))
  end.

(** ** pipeline.py *)

(** truth value of what [add_link] returns: a row id, or [None] *)
Definition truthy_id (r : option nat) : bool :=
  match r with Some id => negb (id =? 0) | None => false end.

Definition scraping_stats (new_links_found articles_scraped : nat) : stats :=
  {| st_new_links_found := Some new_links_found;
     st_articles_scraped := Some articles_scraped;
     st_entities_analyzed := None; st_status := None |}.

Definition analysis_stats (entities_analyzed : nat) : stats :=
  {| st_new_links_found := None; st_articles_scraped := None;
     st_entities_analyzed := Some entities_analyzed; st_status := None |}.

Definition status_stats (s : string) : stats :=
  {| st_new_links_found := None; st_articles_scraped := None;
     st_entities_analyzed := None; st_status := Some s |}.

(** The [for url in urls] loop.  It returns the counter and, when a database
    call raised, the exception that left the loop. *)
Fixpoint add_links (source_name : string) (urls : list string) (new_links_found : nat)
  : St (nat * option exn) :=
  match urls with
  | [] => ret (new_links_found, None)
  | url :: rest =>
      r <- db_call (add_link url source_name) ;;
      match r with
      | Raise e => ret (new_links_found, Some e)
      | Ok id =>
          add_links source_name rest
            (if truthy_id id then new_links_found + 1 else new_links_found)
      end
  end.

(** Step 1, the [for i, scraper in enumerate(scraper_modules)] loop: the
    counter when the loop ends, or the dict of the early [return]. *)
Fixpoint scrape_links (stop_event : nat) (scraper_modules : list scraper)
  (i new_links_found : nat) : St (nat + stats) :=
  match scraper_modules with
  | [] => ret (inl new_links_found)
  | scraper :: rest =>
      stop <- is_set stop_event ;;
      if stop then
        update_tracker (set_status "Stopping...") ;;
        ret (inr (scraping_stats new_links_found 0))
      else
        update_tracker
          (set_current_task ("Fetching links from " ++ SOURCE_NAME scraper)) ;;
        match get_article_urls scraper with
        | Raise _ =>
            update_tracker (set_progress (i + 1)) ;;
            scrape_links stop_event rest (i + 1) new_links_found
        | Ok [] =>                       (* continue *)
            scrape_links stop_event rest (i + 1) new_links_found
        | Ok urls =>
            r <- add_links (SOURCE_NAME scraper) urls new_links_found ;;
            update_tracker (set_progress (i + 1)) ;;
            scrape_links stop_event rest (i + 1) (fst r)
        end
  end.

(** [{getattr(s, 'SOURCE_NAME', 'Unknown'): s for s in scraper_modules}] *)
Definition scraper_map (scraper_modules : list scraper) : Dict.t scraper :=
  fold_left (fun d s => Dict.set d (SOURCE_NAME s) s) scraper_modules (Dict.empty scraper).

(** Step 2, the [for i, link in enumerate(links_to_scrape)] loop. *)
Fixpoint scrape_articles (stop_event : nat) (smap : Dict.t scraper)
  (links_to_scrape : list link_row) (i articles_scraped_count : nat) : St nat :=
  match links_to_scrape with
  | [] => ret articles_scraped_count
  | link :: rest =>
      stop <- is_set stop_event ;;
      if stop then
        update_tracker (set_status "Stopping...") ;;
        ret articles_scraped_count            (* break *)
      else
        match Dict.get smap (source_website link) with
        | Some scraper_to_use =>
            match scrape_article_content scraper_to_use (link_url link) with
            | Ok (Some article_data) =>
                r <- db_call (add_article (link_id link) article_data) ;;
                match r with
                | Ok _ =>
                    update_tracker (set_current_task ("Scraped: " ++ ad_title article_data)) ;;
                    update_tracker (set_progress (i + 1)) ;;
                    scrape_articles stop_event smap rest (i + 1) (articles_scraped_count + 1)
                | Raise _ =>
                    update_tracker (set_progress (i + 1)) ;;
                    scrape_articles stop_event smap rest (i + 1) articles_scraped_count
                end
            | Ok None | Raise _ =>
                update_tracker (set_progress (i + 1)) ;;
                scrape_articles stop_event smap rest (i + 1) articles_scraped_count
            end
        | None =>
            update_tracker (set_progress (i + 1)) ;;
            scrape_articles stop_event smap rest (i + 1) articles_scraped_count
        end
  end.

Definition run_scraping_pipeline (scraper_modules : list scraper) (stop_event : nat)
  : M stats :=
  modify (log EnterScraping) ;;
  update_tracker (fun t =>
    set_current_task "Fetching article lists from sources."
      (set_phase "Scraping links" (List.length scraper_modules) t)) ;;
  r <- scrape_links stop_event scraper_modules 0 0 ;;
  match r with
  | inr early => ret (Ok early)
  | inl new_links_found =>
      stop <- is_set stop_event ;;
      if stop then ret (Ok (scraping_stats new_links_found 0))
      else
        links_to_scrape <~ db_read get_unscraped_links ;;
        update_tracker (set_phase "Scraping articles" (List.length links_to_scrape)) ;;
        match links_to_scrape with
        | [] =>
            update_tracker (set_current_task "No new articles to scrape.") ;;
            ret (Ok (scraping_stats new_links_found 0))
        | _ :: _ =>
            n <- scrape_articles stop_event (scraper_map scraper_modules)
                   links_to_scrape 0 0 ;;
            ret (Ok (scraping_stats new_links_found n))
        end
  end.

Definition sentiment_of (article_id : nat) (e : entity) : sentiment_row :=
  {| s_article_id := article_id; entity_name := e_entity_name e;
     entity_type := e_entity_type e;
     financial_sentiment := e_financial_sentiment e;
     overall_sentiment := e_overall_sentiment e; reasoning := e_reasoning e |}.

(** the [for entity in entities_list] loop *)
Fixpoint add_sentiments (article_id : nat) (entities_list : list entity)
  (sentiments_found_count : nat) : St (nat * option exn) :=
  match entities_list with
  | [] => ret (sentiments_found_count, None)
  | entity :: rest =>
      r <- db_write (add_sentiment (sentiment_of article_id entity)) ;;
      match r with
      | Raise e => ret (sentiments_found_count, Some e)
      | Ok _ => add_sentiments article_id rest (sentiments_found_count + 1)
      end
  end.

(** The [try] block of the analysis loop for one article: the counter, and
    the exception that left the block, if one did. *)
Definition analyze_article (a : analyzer) (article : todo) (sentiments_found_count : nat)
  : St (nat * option exn) :=
  modify (log (Analyze (todo_id article))) ;;
  match analyze_text_for_sentiment a (todo_text article) with
  | Raise e => ret (sentiments_found_count, Some e)
  | Ok (entities_list, usage) =>
      r1 <- match usage with
            | Some u => db_write (add_usage_log (todo_id article) (provider a) u)
            | None => ret (Ok tt)
            end ;;
      match r1 with
      | Raise e => ret (sentiments_found_count, Some e)
      | Ok _ =>
          r2 <- add_sentiments (todo_id article) entities_list sentiments_found_count ;;
          match snd r2 with
          | Some e => ret (fst r2, Some e)
          | None =>
              r3 <- db_write (mark_article_as_analyzed (todo_id article)) ;;
              match r3 with
              | Raise e => ret (fst r2, Some e)
              | Ok _ => ret (fst r2, None)
              end
          end
      end
  end.

(** the [for i, article in enumerate(articles_to_analyze)] loop *)
Fixpoint analyze_articles (stop_event : nat) (a : analyzer)
  (articles_to_analyze : list todo) (i sentiments_found_count : nat) : St nat :=
  match articles_to_analyze with
  | [] => ret sentiments_found_count
  | article :: rest =>
      stop <- is_set stop_event ;;
      if stop then
        update_tracker (set_status "Stopping...") ;;
        ret sentiments_found_count            (* break *)
      else
        update_tracker
          (set_current_task ("Analyzing article ID: " ++ str_of_nat (todo_id article))) ;;
        r <- analyze_article a article sentiments_found_count ;;
        match snd r with
        | Some e => modify (log (AnalyzeFailed (todo_id article) e))
        | None => ret tt
        end ;;
        update_tracker (set_progress (i + 1)) ;;
        analyze_articles stop_event a rest (i + 1) (fst r)
  end.

Definition run_analysis_pipeline (stop_event : nat) (kwargs : llm_config) : M stats :=
  modify (log EnterAnalysis) ;;
  match SentimentAnalyzer E kwargs with
  | Raise e =>
      update_tracker (set_status ("Error: " ++ str e)) ;;
      ret (Ok (analysis_stats 0))
  | Ok a =>
      articles_to_analyze <~ db_read get_unanalyzed_articles ;;
      update_tracker (set_phase "Analyzing sentiment" (List.length articles_to_analyze)) ;;
      match articles_to_analyze with
      | [] =>
          update_tracker (set_current_task "No new articles to analyze.") ;;
          ret (Ok (analysis_stats 0))
      | _ :: _ =>
          n <- analyze_articles stop_event a articles_to_analyze 0 0 ;;
          ret (Ok (analysis_stats n))
      end
  end.

(** ** app.py: the job controller *)

(** the value of [pipeline_status_tracker] at start-up and after every
    clean-up *)
Definition idle_tracker : tracker :=
  {| is_running := false; status := "Idle"; progress := 0; total := 0;
     current_task := "N/A"; stop_event := None |}.

(** the arguments [threading.Thread] is given *)
Record thread_args := {
  scraper_mods : list scraper;
  th_stop_event : nat;
  th_llm_config : llm_config }.

(** the JSON body of a trigger request, as far as the controller reads it *)
Record request := {
  req_scrapers : option (list string);
  req_llm_config : llm_config }.

Record response := {
  code : nat;
  message : string }.

(** lines 224-225 of [pipeline_task] *)
Definition task_begin (stop_event : nat) : St unit :=
  update_tracker (set_is_running true) ;;
  update_tracker (set_stop_event (Some stop_event)).

(** the [finally] block *)
Definition reset_tracker : St unit :=
  update_tracker (fun _ => idle_tracker).

(** the [except Exception as e] block *)
Definition record_failure (e : exn) : M unit :=
  db_write (add_pipeline_run (status_stats ("Failed: " ++ str e))).

(** the [try] block of [pipeline_task] *)
Definition task_body (args : thread_args) : M unit :=
  scraping <~ run_scraping_pipeline (scraper_mods args) (th_stop_event args) ;;
  stop1 <- is_set (th_stop_event args) ;;
  analysis <~ (if negb stop1
               then run_analysis_pipeline (th_stop_event args) (th_llm_config args)
               else ret (Ok empty_stats)) ;;
  stop2 <- is_set (th_stop_event args) ;;
  db_write (add_pipeline_run
    (merge (merge scraping analysis)
           (status_stats (if stop2 then "Stopped by user" else "Completed")))).

(** what is left of [pipeline_task] after lines 224-225 *)
Definition task_run (args : thread_args) : M unit :=
  try_finally (try_except (task_body args) record_failure) reset_tracker.

Definition pipeline_task (args : thread_args) : M unit :=
  task_begin (th_stop_event args) ;;
  task_run args.

(** [trigger_pipeline]: the response, and the arguments of the thread it
    started, if it started one. *)
Definition trigger_pipeline (req : request) : St (response * option thread_args) :=
  fun w =>
    if is_running (w_tracker w)
    then (({| code := 409; message := "A pipeline is already running." |}, None), w)
    else
      (r <- get_scraper_modules (req_scrapers req) ;;
       match r with
       | Raise e =>
           ret ({| code := 500; message := "Failed to load scraper modules." |}, None)
       | Ok [] =>
           ret ({| code := 400;
                   message := "No valid scrapers found for the given selection." |}, None)
       | Ok scraper_modules =>
           stop_event <- new_event ;;
           ret ({| code := 202;
                   message := "Pipeline triggered successfully in the background." |},
                Some {| scraper_mods := scraper_modules; th_stop_event := stop_event;
                        th_llm_config := req_llm_config req |})
       end) w.

(** the [try] block of [scheduled_pipeline_run] *)
Definition scheduled_body (scraper_modules : list scraper) (stop_event : nat) : M unit :=
  scraping <~ run_scraping_pipeline scraper_modules stop_event ;;
  analysis <~ run_analysis_pipeline stop_event default_llm_config ;;
  db_write (add_pipeline_run
    (merge (merge scraping analysis) (status_stats "Completed"))).

Definition scheduled_pipeline_run : St unit :=
  fun w =>
    if is_running (w_tracker w) then (tt, w)
    else
      (stop_event <- new_event ;;
       r <- get_scraper_modules None ;;
       match r with
       | Raise _ => ret tt
       | Ok [] => ret tt
       | Ok scraper_modules =>
           task_begin stop_event ;;
           _ <- try_finally
                  (try_except (scheduled_body scraper_modules stop_event) record_failure)
                  reset_tracker ;;
           ret tt
       end) w.

(** what [get_pipeline_status] returns: the tracker without [stop_event] *)
Record status_snapshot := {
  snap_is_running : bool;
  snap_status : string;
  snap_progress : nat;
  snap_total : nat;
  snap_current_task : string }.

Definition get_pipeline_status (w : world) : status_snapshot :=
  {| snap_is_running := is_running (w_tracker w);
     snap_status := status (w_tracker w);
     snap_progress := progress (w_tracker w);
     snap_total := total (w_tracker w);
     snap_current_task := current_task (w_tracker w) |}.

(** *** The request handler and the background threads, interleaved

    [thread.start()] returns to the handler once the thread exists; the
    thread reaches line 224 whenever it is scheduled.  A thread is therefore
    first [started] (created, line 224 not yet executed) and then [inside]
    the run body until its [finally] block has run. *)

Record system := {
  sys_world : world;
  started : list thread_args;
  inside : list thread_args;
  responses : list response }.

Inductive action : Type :=
| Trigger (req : request)   (* a POST /api/trigger_pipeline is handled *)
| Enter (i : nat)           (* the i-th started thread executes lines 224-225 *)
| Leave (i : nat).          (* the i-th thread inside runs to its end *)

Fixpoint remove_nth {A} (i : nat) (l : list A) : list A :=
  match l, i with
  | [], _ => []
  | _ :: l', 0 => l'
  | x :: l', S i' => x :: remove_nth i' l'
  end.

Definition sys_step (s : system) (a : action) : system :=
  match a with
  | Trigger req =>
      match trigger_pipeline req (sys_world s) with
      | ((resp, th), w') =>
          {| sys_world := w';
             started := started s ++ match th with Some t => [t] | None => [] end;
             inside := inside s;
             responses := responses s ++ [resp] |}
      end
  | Enter i =>
      match nth_error (started s) i with
      | Some t =>
          {| sys_world := snd (task_begin (th_stop_event t) (sys_world s));
             started := remove_nth i (started s);
             inside := inside s ++ [t];
             responses := responses s |}
      | None => s
      end
  | Leave i =>
      match nth_error (inside s) i with
      | Some t =>
          {| sys_world := snd (task_run t (sys_world s));
             started := started s;
             inside := remove_nth i (inside s);
             responses := responses s |}
      | None => s
      end
  end.

Definition sys_run (s : system) (actions : list action) : system :=
  fold_left sys_step actions s.

End Program.

(** the process right after start-up, on a fresh database *)
Definition initial_world : world :=
  {| w_db := create_database; w_tracker := idle_tracker;
     w_scraper_cache := Dict.empty scraper;
     db_calls := 0; polls := 0; scans := 0; events_made := 0; trace := [] |}.

Definition initial_system : system :=
  {| sys_world := initial_world; started := []; inside := []; responses := [] |}.

(** * Definitions used to state the properties *)

(** The adapters a name list designates, in the words of the specification:
    the adapters matching the given names, in the order requested, unknown
    names dropped. *)
Definition resolve_spec (registry : Dict.t scraper) (names : list string) : list scraper :=
  flat_map (fun name =>
              match Dict.get registry name with
              | Some adapter => [adapter]
              | None => []
              end) names.

(** the events a computation added to the trace *)
Definition new_events (w w' : world) : list event :=
  skipn (List.length (trace w)) (trace w').

(** ** Concrete inputs of the examples *)

Definition quiet_env (dir : list dir_entry) (mk : llm_config -> result analyzer) : env :=
  {| fault := fun _ => None; stop_at := fun _ => None;
     listdir := fun _ => Ok dir; SentimentAnalyzer := mk |}.

Definition no_analyzer (_ : llm_config) : result analyzer :=
  Raise (PyException "OpenAI API key not found.").

Definition page (url : string) : article_data :=
  {| ad_url := url; ad_title := "t"; ad_author := "a"; ad_publication_date := "d";
     ad_raw_text := "raw"; ad_cleaned_text := Some "text" |}.

(** one source with a single reference whose content echoes the locator *)
Definition alpha : scraper :=
  {| SOURCE_NAME := "alpha.com";
     get_article_urls := Ok ["https://alpha.com/1"];
     scrape_article_content := fun url => Ok (Some (page url)) |}.

Definition module_of (s : scraper) : pymodule :=
  {| attr_SOURCE_NAME := Has (SOURCE_NAME s);
     attr_get_article_urls := Has (get_article_urls s);
     attr_scrape_article_content := Has (scrape_article_content s) |}.

Definition alpha_entry : dir_entry :=
  {| filename := "alpha_scraper.py"; import_module := Ok (module_of alpha) |}.

(** an empty [scrapers] directory, then one holding [alpha_scraper.py] *)
Definition late_env : env :=
  {| fault := fun _ => None; stop_at := fun _ => None;
     listdir := fun n => Ok (match n with 0 => [] | S _ => [alpha_entry] end);
     SentimentAnalyzer := no_analyzer |}.

(** a [scrapers] directory whose only scraper cannot be imported (a missing
    dependency, say) *)
Definition unimportable_env : env :=
  quiet_env
    [{| filename := "zawya_scraper.py";
        import_module := Raise (ImportError "No module named 'bs4'") |}]
    no_analyzer.

(** the process with [alpha_scraper.py] installed and no extractor key *)
Definition alpha_env : env := quiet_env [alpha_entry] no_analyzer.

(** a run is active *)
Definition busy_world : world :=
  with_tracker (set_is_running true idle_tracker) initial_world.

Definition request_all : request :=
  {| req_scrapers := None; req_llm_config := default_llm_config |}.

Definition request_unknown : request :=
  {| req_scrapers := Some ["nowhere.org"]; req_llm_config := default_llm_config |}.

(** ** Relations between the world before and after a computation *)

(** What a stage leaves alone: the run log and the registry cache; polls
    only go up; the trace is extended by events satisfying [logged]. *)
Definition stage_frame (logged : event -> Prop) (w w' : world) : Prop :=
  pipeline_runs (w_db w') = pipeline_runs (w_db w) /\
  w_scraper_cache w' = w_scraper_cache w /\
  polls w <= polls w' /\
  db_calls w <= db_calls w' /\
  exists evs, trace w' = trace w ++ evs /\ Forall logged evs.

Definition scraping_event (e : event) : Prop := e = EnterScraping.
Definition analysis_event (e : event) : Prop := e <> EnterScraping.

(** the row [add_pipeline_run] writes for the results of the two stages *)
Definition summary_row (scraping analysis : stats) (run_status : string) : run_row :=
  {| new_links_found := get_default (st_new_links_found scraping) 0;
     articles_scraped := get_default (st_articles_scraped scraping) 0;
     entities_analyzed := get_default (st_entities_analyzed analysis) 0;
     run_status := run_status |}.

(** the row the [except] block writes *)
Definition failed_row (e : exn) : run_row :=
  {| new_links_found := 0; articles_scraped := 0; entities_analyzed := 0;
     run_status := "Failed: " ++ str e |}.

(** the extraction stage as [pipeline_task] runs it after acquisition left
    the world [w1]: skipped when the stop event is set *)
Definition extraction_step (E : env) (args : thread_args) (w1 : world) : result stats * world :=
  if fst (is_set E (th_stop_event args) w1)
  then (Ok empty_stats, tick_poll w1)
  else run_analysis_pipeline E (th_stop_event args) (th_llm_config args) (tick_poll w1).

(** the stop event of every run is set before its second poll *)
Definition cancel_env : env :=
  {| fault := fun _ => None; stop_at := fun _ => Some 1;
     listdir := fun _ => Ok [alpha_entry]; SentimentAnalyzer := no_analyzer |}.

Definition alpha_args : thread_args :=
  {| scraper_mods := [alpha]; th_stop_event := 0; th_llm_config := default_llm_config |}.

(** an extractor that finds no entity and reports no usage *)
Definition mute_analyzer : analyzer :=
  {| provider := "openai"; analyze_text_for_sentiment := fun _ => Ok ([], None) |}.

(** the fourth database call fails *)
Definition broken_env : env :=
  {| fault := fun n => if n =? 3 then Some "disk I/O error" else None;
     stop_at := fun _ => None;
     listdir := fun _ => Ok [alpha_entry];
     SentimentAnalyzer := fun _ => Ok mute_analyzer |}.

(** ** The store over time *)

(** one write of [database.py] *)
Inductive db_step : db -> db -> Prop :=
| step_add_link url source d : db_step d (snd (add_link url source d))
| step_add_article link_id data d : db_step d (snd (add_article link_id data d))
| step_add_sentiment row d : db_step d (add_sentiment row d)
| step_add_usage_log id p u d : db_step d (add_usage_log id p u d)
| step_add_pipeline_run s d : db_step d (add_pipeline_run s d)
| step_mark id d : db_step d (mark_article_as_analyzed id d).

(** [db_later d d']: the store [d'] is [d] after some writes *)
Inductive db_later : db -> db -> Prop :=
| later_now d : db_later d d
| later_then d1 d2 d3 : db_later d1 d2 -> db_step d2 d3 -> db_later d1 d3.

(** article ids are the keys of the [articles] table and were handed out by
    its counter *)
Definition db_wf (d : db) : Prop :=
  NoDup (map article_id (articles d)) /\
  Forall (fun a => article_id a <= seq_articles d) (articles d).

(** the [is_analyzed] flag of the article with the given id *)
Definition analyzed_flag (id : nat) (d : db) : option bool :=
  option_map is_analyzed (find (fun a => article_id a =? id) (articles d)).

(** the ids the unprocessed-item query selects *)
Definition selected_ids (d : db) : list nat :=
  map todo_id (get_unanalyzed_articles d).

(** what a stage leaves of the articles and of the trace when it only
    writes other tables *)
Definition quiet (w w' : world) : Prop :=
  articles (w_db w') = articles (w_db w) /\ trace w' = trace w.

(** What became of one selected item [x] in a run of the analysis loop that
    took the store from [d] to [d'] and logged [evs]: the loop was stopped
    before it; or its [try] block raised; or the block ran to its end. *)
Definition item_outcome (E : env) (ev : nat) (a : analyzer) (evs : list event)
  (d d' : db) (x : todo) : Prop :=
  (stop_at E ev <> None /\
   ~ In (Analyze (todo_id x)) evs /\
   (forall e, ~ In (AnalyzeFailed (todo_id x) e) evs) /\
   analyzed_flag (todo_id x) d' = analyzed_flag (todo_id x) d)
  \/
  (In (Analyze (todo_id x)) evs /\
   (exists e, In (AnalyzeFailed (todo_id x) e) evs /\
      ((forall k, fault E k = None) ->
       analyze_text_for_sentiment a (todo_text x) = Raise e)) /\
   analyzed_flag (todo_id x) d' = analyzed_flag (todo_id x) d)
  \/
  (In (Analyze (todo_id x)) evs /\
   (forall e, ~ In (AnalyzeFailed (todo_id x) e) evs) /\
   (exists r, analyze_text_for_sentiment a (todo_text x) = Ok r) /\
   analyzed_flag (todo_id x) d' =
     option_map (fun _ => true) (analyzed_flag (todo_id x) d)).

(** What left the [try] block of item [x] with the exception [e], in a
    stage whose database calls after the query are numbered from [lo] to
    [hi - 1]: the extractor raised [e] on the text of the item; or the
    extractor returned and the store failed a write of the stage with [e]. *)
Definition block_failure (E : env) (a : analyzer) (x : todo) (e : exn) (lo hi : nat) : Prop :=
  analyze_text_for_sentiment a (todo_text x) = Raise e \/
  ((exists r, analyze_text_for_sentiment a (todo_text x) = Ok r) /\
   exists msg k, e = OperationalError msg /\ fault E k = Some msg /\ lo <= k < hi).

(** the store of [w'] is the store of [w] after some writes *)
Definition world_later (w w' : world) : Prop := db_later (w_db w) (w_db w').

(** a source with two references; the text of the second makes
    [flaky_analyzer] raise *)
Definition beta : scraper :=
  {| SOURCE_NAME := "beta.com";
     get_article_urls := Ok ["https://beta.com/1"; "https://beta.com/2"];
     scrape_article_content := fun url =>
       Ok (Some {| ad_url := url; ad_title := "t"; ad_author := "a";
                   ad_publication_date := "d"; ad_raw_text := "raw";
                   ad_cleaned_text :=
                     Some (if String.eqb url "https://beta.com/2" then "bad" else "good") |}) |}.

Definition beta_entry : dir_entry :=
  {| filename := "beta_scraper.py"; import_module := Ok (module_of beta) |}.

(** an extractor that raises on the text "bad" and finds no entity otherwise *)
Definition flaky_analyzer : analyzer :=
  {| provider := "openai";
     analyze_text_for_sentiment := fun text =>
       if String.eqb text "bad" then Raise (PyException "model unavailable")
       else Ok ([], None) |}.

Definition flaky_env : env := quiet_env [beta_entry] (fun _ => Ok flaky_analyzer).

Definition beta_args : thread_args :=
  {| scraper_mods := [beta]; th_stop_event := 0; th_llm_config := default_llm_config |}.

(** [beta_scraper.py] installed and an extractor that finds nothing; the
    store fails the seventh database call, which in a run from the empty
    store is the [mark_article_as_analyzed] of the first article *)
Definition locked_env : env :=
  {| fault := fun n => if n =? 6 then Some "database is locked" else None;
     stop_at := fun _ => None;
     listdir := fun _ => Ok [beta_entry];
     SentimentAnalyzer := fun _ => Ok mute_analyzer |}.

(** the process after acquisition has stored the two articles of [beta] *)
Definition two_articles : world :=
  snd (run_scraping_pipeline flaky_env [beta] 0 initial_world).

Definition good_item : todo := {| todo_id := 1; todo_text := "good" |}.

(** ** Schedules in which a started thread is not overtaken

    Every thread a trigger starts executes lines 224-225 before the next
    request is handled. *)
Inductive prompt_action : Type :=
| Request (req : request)   (* a trigger is handled; the thread it starts enters *)
| Finish.                   (* the thread inside runs to its end *)

Definition prompt_step (E : env) (s : system) (a : prompt_action) : system :=
  match a with
  | Request req => sys_step E (sys_step E s (Trigger req)) (Enter 0)
  | Finish => sys_step E s (Leave 0)
  end.

(** no thread is waiting to enter, at most one is inside, and [is_running]
    says whether one is *)
Definition single_flight (s : system) : Prop :=
  started s = [] /\
  ((inside s = [] /\ is_running (w_tracker (sys_world s)) = false) \/
   (exists t, inside s = [t] /\ is_running (w_tracker (sys_world s)) = true)).

(** a source whose two references lead to pages with one canonical address,
    as [gulfnews_scraper] returns it from [link rel=canonical] *)
Definition gamma : scraper :=
  {| SOURCE_NAME := "gamma.com";
     get_article_urls := Ok ["https://gamma.com/a/story-1.1"; "https://gamma.com/b/story-1.1"];
     scrape_article_content := fun _ => Ok (Some (page "https://gamma.com/story-1.1")) |}.

Definition gamma_entry : dir_entry :=
  {| filename := "gamma_scraper.py"; import_module := Ok (module_of gamma) |}.

Definition gamma_env : env := quiet_env [gamma_entry] no_analyzer.

(** a computation respects the relation [R] when [R] holds between the
    world before and the world after, whatever the world before *)
Definition respects (R : world -> world -> Prop) {A} (m : St A) : Prop :=
  forall w, R w (snd (m w)).

(** every reference the adapters return is stored already *)
Definition refs_known (mods : list scraper) (d : db) : Prop :=
  forall s urls u,
    In s mods -> get_article_urls s = Ok urls -> In u urls ->
    url_in_links u d = true.

(** the [links] table is the same *)
Definition same_links (w w' : world) : Prop := links (w_db w') = links (w_db w).

(** ** Adapters whose content carries the locator it was fetched for *)

Definition echoes (s : scraper) : Prop :=
  forall u data, scrape_article_content s u = Ok (Some data) -> ad_url data = u.

(** a link has an article *)
Definition scraped (l : link_row) (d : db) : bool :=
  existsb (fun a => Nat.eqb (art_link_id a) (link_id l)) (articles d).

(** Links have their own locators and ids, the ids were handed out by the
    counter, and every article carries the locator of the link it belongs
    to. *)
Definition links_wf (d : db) : Prop :=
  NoDup (map link_url (links d)) /\
  NoDup (map link_id (links d)) /\
  Forall (fun l => link_id l <= seq_links d) (links d) /\
  (forall a, In a (articles d) ->
     exists l, In l (links d) /\ link_id l = art_link_id a /\ link_url l = art_url a).

(** a link step 2 cannot turn into an article: no adapter is selected for
    its source, or the adapter has no content for it *)
Definition unavailable (smap : Dict.t scraper) (l : link_row) : Prop :=
  match Dict.get smap (source_website l) with
  | None => True
  | Some s =>
      match scrape_article_content s (link_url l) with
      | Ok (Some _) => False
      | _ => True
      end
  end.

(** the relation [links_wf] is kept *)
Definition keeps_links_wf (w w' : world) : Prop :=
  links_wf (w_db w) -> links_wf (w_db w').

(** * The rest of the orchestration code *)

(** ** scrapers/scraper_manager.py: the listing of source names *)

(** [sorted] on a list of [str].  Python orders strings lexicographically by
    code point, which is [String.leb]; the order is total and antisymmetric,
    so the sorted list does not depend on the algorithm.  Insertion into a
    sorted list is used here. *)
Fixpoint insort (x : string) (l : list string) : list string :=
  match l with
  | [] => [x]
  | y :: l' => if String.leb x y then x :: l else y :: insort x l'
  end.

Definition sorted (l : list string) : list string := fold_right insort [] l.

Definition get_all_scraper_names (E : env) : M (list string) :=
  scrapers <~ discover_scrapers E ;;
  ret (Ok (sorted (Dict.keys scrapers))).

(** app.py, [list_scrapers]: the JSON list, or the error response *)
Definition list_scrapers (E : env) : St (list string + response) :=
  r <- get_all_scraper_names E ;;
  match r with
  | Ok scraper_names => ret (inl scraper_names)
  | Raise e => ret (inr {| code := 500; message := "Could not retrieve scraper list." |})
  end.

(** ** analysis/sentiment_analyzer.py *)

(** One pass through the [try] body of the retry loop (lines 133-147): the
    chain answers with entities and the usage the callback collected, or an
    exception leaves the body. *)
Inductive attempt_result : Type :=
| Answered (entities : list entity) (usage : usage_stats)
| ValidationError (msg : string)       (* pydantic.v1.ValidationError *)
| OtherException (msg : string).       (* any other subclass of Exception *)

(** a chain, as the loop uses it: the text and the number of the attempt
    give the outcome *)
Definition chain : Type := string -> nat -> attempt_result.

(** What the class does not control: the process environment and the
    language-model libraries. *)
Record llm_env := {
  (** [os.getenv] *)
  getenv : string -> option string;
  (** [ChatOpenAI(...)] or [ChatGroq(...)] piped after the prompt, for a
      provider, a model name and an API key *)
  make_chain : string -> string -> string -> result chain }.

Module SentimentAnalyzerClass.

Definition DEFAULT_LLM_PROVIDER : string := "openai".
Definition DEFAULT_OPENAI_MODEL_NAME : string := "gpt-4o-mini".
Definition DEFAULT_GROQ_MODEL_NAME : string := "llama3-8b-8192".
Definition MAX_RETRIES : nat := 3.

(** truth value of an optional [str]: [None] and [''] are false *)
Definition truthy_str (o : option string) : bool :=
  match o with
  | Some s => negb (String.eqb s "")
  | None => false
  end.

(** [a or b] *)
Definition or_ (a b : option string) : option string :=
  if truthy_str a then a else b.

(** the attributes of a constructed instance *)
Record self := {
  self_provider : string;
  self_model_name : string;
  self_openai_api_key : option string;
  self_groq_api_key : option string;
  self_chain : chain }.

Definition _initialize_chain (L : llm_env) (provider model_name : string)
  (openai_api_key groq_api_key : option string) : result chain :=
  if String.eqb provider "openai" then
    if negb (truthy_str openai_api_key)
    then Raise (PyException
      "OpenAI API key not found. Please provide it in the API call or set it in the .env file.")
    else make_chain L provider model_name (get_default openai_api_key "")
  else if String.eqb provider "groq" then
    if negb (truthy_str groq_api_key)
    then Raise (PyException
      "Groq API key not found. Please provide it in the API call or set it in the .env file.")
    else make_chain L provider model_name (get_default groq_api_key "")
  else
    Raise (PyException
      ("Unsupported LLM provider: " ++ provider ++ ". Please choose 'openai' or 'groq'.")).

(** [__init__] *)
Definition init (L : llm_env) (kwargs : llm_config) : result self :=
  let provider := get_default (or_ (cfg_provider kwargs) (Some DEFAULT_LLM_PROVIDER))
                    DEFAULT_LLM_PROVIDER in
  let model_name :=
    if truthy_str (cfg_model_name kwargs) then get_default (cfg_model_name kwargs) ""
    else if String.eqb provider "openai" then DEFAULT_OPENAI_MODEL_NAME
         else DEFAULT_GROQ_MODEL_NAME in
  let openai_api_key := or_ (cfg_openai_api_key kwargs) (getenv L "OPENAI_API_KEY") in
  let groq_api_key := or_ (cfg_groq_api_key kwargs) (getenv L "GROQ_API_KEY") in
  match _initialize_chain L provider model_name openai_api_key groq_api_key with
  | Raise e => Raise e
  | Ok c =>
      Ok {| self_provider := provider; self_model_name := model_name;
            self_openai_api_key := openai_api_key; self_groq_api_key := groq_api_key;
            self_chain := c |}
  end.

(** The [for attempt in range(MAX_RETRIES)] loop, [n] passes left.  An
    answer is returned with its usage dict, which has four keys and is
    therefore true; every other exit returns [[], {}], whose empty dict is
    false ([None] here).  A provider that is neither of the two makes no
    call and goes to the next pass. *)
Fixpoint attempts (s : self) (text : string) (attempt n : nat)
  : list entity * option usage_stats :=
  match n with
  | 0 => ([], None)
  | S n' =>
      if String.eqb (self_provider s) "openai" || String.eqb (self_provider s) "groq" then
        match self_chain s text attempt with
        | Answered entities usage => (entities, Some usage)
        | ValidationError _ =>
            if MAX_RETRIES - 1 <=? attempt then ([], None)
            else attempts s text (attempt + 1) n'
        | OtherException _ => ([], None)
        end
      else attempts s text (attempt + 1) n'
  end.

(** the method; [self.chain] is a constructed object and true *)
Definition analyze_text_for_sentiment (s : self) (text : string)
  : list entity * option usage_stats :=
  attempts s text 0 MAX_RETRIES.

End SentimentAnalyzerClass.

(** An instance as the pipeline sees it: its [provider] and its method,
    which returns and never raises. *)
Definition analyzer_of (s : SentimentAnalyzerClass.self) : analyzer :=
  {| provider := SentimentAnalyzerClass.self_provider s;
     analyze_text_for_sentiment := fun text =>
       Ok (SentimentAnalyzerClass.analyze_text_for_sentiment s text) |}.

(** the constructor call of the pipeline, with its keyword arguments *)
Definition SentimentAnalyzer_class (L : llm_env) (kwargs : llm_config) : result analyzer :=
  match SentimentAnalyzerClass.init L kwargs with
  | Ok s => Ok (analyzer_of s)
  | Raise e => Raise e
  end.

(** ** app.py: the stop request *)

(** [stop_pipeline] when no other thread runs between its statements: the
    response and the event it set, if it set one.  The only write is the
    [status] of the tracker. *)
Definition stop_pipeline : St (response * option nat) :=
  fun w =>
    if negb (is_running (w_tracker w))
    then (({| code := 404; message := "No pipeline is currently running." |}, None), w)
    else
      match stop_event (w_tracker w) with
      | Some ev =>
          (update_tracker (set_status "Stopping...") ;;
           ret ({| code := 202;
                   message := "Pipeline stop signal sent. It will terminate shortly." |},
                Some ev)) w
      | None =>
          (({| code := 500;
               message := "Could not send stop signal. The pipeline may be in a state that cannot be interrupted." |},
            None), w)
      end.

(** *** The handlers and the run threads, statement by statement

    The server handles each request in a thread of its own, and the run
    threads go on meanwhile.  [stop_pipeline] reads the tracker twice,
    [is_running] at line 175 and [stop_event] at line 184, and writes it at
    line 187; a run thread writes [is_running] at line 224 (479 in the
    scheduled run), [stop_event] at line 225 (480) and both in its [finally]
    block.  Each of these is a step of its own. *)

(** where a stop handler is *)
Inductive stop_handler : Type :=
| AtCheck                       (* the request has arrived; line 175 is next *)
| AtRead                        (* [is_running] was true at line 175; line 184 is next *)
| AtWrite (ev : nat)            (* line 186 has set the event [ev]; line 187 is next *)
| Replied (r : response) (set_event : option nat).

Definition stop_step (h : stop_handler) : St stop_handler :=
  fun w =>
    match h with
    | AtCheck =>
        if negb (is_running (w_tracker w))
        then (Replied {| code := 404; message := "No pipeline is currently running." |} None, w)
        else (AtRead, w)
    | AtRead =>
        match stop_event (w_tracker w) with
        | Some ev => (AtWrite ev, w)
        | None =>
            (Replied
               {| code := 500;
                  message := "Could not send stop signal. The pipeline may be in a state that cannot be interrupted." |}
               None, w)
        end
    | AtWrite ev =>
        (update_tracker (set_status "Stopping...") ;;
         ret (Replied
                {| code := 202;
                   message := "Pipeline stop signal sent. It will terminate shortly." |}
                (Some ev))) w
    | Replied _ _ => (h, w)
    end.

(** a run thread: [pipeline_task] with its arguments, or the part of
    [scheduled_pipeline_run] from line 479 on with the adapters and the
    event of lines 469-471 *)
Inductive run_thread : Type :=
| Triggered (args : thread_args)
| Scheduled (scraper_modules : list scraper) (stop_event : nat).

Definition run_event (t : run_thread) : nat :=
  match t with
  | Triggered args => th_stop_event args
  | Scheduled _ stop_event => stop_event
  end.

(** where a run thread is *)
Inductive run_pc : Type :=
| BeforeIsRunning      (* line 224 (479) is next *)
| BeforeStopEvent      (* line 225 (480) is next *)
| InBody               (* the [try] statement is next *)
| Finished.

(** lines 463-477 of [scheduled_pipeline_run]: the adapters and the event
    the function goes on with, if it goes on *)
Definition scheduled_start (E : env) : St (option (list scraper * nat)) :=
  fun w =>
    if is_running (w_tracker w) then (None, w)
    else
      (stop_event <- new_event ;;
       r <- get_scraper_modules E None ;;
       match r with
       | Raise _ => ret None
       | Ok [] => ret None
       | Ok scraper_modules => ret (Some (scraper_modules, stop_event))
       end) w.

(** lines 481-494, the [try] statement of [scheduled_pipeline_run] *)
Definition scheduled_run (E : env) (scraper_modules : list scraper) (stop_event : nat)
  : M unit :=
  try_finally
    (try_except (scheduled_body E scraper_modules stop_event) (record_failure E))
    reset_tracker.

(** the next step of a run thread; the [try] statement with its [finally]
    block is one step: the stages write the status, the progress, the total
    and the current task of the tracker, and neither [is_running] nor
    [stop_event] *)
Definition run_step (E : env) (t : run_thread) (pc : run_pc) : St run_pc :=
  match pc with
  | BeforeIsRunning => update_tracker (set_is_running true) ;; ret BeforeStopEvent
  | BeforeStopEvent => update_tracker (set_stop_event (Some (run_event t))) ;; ret InBody
  | InBody =>
      match t with
      | Triggered args => task_run E args ;; ret Finished
      | Scheduled scraper_modules stop_event =>
          scheduled_run E scraper_modules stop_event ;; ret Finished
      end
  | Finished => ret Finished
  end.

Record server := {
  srv_world : world;
  runs : list (run_thread * run_pc);
  stops : list stop_handler }.

Inductive server_action : Type :=
| TriggerRequest (req : request)  (* [trigger_pipeline] handles a request *)
| SchedulerFires                  (* the scheduler calls [scheduled_pipeline_run] *)
| RunStep (i : nat)               (* the i-th run thread takes its next step *)
| StopRequest                     (* a stop request arrives *)
| StopStep (j : nat).             (* the j-th stop handler takes its next step *)

Fixpoint set_nth {A} (i : nat) (x : A) (l : list A) : list A :=
  match l, i with
  | [], _ => []
  | _ :: l', 0 => x :: l'
  | y :: l', S i' => y :: set_nth i' x l'
  end.

Definition server_step (E : env) (s : server) (a : server_action) : server :=
  match a with
  | TriggerRequest req =>
      match trigger_pipeline E req (srv_world s) with
      | ((_, th), w') =>
          {| srv_world := w';
             runs := runs s ++ match th with
                               | Some args => [(Triggered args, BeforeIsRunning)]
                               | None => []
                               end;
             stops := stops s |}
      end
  | SchedulerFires =>
      match scheduled_start E (srv_world s) with
      | (th, w') =>
          {| srv_world := w';
             runs := runs s ++ match th with
                               | Some (scraper_modules, stop_event) =>
                                   [(Scheduled scraper_modules stop_event, BeforeIsRunning)]
                               | None => []
                               end;
             stops := stops s |}
      end
  | RunStep i =>
      match nth_error (runs s) i with
      | Some (t, pc) =>
          match run_step E t pc (srv_world s) with
          | (pc', w') =>
              {| srv_world := w'; runs := set_nth i (t, pc') (runs s); stops := stops s |}
          end
      | None => s
      end
  | StopRequest =>
      {| srv_world := srv_world s; runs := runs s; stops := stops s ++ [AtCheck] |}
  | StopStep j =>
      match nth_error (stops s) j with
      | Some h =>
          match stop_step h (srv_world s) with
          | (h', w') =>
              {| srv_world := w'; runs := runs s; stops := set_nth j h' (stops s) |}
          end
      | None => s
      end
  end.

Definition server_run (E : env) (s : server) (actions : list server_action) : server :=
  fold_left (server_step E) actions s.

Definition initial_server : server :=
  {| srv_world := initial_world; runs := []; stops := [] |}.

(** ** main.py *)

(** [main]: the command-line run.  [create_database] keeps the tables of an
    existing store ([CREATE TABLE IF NOT EXISTS]); it is a database call that
    writes nothing to them.  The dummy [status_tracker] the stages are given
    takes the place of [w_tracker]: nothing else uses it in this process. *)
Definition main (E : env) : M unit :=
  _ <~ db_write E (fun d => d) ;;
  scraper_modules <~ get_scraper_modules E None ;;
  match scraper_modules with
  | [] => ret (Ok tt)
  | _ :: _ =>
      stop_event <- new_event ;;
      _ <~ run_scraping_pipeline E scraper_modules stop_event ;;
      _ <~ run_analysis_pipeline E stop_event default_llm_config ;;
      ret (Ok tt)
  end.

(** * Definitions used to state further properties *)

(** a registry holds every adapter under its own [SOURCE_NAME], once *)
Definition registry_wf (reg : Dict.t scraper) : Prop :=
  NoDup (Dict.keys reg) /\ Forall (fun kv => SOURCE_NAME (snd kv) = fst kv) reg.

(** the files [discover_scrapers] tries to import *)
Definition candidate (entry : dir_entry) : bool :=
  endswith (filename entry) "_scraper.py" && negb (startswith (filename entry) "__").

(** an entry that registers the adapter [s] *)
Definition registers (entry : dir_entry) (s : scraper) : Prop :=
  candidate entry = true /\
  exists module, import_module entry = Ok module /\ validate module = Some s.

(** [entry] is the last file of [entries] that registers an adapter under
    the name [k], and the adapter is [s] *)
Definition last_registers (entries : list dir_entry) (k : string) (s : scraper) : Prop :=
  exists before entry after,
    entries = before ++ entry :: after /\
    registers entry s /\ SOURCE_NAME s = k /\
    forall entry' s', In entry' after -> registers entry' s' -> SOURCE_NAME s' <> k.

(** the scan of [entries] is left by the exception [e]: it is not an
    [ImportError], the import of a file the scan tries raises it, and the
    imports tried before raised nothing but [ImportError] *)
Definition import_aborts (entries : list dir_entry) (e : exn) : Prop :=
  (forall msg, e <> ImportError msg) /\
  exists before entry after,
    entries = before ++ entry :: after /\
    candidate entry = true /\ import_module entry = Raise e /\
    forall entry' e',
      In entry' before -> candidate entry' = true ->
      import_module entry' = Raise e' -> exists msg, e' = ImportError msg.

(** the world without its tracker *)
Definition untracked (w : world) : world := with_tracker idle_tracker w.

(** a computation that does not read the tracker: its result and what it
    does to the rest of the world are the same whatever the tracker holds *)
Definition blind {A} (m : St A) : Prop :=
  forall w1 w2,
    untracked w1 = untracked w2 ->
    fst (m w1) = fst (m w2) /\ untracked (snd (m w1)) = untracked (snd (m w2)).

(** What acquisition may do to the store: append links, append articles
    that are not analyzed yet; nothing else. *)
Definition acquisition_footprint (d d' : db) : Prop :=
  (exists new_links, links d' = links d ++ new_links) /\
  (exists new_articles,
     articles d' = articles d ++ new_articles /\
     Forall (fun a => is_analyzed a = false) new_articles) /\
  sentiments d' = sentiments d /\
  usage_logs d' = usage_logs d /\
  pipeline_runs d' = pipeline_runs d.

(** What extraction may do to the store: append sentiments and usage logs,
    and raise [is_analyzed] flags; the articles are otherwise the same rows. *)
Definition extraction_footprint (d d' : db) : Prop :=
  links d' = links d /\
  seq_links d' = seq_links d /\
  seq_articles d' = seq_articles d /\
  pipeline_runs d' = pipeline_runs d /\
  map set_analyzed (articles d') = map set_analyzed (articles d) /\
  (forall id, analyzed_flag id d = Some true -> analyzed_flag id d' = Some true) /\
  (exists new_sentiments, sentiments d' = sentiments d ++ new_sentiments) /\
  (exists new_logs, usage_logs d' = usage_logs d ++ new_logs).

(** *** The stop request and the run threads *)

(** the run thread of the event [ev] has executed line 225 (480) *)
Definition begun (rs : list (run_thread * run_pc)) (ev : nat) : Prop :=
  exists i t pc,
    nth_error rs i = Some (t, pc) /\ run_event t = ev /\ (pc = InBody \/ pc = Finished).

(** the run thread of the event [ev] is at its [try] statement *)
Definition in_body (rs : list (run_thread * run_pc)) (ev : nat) : Prop :=
  exists i t, nth_error rs i = Some (t, InBody) /\ run_event t = ev.

(** a run thread is between lines 224 and 225 (479 and 480) *)
Definition between_lines (rs : list (run_thread * run_pc)) : Prop :=
  exists i t, nth_error rs i = Some (t, BeforeStopEvent).

(** what a handler has done so far is justified by the run threads: an
    event it set is the event of a run thread that had executed line 225
    (480), and only the answer 202 comes with an event *)
Definition handler_ok (rs : list (run_thread * run_pc)) (h : stop_handler) : Prop :=
  match h with
  | AtCheck | AtRead => True
  | AtWrite ev => begun rs ev
  | Replied r None => code r = 404 \/ code r = 500
  | Replied r (Some ev) => code r = 202 /\ begun rs ev
  end.

(** The tracker and the threads: a stop event in the tracker is the event
    of a run thread at its [try] statement; when the tracker says a run is
    active and holds no stop event, a run thread is between lines 224 and
    225; and every handler is justified. *)
Definition server_inv (s : server) : Prop :=
  (forall ev, stop_event (w_tracker (srv_world s)) = Some ev -> in_body (runs s) ev) /\
  (is_running (w_tracker (srv_world s)) = true ->
   stop_event (w_tracker (srv_world s)) = None -> between_lines (runs s)) /\
  (forall j h, nth_error (stops s) j = Some h -> handler_ok (runs s) h).

(** what a step does to the run threads: a thread stays where it is in the
    list, and one that had executed line 225 (480) still has *)
Definition runs_later (rs rs' : list (run_thread * run_pc)) : Prop :=
  forall i t pc,
    nth_error rs i = Some (t, pc) ->
    exists pc', nth_error rs' i = Some (t, pc') /\
                (pc = pc' \/ (pc' <> BeforeIsRunning /\ pc <> Finished /\
                              (pc = InBody -> pc' = Finished))).

(** a state of the server after some steps from start-up *)
Definition reachable (E : env) (s : server) : Prop :=
  exists actions, s = server_run E initial_server actions.

(** ** Further concrete inputs *)

(** a [scrapers] directory whose only scraper has a syntax error *)
Definition syntax_error_env : env :=
  quiet_env
    [{| filename := "zawya_scraper.py";
        import_module := Raise (PyException "invalid syntax (zawya_scraper.py, line 3)") |}]
    no_analyzer.

(** the process started in a directory that has no [scrapers] directory *)
Definition unlistable_env : env :=
  {| fault := fun _ => None; stop_at := fun _ => None;
     listdir := fun _ =>
       Raise (PyException "[Errno 2] No such file or directory: 'scrapers'");
     SentimentAnalyzer := no_analyzer |}.

(** a second adapter that declares the name of [alpha] *)
Definition alpha_v2 : scraper :=
  {| SOURCE_NAME := "alpha.com";
     get_article_urls := Ok ["https://alpha.com/2"];
     scrape_article_content := fun url => Ok (Some (page url)) |}.

Definition alpha_v2_entry : dir_entry :=
  {| filename := "alpha_v2_scraper.py"; import_module := Ok (module_of alpha_v2) |}.

(** [alpha_scraper.py], then [alpha_v2_scraper.py], then a file the scan
    does not try *)
Definition twin_env : env :=
  quiet_env
    [alpha_entry; alpha_v2_entry;
     {| filename := "scraper_manager.py"; import_module := Ok (module_of alpha) |}]
    no_analyzer.

(** the server after a trigger request whose thread has executed lines 224
    and 225 *)
Definition run_in_body : server :=
  server_run alpha_env initial_server [TriggerRequest request_all; RunStep 0; RunStep 0].

(** the stop event of every run is set before its first poll *)
Definition stopped_env : env :=
  {| fault := fun _ => None; stop_at := fun _ => Some 0;
     listdir := fun _ => Ok [alpha_entry]; SentimentAnalyzer := fun _ => Ok mute_analyzer |}.

(** a process environment without API keys, and a model that never answers *)
Definition down_llm : llm_env :=
  {| getenv := fun _ => None;
     make_chain := fun _ _ _ => Ok (fun _ _ => OtherException "Connection error.") |}.

(** the same with an OpenAI key in the environment *)
Definition keyed_llm : llm_env :=
  {| getenv := fun name => if String.eqb name "OPENAI_API_KEY" then Some "sk-test" else None;
     make_chain := fun _ _ _ => Ok (fun _ _ => OtherException "Connection error.") |}.

(** [beta_scraper.py] installed, the extractor class with [keyed_llm] *)
Definition down_env : env := quiet_env [beta_entry] (SentimentAnalyzer_class keyed_llm).

(** the instance [keyed_llm] constructs for a request without configuration *)
Definition keyed_extractor : SentimentAnalyzerClass.self :=
  {| SentimentAnalyzerClass.self_provider := "openai";
     SentimentAnalyzerClass.self_model_name := "gpt-4o-mini";
     SentimentAnalyzerClass.self_openai_api_key := Some "sk-test";
     SentimentAnalyzerClass.self_groq_api_key := None;
     SentimentAnalyzerClass.self_chain := fun _ _ => OtherException "Connection error." |}.

(** ** app.py and database.py: the schedule of the daily run

    The [app_config] table and the job of the scheduler are a state of their
    own, [sched_state]; the pipeline does not use them. *)

(** the character is between [lo] and [hi], by code point *)
Definition between (lo hi c : ascii) : bool :=
  (nat_of_ascii lo <=? nat_of_ascii c) && (nat_of_ascii c <=? nat_of_ascii hi).

(** The test [re.match(r'^([01]\d|2[0-3]):([0-5]\d)$', s)].  Strings hold
    code points below 256 here, where [\d] matches the ASCII digits only;
    [$] matches at the end of the string and before a newline that ends
    it. *)
Definition match_schedule_time (s : string) : bool :=
  match s with
  | String h1 (String h2 (String colon (String m1 (String m2 rest)))) =>
      ((between "0" "1" h1 && between "0" "9" h2) ||
       (Ascii.eqb h1 "2" && between "0" "3" h2)) &&
      Ascii.eqb colon ":" &&
      between "0" "5" m1 && between "0" "9" m2 &&
      (String.eqb rest "" || String.eqb rest (String "010" ""))
  | _ => false
  end.

(** [s.split(':')], with the part read so far *)
Fixpoint split_colon (s : string) (part : string) : list string :=
  match s with
  | EmptyString => [part]
  | String c s' =>
      if Ascii.eqb c ":" then part :: split_colon s' ""
      else split_colon s' (part ++ String c "")
  end.

Definition split (s : string) : list string := split_colon s "".

Record sched_state := {
  app_config : Dict.t string;                  (* the table [app_config] *)
  daily_pipeline_job : option (nat * nat) }.   (* hour and minute of the job's trigger *)

(** what the handler does not control: whether the write to the store and
    the call to the scheduler raise, and with which message *)
Record sched_env := {
  config_fault : option string;
  reschedule_fault : option string }.

(** [database.get_config_value] *)
Definition get_config_value (key default : string) (cfg : Dict.t string) : string :=
  match Dict.get cfg key with
  | Some value => value
  | None => default
  end.

(** [database.set_config_value]: [INSERT OR REPLACE] on the primary key *)
Definition set_config_value (key value : string) (cfg : Dict.t string) : Dict.t string :=
  Dict.set cfg key value.

(** what [create_database] does to [app_config]: [INSERT OR IGNORE] of the
    default schedule *)
Definition create_app_config (cfg : Dict.t string) : Dict.t string :=
  if Dict.mem cfg "schedule_time" then cfg
  else Dict.set cfg "schedule_time" "01:00".

Section Schedule.

(** Python's [int] on a string.  It is left open; the properties state what
    they use of it. *)
Variable int : string -> result nat.

(** [hour, minute = map(int, s.split(':'))] *)
Definition hour_minute (s : string) : result (nat * nat) :=
  match split s with
  | [h; m] =>
      match int h with
      | Raise e => Raise e
      | Ok hour =>
          match int m with
          | Raise e => Raise e
          | Ok minute => Ok (hour, minute)
          end
      end
  | _ => Raise (PyException "not enough values to unpack, or too many")
  end.

(** [configure_schedule], for a body whose [schedule_time] is absent or a
    string *)
Definition configure_schedule (F : sched_env) (new_time : option string) (st : sched_state)
  : response * sched_state :=
  match new_time with
  | None => ({| code := 400; message := "Invalid time format. Please use 'HH:MM'." |}, st)
  | Some new_time =>
      if String.eqb new_time "" || negb (match_schedule_time new_time)
      then ({| code := 400; message := "Invalid time format. Please use 'HH:MM'." |}, st)
      else
        match hour_minute new_time with
        | Raise _ => ({| code := 500; message := "Failed to update schedule." |}, st)
        | Ok (hour, minute) =>
            match config_fault F with
            | Some _ => ({| code := 500; message := "Failed to update schedule." |}, st)
            | None =>
                let st1 :=
                  {| app_config := set_config_value "schedule_time" new_time (app_config st);
                     daily_pipeline_job := daily_pipeline_job st |} in
                match reschedule_fault F with
                | Some _ => ({| code := 500; message := "Failed to update schedule." |}, st1)
                | None =>
                    ({| code := 200;
                        message := "Pipeline schedule updated successfully to "
                                   ++ new_time ++ " UTC." |},
                     {| app_config := app_config st1;
                        daily_pipeline_job := Some (hour, minute) |})
                end
            end
        end
  end.

(** the start-up code (lines 498-504): the hour and minute the job is added
    with, for a store that does not fail *)
Definition startup_schedule (cfg : Dict.t string) : result (nat * nat) :=
  hour_minute (get_config_value "schedule_time" "01:00" (create_app_config cfg)).

End Schedule.

(** the value of two ASCII digits *)
Definition two_digits (a b : ascii) : nat :=
  10 * (nat_of_ascii a - 48) + (nat_of_ascii b - 48).

(** an [int] for the examples: two digits, a newline allowed after them *)
Definition int_of_two_digits (s : string) : result nat :=
  match s with
  | String a (String b rest) =>
      if between "0" "9" a && between "0" "9" b &&
         (String.eqb rest "" || String.eqb rest (String "010" ""))
      then Ok (two_digits a b)
      else Raise (PyException "invalid literal for int() with base 10")
  | _ => Raise (PyException "invalid literal for int() with base 10")
  end.

Definition idle_schedule : sched_state :=
  {| app_config := [("schedule_time", "01:00")]; daily_pipeline_job := Some (1, 0) |}.

Definition no_sched_fault : sched_env :=
  {| config_fault := None; reschedule_fault := None |}.

(** the provider of the instance is one of the two supported ones, and the
    instance holds a key for it that is not empty *)
Definition usable (s : SentimentAnalyzerClass.self) : Prop :=
  (SentimentAnalyzerClass.self_provider s = "openai" /\
   SentimentAnalyzerClass.truthy_str (SentimentAnalyzerClass.self_openai_api_key s) = true) \/
  (SentimentAnalyzerClass.self_provider s = "groq" /\
   SentimentAnalyzerClass.truthy_str (SentimentAnalyzerClass.self_groq_api_key s) = true).

(** attempt [k] answers, and every attempt before it failed validation *)
Definition first_answer (c : chain) (text : string) (k : nat)
  (entities : list entity) (usage : usage_stats) : Prop :=
  c text k = Answered entities usage /\
  forall j, j < k -> exists msg, c text j = ValidationError msg.

(** a source whose listing cannot be fetched *)
Definition delta : scraper :=
  {| SOURCE_NAME := "delta.com";
     get_article_urls := Raise (PyException "HTTPSConnectionPool: Max retries exceeded");
     scrape_article_content := fun url => Ok (Some (page url)) |}.

(** * Properties *)

(** ** Source registry *)

Lemma select_modules_acc (registry : Dict.t scraper) (names : list string) :
  forall acc, select_modules registry names acc = acc ++ resolve_spec registry names.
Proof.
  induction names as [|name rest IH]; intros acc; simpl.
  - now rewrite app_nil_r.
  - destruct (Dict.get registry name) as [m|].
    + rewrite IH, <- app_assoc. reflexivity.
    + apply IH.
Qed.

Lemma resolve_spec_length (registry : Dict.t scraper) (names : list string) :
  List.length (resolve_spec registry names) <= List.length names.
Proof.
  induction names as [|name rest IH]; simpl; [lia|].
  destruct (Dict.get registry name); simpl; lia.
Qed.

Lemma resolve_spec_In (registry : Dict.t scraper) (names : list string) (m : scraper) :
  In m (resolve_spec registry names) <->
  exists name, In name names /\ Dict.get registry name = Some m.
Proof.
  unfold resolve_spec. rewrite in_flat_map. split.
  - intros (name & Hin & Hm). exists name. split; [assumption|].
    destruct (Dict.get registry name) as [m'|]; simpl in Hm; [|contradiction].
    destruct Hm as [->|[]]. reflexivity.
  - intros (name & Hin & Hget). exists name. split; [assumption|].
    rewrite Hget. now left.
Qed.

(** a discovery call with a non-empty cache returns the cache and does
    nothing else *)
Lemma discover_scrapers_cached (E : env) (w : world) :
  Dict.truthy (w_scraper_cache w) = true ->
  discover_scrapers E w = (Ok (w_scraper_cache w), w).
Proof.
  intros H. unfold discover_scrapers. now rewrite H.
Qed.

(** once a discovery call has returned a non-empty mapping, the next call
    returns the same mapping without scanning *)
Lemma discover_scrapers_memo (E : env) (w w1 : world) (registry : Dict.t scraper) :
  discover_scrapers E w = (Ok registry, w1) ->
  Dict.truthy registry = true ->
  discover_scrapers E w1 = (Ok registry, w1).
Proof.
  unfold discover_scrapers at 1. intros H Hne.
  destruct (Dict.truthy (w_scraper_cache w)) eqn:Hc.
  - inversion H; subst. now apply discover_scrapers_cached.
  - destruct (listdir E (scans w)) as [entries|e0]; [|discriminate].
    destruct (scan _ _) as [d|e]; inversion H; subst.
    rewrite discover_scrapers_cached; simpl; auto.
Qed.

(** C7.  [get_scraper_modules] fails only when discovery itself fails;
    without a name list it returns every discovered adapter; with a name list
    it returns the adapters the names designate in the registry, in the order
    requested and with unknown names dropped, so possibly fewer than
    requested, each one registered under a requested name. *)
Theorem get_scraper_modules_resolve (E : env) (w : world) :
  match discover_scrapers E w with
  | (Ok registry, w') =>
      get_scraper_modules E None w = (Ok (Dict.values registry), w') /\
      forall names,
        get_scraper_modules E (Some names) w = (Ok (resolve_spec registry names), w') /\
        List.length (resolve_spec registry names) <= List.length names /\
        (forall m, In m (resolve_spec registry names) <->
                   exists name, In name names /\ Dict.get registry name = Some m)
  | (Raise e, w') =>
      forall names, get_scraper_modules E names w = (Raise e, w')
  end.
Proof.
  unfold get_scraper_modules, bindM, bind.
  destruct (discover_scrapers E w) as [[registry|e] w'].
  - split; [reflexivity|]. intros names. split; [|split].
    + unfold ret. now rewrite select_modules_acc.
    + apply resolve_spec_length.
    + intros m. apply resolve_spec_In.
  - intros names. reflexivity.
Qed.

(** C8, at the failing input.  When the first discovery finds no valid
    scraper the cache stays the empty dict, which [if _scraper_cache:] takes
    for "not discovered yet".  With a directory whose scraper cannot be
    imported, every call lists the directory and imports again; and when the
    directory has changed in between, the second call returns another
    mapping than the first. *)
Theorem discover_scrapers_rescans_when_empty :
  (let '(r1, w1) := discover_scrapers unimportable_env initial_world in
   let '(r2, w2) := discover_scrapers unimportable_env w1 in
   r1 = Ok [] /\ scans w1 = 1 /\ r2 = Ok [] /\ scans w2 = 2) /\
  (let '(r1, w1) := discover_scrapers late_env initial_world in
   let '(r2, w2) := discover_scrapers late_env w1 in
   r1 = Ok [] /\ scans w1 = 1 /\
   r2 = Ok [("alpha.com", alpha)] /\ scans w2 = 2).
Proof.
  vm_compute. repeat split.
Qed.

(** ** Job controller: admission *)

(** a trigger that finds a run active is answered 409 and changes nothing *)
Lemma trigger_pipeline_conflict (E : env) (req : request) (w : world) :
  is_running (w_tracker w) = true ->
  trigger_pipeline E req w =
    (({| code := 409; message := "A pipeline is already running." |}, None), w).
Proof.
  intros H. unfold trigger_pipeline. now rewrite H.
Qed.

(** a trigger starts a thread only when it found no run active *)
Lemma trigger_pipeline_admits_idle (E : env) (req : request) (w : world) (t : thread_args) :
  snd (fst (trigger_pipeline E req w)) = Some t ->
  is_running (w_tracker w) = false.
Proof.
  unfold trigger_pipeline. destruct (is_running (w_tracker w)); simpl; [discriminate|reflexivity].
Qed.

(** the handler itself never writes the tracker *)
Lemma discover_scrapers_tracker (E : env) (w : world) :
  w_tracker (snd (discover_scrapers E w)) = w_tracker w.
Proof.
  unfold discover_scrapers.
  destruct (Dict.truthy _); [reflexivity|].
  destruct (listdir E (scans w)); [|reflexivity].
  destruct (scan _ _); reflexivity.
Qed.

Lemma get_scraper_modules_tracker (E : env) (names : option (list string)) (w : world) :
  w_tracker (snd (get_scraper_modules E names w)) = w_tracker w.
Proof.
  unfold get_scraper_modules, bindM, bind.
  pose proof (discover_scrapers_tracker E w) as H.
  destruct (discover_scrapers E w) as [[d|e] w']; simpl in *.
  - destruct names; exact H.
  - exact H.
Qed.

Lemma trigger_pipeline_tracker (E : env) (req : request) (w : world) :
  w_tracker (snd (trigger_pipeline E req w)) = w_tracker w.
Proof.
  unfold trigger_pipeline.
  destruct (is_running (w_tracker w)); [reflexivity|].
  unfold bind.
  pose proof (get_scraper_modules_tracker E (req_scrapers req) w) as H.
  destruct (get_scraper_modules E (req_scrapers req) w) as [[mods|e] w']; simpl in *.
  - destruct mods; exact H.
  - exact H.
Qed.

(** ** What a stage may change

    Every effect of the two stages is one of a few primitive changes of the
    world.  A relation that is a preorder and holds across each primitive
    change therefore holds across a whole stage.  The section proves this
    once; the invariants below are instances. *)

Section Frame.

Variable E : env.
Variable R : world -> world -> Prop.
Variable logged : event -> Prop.

Hypothesis R_refl : forall w, R w w.
Hypothesis R_trans : forall a b c, R a b -> R b c -> R a c.
Hypothesis R_tracker : forall t w, R w (with_tracker t w).
Hypothesis R_poll : forall w, R w (tick_poll w).
Hypothesis R_tick_db : forall w, R w (tick_db w).
Hypothesis R_log : forall e w, logged e -> R w (log e w).
Hypothesis R_read : forall w, R w (with_db (w_db w) w).
Hypothesis R_add_link :
  forall url source w, R w (with_db (snd (add_link url source (w_db w))) w).
Hypothesis R_add_article :
  forall id data w, R w (with_db (snd (add_article id data (w_db w))) w).
Hypothesis R_add_sentiment :
  forall row w, R w (with_db (add_sentiment row (w_db w)) w).
Hypothesis R_add_usage_log :
  forall id p u w, R w (with_db (add_usage_log id p u (w_db w)) w).
Hypothesis R_mark :
  forall id w, R w (with_db (mark_article_as_analyzed id (w_db w)) w).

Lemma respects_ret {A} (a : A) : respects R (ret a).
Proof. intros w. apply R_refl. Qed.

Lemma respects_bind {A B} (m : St A) (f : A -> St B) :
  respects R m -> (forall a, respects R (f a)) -> respects R (bind m f).
Proof.
  intros Hm Hf w. unfold bind.
  specialize (Hm w). destruct (m w) as [a w1]. simpl in Hm.
  eapply R_trans; [exact Hm|]. apply Hf.
Qed.

Lemma respects_bindM {A B} (m : M A) (f : A -> M B) :
  respects R m -> (forall a, respects R (f a)) -> respects R (bindM m f).
Proof.
  intros Hm Hf. unfold bindM. apply respects_bind; [assumption|].
  intros [a|e]; [apply Hf | apply respects_ret].
Qed.

Lemma respects_update_tracker (f : tracker -> tracker) : respects R (update_tracker f).
Proof. intros w. apply R_tracker. Qed.

Lemma respects_is_set (ev : nat) : respects R (is_set E ev).
Proof. intros w. apply R_poll. Qed.

Lemma respects_log (e : event) : logged e -> respects R (modify (log e)).
Proof. intros H w. now apply R_log. Qed.

Lemma respects_db_call {A} (f : db -> A * db) :
  (forall w, R w (with_db (snd (f (w_db w))) w)) -> respects R (db_call E f).
Proof.
  intros Hf w. unfold db_call.
  destruct (fault E (db_calls w)); simpl; [apply R_tick_db|].
  specialize (Hf (tick_db w)). simpl in Hf.
  destruct (f (w_db w)) as [a d]. simpl in *.
  eapply R_trans; [apply R_tick_db | exact Hf].
Qed.

Lemma respects_add_links (source : string) (urls : list string) :
  forall n, respects R (add_links E source urls n).
Proof.
  induction urls as [|url rest IH]; intros n; simpl.
  - apply respects_ret.
  - apply respects_bind.
    + apply respects_db_call. intros w. apply R_add_link.
    + intros [id|e]; [apply IH | apply respects_ret].
Qed.

Lemma respects_scrape_links (ev : nat) (mods : list scraper) :
  forall i n, respects R (scrape_links E ev mods i n).
Proof.
  induction mods as [|s rest IH]; intros i n; simpl.
  - apply respects_ret.
  - apply respects_bind; [apply respects_is_set|].
    intros [|].
    + apply respects_bind; [apply respects_update_tracker|]. intros _. apply respects_ret.
    + apply respects_bind; [apply respects_update_tracker|]. intros _.
      destruct (get_article_urls s) as [[|u us]|e].
      * apply IH.
      * apply respects_bind; [apply respects_add_links|]. intros r.
        apply respects_bind; [apply respects_update_tracker|]. intros _. apply IH.
      * apply respects_bind; [apply respects_update_tracker|]. intros _. apply IH.
Qed.

Lemma respects_scrape_articles (ev : nat) (smap : Dict.t scraper) (todo : list link_row) :
  forall i n, respects R (scrape_articles E ev smap todo i n).
Proof.
  induction todo as [|link rest IH]; intros i n; simpl.
  - apply respects_ret.
  - apply respects_bind; [apply respects_is_set|].
    intros [|].
    + apply respects_bind; [apply respects_update_tracker|]. intros _. apply respects_ret.
    + destruct (Dict.get smap (source_website link)) as [s|].
      * destruct (scrape_article_content s (link_url link)) as [[data|]|e].
        -- apply respects_bind.
           ++ apply respects_db_call. intros w. apply R_add_article.
           ++ intros [id|e].
              ** apply respects_bind; [apply respects_update_tracker|]. intros _.
                 apply respects_bind; [apply respects_update_tracker|]. intros _. apply IH.
              ** apply respects_bind; [apply respects_update_tracker|]. intros _. apply IH.
        -- apply respects_bind; [apply respects_update_tracker|]. intros _. apply IH.
        -- apply respects_bind; [apply respects_update_tracker|]. intros _. apply IH.
      * apply respects_bind; [apply respects_update_tracker|]. intros _. apply IH.
Qed.

Lemma respects_run_scraping_pipeline (mods : list scraper) (ev : nat) :
  logged EnterScraping ->
  respects R (run_scraping_pipeline E mods ev).
Proof.
  intros HL. unfold run_scraping_pipeline.
  apply respects_bind; [now apply respects_log|]. intros _.
  apply respects_bind; [apply respects_update_tracker|]. intros _.
  apply respects_bind; [apply respects_scrape_links|]. intros [n|early].
  - apply respects_bind; [apply respects_is_set|]. intros [|]; [apply respects_ret|].
    apply respects_bindM.
    + apply respects_db_call. intros w. apply R_read.
    + intros todo.
      apply respects_bind; [apply respects_update_tracker|]. intros _.
      destruct todo.
      * apply respects_bind; [apply respects_update_tracker|]. intros _. apply respects_ret.
      * apply respects_bind; [apply respects_scrape_articles|]. intros k. apply respects_ret.
  - apply respects_ret.
Qed.

Lemma respects_add_sentiments (id : nat) (entities : list entity) :
  forall n, respects R (add_sentiments E id entities n).
Proof.
  induction entities as [|en rest IH]; intros n; simpl.
  - apply respects_ret.
  - apply respects_bind.
    + apply respects_db_call. intros w. apply R_add_sentiment.
    + intros [?|e]; [apply IH | apply respects_ret].
Qed.

Lemma respects_analyze_article (a : analyzer) (article : todo) (n : nat) :
  logged (Analyze (todo_id article)) ->
  respects R (analyze_article E a article n).
Proof.
  intros HL. unfold analyze_article.
  apply respects_bind; [now apply respects_log|]. intros _.
  destruct (analyze_text_for_sentiment a (todo_text article)) as [[entities usage]|e];
    [|apply respects_ret].
  apply respects_bind.
  - destruct usage; [|apply respects_ret].
    apply respects_db_call. intros w. apply R_add_usage_log.
  - intros [?|e]; [|apply respects_ret].
    apply respects_bind; [apply respects_add_sentiments|]. intros r2.
    destruct (snd r2); [apply respects_ret|].
    apply respects_bind.
    + apply respects_db_call. intros w. apply R_mark.
    + intros [?|e]; apply respects_ret.
Qed.

Lemma respects_analyze_articles (ev : nat) (a : analyzer) (items : list todo) :
  (forall x, In x items -> logged (Analyze (todo_id x))) ->
  (forall x e, In x items -> logged (AnalyzeFailed (todo_id x) e)) ->
  forall i n, respects R (analyze_articles E ev a items i n).
Proof.
  induction items as [|article rest IH]; intros H1 H2 i n; simpl.
  - apply respects_ret.
  - apply respects_bind; [apply respects_is_set|].
    intros [|].
    + apply respects_bind; [apply respects_update_tracker|]. intros _. apply respects_ret.
    + apply respects_bind; [apply respects_update_tracker|]. intros _.
      apply respects_bind.
      { apply respects_analyze_article. apply H1. now left. }
      intros r.
      apply respects_bind.
      { destruct (snd r); [|apply respects_ret].
        apply respects_log. apply H2. now left. }
      intros _.
      apply respects_bind; [apply respects_update_tracker|]. intros _.
      apply IH; intros; [apply H1 | apply H2]; now right.
Qed.

Lemma respects_run_analysis_pipeline (ev : nat) (kwargs : llm_config) :
  logged EnterAnalysis ->
  (forall id, logged (Analyze id)) ->
  (forall id e, logged (AnalyzeFailed id e)) ->
  respects R (run_analysis_pipeline E ev kwargs).
Proof.
  intros H0 H1 H2. unfold run_analysis_pipeline.
  apply respects_bind; [now apply respects_log|]. intros _.
  destruct (SentimentAnalyzer E kwargs) as [a|e].
  - apply respects_bindM.
    + apply respects_db_call. intros w. apply R_read.
    + intros items.
      apply respects_bind; [apply respects_update_tracker|]. intros _.
      destruct items.
      * apply respects_bind; [apply respects_update_tracker|]. intros _. apply respects_ret.
      * apply respects_bind; [|intros k; apply respects_ret].
        apply respects_analyze_articles; auto.
  - apply respects_bind; [apply respects_update_tracker|]. intros _. apply respects_ret.
Qed.

End Frame.

(** ** The frame of a stage *)

(** From here on the loops are unfolded on purpose only. *)
Arguments add_links : simpl never.
Arguments scrape_links : simpl never.
Arguments scrape_articles : simpl never.
Arguments add_sentiments : simpl never.
Arguments analyze_articles : simpl never.

Lemma new_events_app (w w' : world) (evs : list event) :
  trace w' = trace w ++ evs -> new_events w w' = evs.
Proof.
  intros H. unfold new_events. rewrite H.
  rewrite skipn_app, skipn_all, Nat.sub_diag. reflexivity.
Qed.

Section StageFrame.

Variable logged : event -> Prop.

Lemma stage_frame_refl (w : world) : stage_frame logged w w.
Proof.
  unfold stage_frame. repeat split; auto.
  exists []. now rewrite app_nil_r.
Qed.

Lemma stage_frame_trans (a b c : world) :
  stage_frame logged a b -> stage_frame logged b c -> stage_frame logged a c.
Proof.
  unfold stage_frame.
  intros (H1 & H2 & H3 & H4 & evs & H5 & H6) (K1 & K2 & K3 & K4 & evs' & K5 & K6).
  repeat split; try congruence; try lia.
  exists (evs ++ evs'). split.
  - rewrite K5, H5, app_assoc. reflexivity.
  - apply Forall_app. now split.
Qed.

Lemma stage_frame_quiet (w w' : world) :
  pipeline_runs (w_db w') = pipeline_runs (w_db w) ->
  w_scraper_cache w' = w_scraper_cache w ->
  polls w <= polls w' -> db_calls w <= db_calls w' ->
  trace w' = trace w ->
  stage_frame logged w w'.
Proof.
  intros. unfold stage_frame. repeat split; auto.
  exists []. rewrite app_nil_r. auto.
Qed.

Lemma stage_frame_log (e : event) (w : world) :
  logged e -> stage_frame logged w (log e w).
Proof.
  intros H. unfold stage_frame. simpl. repeat split; auto.
  exists [e]. auto.
Qed.

End StageFrame.

Ltac quiet_step :=
  intros; apply stage_frame_quiet; simpl; auto;
  match goal with
  | |- context [add_link ?u ?s ?d] => unfold add_link; destruct (url_in_links u d); reflexivity
  | |- context [add_article ?i ?a ?d] =>
      unfold add_article; destruct (url_in_articles (ad_url a) d); reflexivity
  | _ => idtac
  end.

Lemma run_scraping_pipeline_frame (E : env) (mods : list scraper) (ev : nat) (w : world) :
  stage_frame scraping_event w (snd (run_scraping_pipeline E mods ev w)).
Proof.
  apply (@respects_run_scraping_pipeline E (stage_frame scraping_event) scraping_event).
  - apply stage_frame_refl.
  - apply stage_frame_trans.
  - quiet_step.
  - quiet_step.
  - quiet_step.
  - intros. now apply stage_frame_log.
  - quiet_step.
  - quiet_step.
  - quiet_step.
  - reflexivity.
Qed.

Lemma run_analysis_pipeline_frame (E : env) (ev : nat) (kwargs : llm_config) (w : world) :
  stage_frame analysis_event w (snd (run_analysis_pipeline E ev kwargs w)).
Proof.
  apply (@respects_run_analysis_pipeline E (stage_frame analysis_event) analysis_event).
  - apply stage_frame_refl.
  - apply stage_frame_trans.
  - quiet_step.
  - quiet_step.
  - quiet_step.
  - intros. now apply stage_frame_log.
  - quiet_step.
  - quiet_step.
  - quiet_step.
  - quiet_step.
  - discriminate.
  - discriminate.
  - discriminate.
Qed.

(** ** Job controller: the run body *)

Lemma db_write_ok (E : env) (f : db -> db) (w : world) :
  fault E (db_calls w) = None ->
  db_write E f w = (Ok tt, with_db (f (w_db w)) (tick_db w)).
Proof.
  intros H. unfold db_write, db_call. now rewrite H.
Qed.

Lemma db_write_fault (E : env) (f : db -> db) (w : world) (msg : string) :
  fault E (db_calls w) = Some msg ->
  db_write E f w = (Raise (OperationalError msg), tick_db w).
Proof.
  intros H. unfold db_write, db_call. now rewrite H.
Qed.

(** an event that is set stays set *)
Lemma is_set_monotone (E : env) (ev : nat) (w w' : world) :
  polls w <= polls w' ->
  fst (is_set E ev w) = true -> fst (is_set E ev w') = true.
Proof.
  unfold is_set. simpl. destruct (stop_at E ev) as [k|]; [|discriminate].
  intros Hle H. apply Nat.leb_le in H. apply Nat.leb_le. lia.
Qed.

(** the early [return] of step 1 reports no scraped article *)
Lemma scrape_links_early (E : env) (ev : nat) (mods : list scraper) :
  forall i n w early,
    fst (scrape_links E ev mods i n w) = inr early ->
    exists k, early = scraping_stats k 0.
Proof.
  induction mods as [|s rest IH]; intros i n w early; unfold scrape_links; fold scrape_links.
  - discriminate.
  - unfold bind at 1. simpl.
    destruct (match stop_at E ev with Some k => k <=? polls w | None => false end).
    + simpl. intros H. inversion H. eauto.
    + unfold bind at 1. simpl.
      destruct (get_article_urls s) as [[|u us]|e].
      * apply IH.
      * unfold bind at 1.
        destruct (add_links E (SOURCE_NAME s) (u :: us) n _) as [r w1].
        unfold bind at 1. simpl. apply IH.
      * unfold bind at 1. simpl. apply IH.
Qed.

(** the dict acquisition returns holds its two counters and nothing else *)
Lemma run_scraping_pipeline_stats (E : env) (mods : list scraper) (ev : nat) (w : world) (s : stats) :
  fst (run_scraping_pipeline E mods ev w) = Ok s ->
  exists a b, s = scraping_stats a b.
Proof.
  unfold run_scraping_pipeline, bindM, bind. simpl.
  destruct (scrape_links E ev mods 0 0 _) as [[n|early] w1] eqn:Hl.
  - simpl. destruct (match stop_at E ev with Some k => k <=? polls w1 | None => false end).
    + simpl. intros H. inversion H. eauto.
    + destruct (db_read E get_unscraped_links (tick_poll w1)) as [[todo|e] w2]; simpl.
      * destruct todo as [|l ls]; simpl.
        -- intros H. inversion H. eauto.
        -- match goal with
           | |- context [scrape_articles ?a ?b ?c ?d ?e ?f ?g] =>
               destruct (scrape_articles a b c d e f g) as [k w3]
           end.
           simpl. intros H. inversion H. eauto.
      * discriminate.
  - simpl. intros H. inversion H; subst.
    apply (f_equal fst) in Hl. simpl in Hl.
    apply scrape_links_early in Hl. destruct Hl as [k ->]. eauto.
Qed.

(** the dict extraction returns holds its counter and nothing else *)
Lemma run_analysis_pipeline_stats (E : env) (ev : nat) (kwargs : llm_config) (w : world) (s : stats) :
  fst (run_analysis_pipeline E ev kwargs w) = Ok s ->
  exists c, s = analysis_stats c.
Proof.
  unfold run_analysis_pipeline, bindM, bind. simpl.
  destruct (SentimentAnalyzer E kwargs) as [a|e]; simpl.
  - destruct (db_read E get_unanalyzed_articles _) as [[items|e] w2]; simpl.
    + destruct items as [|x xs]; simpl.
      * intros H. inversion H. eauto.
      * match goal with
        | |- context [analyze_articles ?a ?b ?c ?d ?e ?f ?g] =>
            destruct (analyze_articles a b c d e f g) as [k w3]
        end.
        simpl. intros H. inversion H. eauto.
    + discriminate.
  - intros H. inversion H. eauto.
Qed.

(** the run body, stage by stage *)
Lemma task_body_eq (E : env) (args : thread_args) (w : world) :
  task_body E args w =
    match run_scraping_pipeline E (scraper_mods args) (th_stop_event args) w with
    | (Raise e, w1) => (Raise e, w1)
    | (Ok s1, w1) =>
        match extraction_step E args w1 with
        | (Raise e, w2) => (Raise e, w2)
        | (Ok s2, w2) =>
            db_write E
              (add_pipeline_run
                 (merge (merge s1 s2)
                    (status_stats
                       (if fst (is_set E (th_stop_event args) w2)
                        then "Stopped by user" else "Completed"))))
              (tick_poll w2)
        end
    end.
Proof.
  unfold task_body, bindM, bind, extraction_step, is_set, ret.
  destruct (run_scraping_pipeline E (scraper_mods args) (th_stop_event args) w)
    as [[s1|e] w1]; [|reflexivity].
  cbv beta iota. cbn [fst snd].
  destruct (stop_at E (th_stop_event args)) as [k|];
    [destruct (k <=? polls w1)|]; cbn [negb]; cbv iota; try reflexivity;
    destruct (run_analysis_pipeline E (th_stop_event args) (th_llm_config args) (tick_poll w1))
      as [[s2|e] w2]; reflexivity.
Qed.

Lemma task_run_eq (E : env) (args : thread_args) (w : world) :
  task_run E args w =
    match task_body E args w with
    | (Ok a, w1) => (Ok a, with_tracker idle_tracker w1)
    | (Raise e, w1) =>
        (fst (record_failure E e w1),
         with_tracker idle_tracker (snd (record_failure E e w1)))
    end.
Proof.
  unfold task_run, try_finally, try_except, bind, reset_tracker, update_tracker, modify, ret.
  destruct (task_body E args w) as [[a|e] w1]; [reflexivity|].
  destruct (record_failure E e w1) as [r w2]. reflexivity.
Qed.

Lemma extraction_step_frame (E : env) (args : thread_args) (w1 : world) :
  stage_frame analysis_event w1 (snd (extraction_step E args w1)).
Proof.
  unfold extraction_step.
  destruct (fst (is_set E (th_stop_event args) w1)).
  - apply stage_frame_quiet; simpl; auto.
  - eapply stage_frame_trans; [|apply run_analysis_pipeline_frame].
    apply stage_frame_quiet; simpl; auto.
Qed.

Lemma extraction_step_stats (E : env) (args : thread_args) (w1 : world) (s : stats) :
  fst (extraction_step E args w1) = Ok s ->
  s = empty_stats \/ exists c, s = analysis_stats c.
Proof.
  unfold extraction_step.
  destruct (fst (is_set E (th_stop_event args) w1)).
  - simpl. intros H. inversion H. now left.
  - intros H. right. eapply run_analysis_pipeline_stats. exact H.
Qed.

(** the row the run body writes is made of the counters of the two stages *)
Lemma merged_row (s1 s2 : stats) (st : string) (d : db) :
  (exists a b, s1 = scraping_stats a b) ->
  (s2 = empty_stats \/ exists c, s2 = analysis_stats c) ->
  pipeline_runs (add_pipeline_run (merge (merge s1 s2) (status_stats st)) d) =
  pipeline_runs d ++ [summary_row s1 s2 st].
Proof.
  intros (a & b & ->) [->|[c ->]]; reflexivity.
Qed.

Lemma record_failure_ok (E : env) (e : exn) (w : world) :
  fault E (db_calls w) = None ->
  pipeline_runs (w_db (snd (record_failure E e w))) =
  pipeline_runs (w_db w) ++ [failed_row e].
Proof.
  intros H. unfold record_failure. rewrite db_write_ok by assumption. reflexivity.
Qed.

(** C9, as amended.  A run body that returns has written one summary: the
    counters acquisition and extraction returned, with status "Stopped by
    user" when the stop event is set at the end and "Completed" otherwise; so
    a cancelled run keeps the counts accumulated before the cancellation.
    A run body that raises [e] has written nothing, and the handler writes
    one summary with status "Failed: " followed by the description of [e] and
    the three counters at 0, provided the store accepts that write. *)
Theorem run_summary_row (E : env) (args : thread_args) (w : world) :
  match task_body E args w with
  | (Ok _, _) =>
      exists s1 w1 s2 w2,
        run_scraping_pipeline E (scraper_mods args) (th_stop_event args) w = (Ok s1, w1) /\
        extraction_step E args w1 = (Ok s2, w2) /\
        pipeline_runs (w_db (snd (task_run E args w))) =
          pipeline_runs (w_db w) ++
          [summary_row s1 s2
             (if fst (is_set E (th_stop_event args) w2)
              then "Stopped by user" else "Completed")]
  | (Raise e, w1) =>
      fault E (db_calls w1) = None ->
      pipeline_runs (w_db (snd (task_run E args w))) =
        pipeline_runs (w_db w) ++ [failed_row e]
  end.
Proof.
  rewrite task_run_eq, task_body_eq.
  pose proof (run_scraping_pipeline_frame E (scraper_mods args) (th_stop_event args) w) as F1.
  pose proof (@run_scraping_pipeline_stats E (scraper_mods args) (th_stop_event args) w) as S1.
  destruct (run_scraping_pipeline E (scraper_mods args) (th_stop_event args) w)
    as [[s1|e] w1] eqn:H1; simpl in F1, S1; destruct F1 as (F1 & _).
  - pose proof (extraction_step_frame E args w1) as F2.
    pose proof (@extraction_step_stats E args w1) as S2.
    destruct (extraction_step E args w1) as [[s2|e] w2] eqn:H2; simpl in F2, S2;
      destruct F2 as (F2 & _).
    + destruct (fault E (db_calls (tick_poll w2))) as [msg|] eqn:Hf.
      * rewrite (db_write_fault _ _ _ Hf). intros Hh. simpl.
        rewrite record_failure_ok by exact Hh. simpl. congruence.
      * rewrite (db_write_ok _ _ _ Hf).
        exists s1, w1, s2, w2. split; [reflexivity|]. split; [exact H2|].
        simpl. destruct (S1 _ eq_refl) as (a & b & ->).
        destruct (S2 _ eq_refl) as [->|[c ->]]; simpl; rewrite F2, F1; reflexivity.
    + intros Hh. simpl. rewrite record_failure_ok by exact Hh. congruence.
  - intros Hh. simpl. rewrite record_failure_ok by exact Hh. congruence.
Qed.

(** the summary the handler writes, at a run whose extraction stage raises *)
Lemma run_summary_row_witness :
  pipeline_runs (w_db (snd (task_run broken_env alpha_args initial_world))) =
  [failed_row (OperationalError "disk I/O error")].
Proof.
  exact ((run_summary_row broken_env alpha_args initial_world
          <: (@None string = None ->
              pipeline_runs (w_db (snd (task_run broken_env alpha_args initial_world))) =
              [failed_row (OperationalError "disk I/O error")])) eq_refl).
Defined.

(** C9, the counterexample.  Acquisition returns one new reference and one
    new content item and stores them; the extraction stage then raises; the
    persisted summary records 0 for both. *)
Lemma failed_run_loses_counts :
  fst (run_scraping_pipeline broken_env [alpha] 0 initial_world) = Ok (scraping_stats 1 1) /\
  List.length (links (w_db (snd (pipeline_task broken_env alpha_args initial_world)))) = 1 /\
  List.length (articles (w_db (snd (pipeline_task broken_env alpha_args initial_world)))) = 1 /\
  pipeline_runs (w_db (snd (pipeline_task broken_env alpha_args initial_world))) =
    [{| new_links_found := 0; articles_scraped := 0; entities_analyzed := 0;
        run_status := "Failed: disk I/O error" |}].
Proof.
  vm_compute. repeat split.
Qed.

(** ** Job controller: clean-up *)

Lemma task_run_resets (E : env) (args : thread_args) (w : world) :
  w_tracker (snd (task_run E args w)) = idle_tracker.
Proof.
  rewrite task_run_eq.
  destruct (task_body E args w) as [[a|e] w1]; reflexivity.
Qed.

Lemma get_scraper_modules_trace (E : env) (names : option (list string)) (w : world) :
  trace (snd (get_scraper_modules E names w)) = trace w.
Proof.
  unfold get_scraper_modules, bindM, bind, discover_scrapers.
  destruct (Dict.truthy (w_scraper_cache w)).
  - destruct names; reflexivity.
  - destruct (listdir E (scans w)); [|reflexivity].
    destruct (scan _ _); [destruct names|]; reflexivity.
Qed.

(** C3.  Whatever the environment does (the stages return, the stop event
    is set at any poll, a database call fails at any point, even inside the
    failure handler), the tracker after [pipeline_task] is the idle tracker
    and a status query reports [is_running = false]; the same holds from the
    moment a started thread is inside the run body; and a scheduled run
    either ends with the idle tracker or never entered a stage and left the
    tracker as it found it. *)
Theorem tracker_reset_on_every_exit (E : env) (w : world) :
  (forall args,
     w_tracker (snd (pipeline_task E args w)) = idle_tracker /\
     snap_is_running (get_pipeline_status (snd (pipeline_task E args w))) = false) /\
  (forall args, w_tracker (snd (task_run E args w)) = idle_tracker) /\
  (w_tracker (snd (scheduled_pipeline_run E w)) = idle_tracker \/
   (w_tracker (snd (scheduled_pipeline_run E w)) = w_tracker w /\
    trace (snd (scheduled_pipeline_run E w)) = trace w)).
Proof.
  split; [|split].
  - intros args.
    assert (H : w_tracker (snd (pipeline_task E args w)) = idle_tracker).
    { unfold pipeline_task, bind.
      destruct (task_begin (th_stop_event args) w) as [u w0].
      apply task_run_resets. }
    split; [exact H|].
    unfold get_pipeline_status. simpl. now rewrite H.
  - intros args. apply task_run_resets.
  - unfold scheduled_pipeline_run.
    destruct (is_running (w_tracker w)); [right; split; reflexivity|].
    unfold bind, new_event.
    pose proof (get_scraper_modules_tracker E None (tick_event w)) as Ht.
    pose proof (get_scraper_modules_trace E None (tick_event w)) as Hl.
    destruct (get_scraper_modules E None (tick_event w)) as [[mods|e] w1];
      simpl in Ht, Hl.
    + destruct mods as [|m ms].
      * right. split; assumption.
      * left. unfold task_begin, try_finally, bind, reset_tracker,
          update_tracker, modify, ret.
        match goal with
        | |- context [try_except ?a ?b ?c] => destruct (try_except a b c) as [r w2]
        end.
        reflexivity.
    + right. split; assumption.
Qed.

(** the three kinds of exit do occur: a run that completes, one that is
    cancelled and one whose failure handler fails too *)
Example exits_of_pipeline_task :
  fst (pipeline_task alpha_env alpha_args initial_world) = Ok tt /\
  map run_status (pipeline_runs (w_db (snd (pipeline_task alpha_env alpha_args initial_world))))
    = ["Completed"] /\
  map run_status (pipeline_runs (w_db (snd (pipeline_task cancel_env alpha_args initial_world))))
    = ["Stopped by user"] /\
  fst (pipeline_task
         {| fault := fun n => if 3 <=? n then Some "database is locked" else None;
            stop_at := fun _ => None; listdir := fun _ => Ok [alpha_entry];
            SentimentAnalyzer := fun _ => Ok mute_analyzer |}
         alpha_args initial_world)
    = Raise (OperationalError "database is locked").
Proof.
  vm_compute. repeat split.
Qed.

(** ** Job controller: cancellation during acquisition *)

(** X21.  On the path of [pipeline_task]: when the stop event is set by
    the time acquisition returns, the extraction stage is not entered and the
    summary carries the counts of acquisition and says "Stopped by user". *)
Lemma task_run_stopped_in_acquisition (E : env) (args : thread_args) (w w1 : world) (s1 : stats) :
  run_scraping_pipeline E (scraper_mods args) (th_stop_event args) w = (Ok s1, w1) ->
  fst (is_set E (th_stop_event args) w1) = true ->
  fault E (db_calls w1) = None ->
  ~ In EnterAnalysis (new_events w (snd (task_run E args w))) /\
  pipeline_runs (w_db (snd (task_run E args w))) =
    pipeline_runs (w_db w) ++ [summary_row s1 empty_stats "Stopped by user"].
Proof.
  intros H1 Hs Hf.
  pose proof (run_scraping_pipeline_frame E (scraper_mods args) (th_stop_event args) w) as F1.
  pose proof (@run_scraping_pipeline_stats E (scraper_mods args) (th_stop_event args) w s1) as S1.
  rewrite H1 in F1, S1. simpl in F1, S1.
  destruct F1 as (F1 & _ & _ & _ & evs & Ht & Hall).
  rewrite task_run_eq, task_body_eq, H1.
  unfold extraction_step. rewrite Hs.
  rewrite (is_set_monotone E (th_stop_event args) w1 (tick_poll w1)) by (simpl; auto).
  rewrite db_write_ok by exact Hf.
  split.
  - erewrite new_events_app by (simpl; exact Ht).
    intros Hin. rewrite Forall_forall in Hall. apply Hall in Hin. discriminate.
  - simpl. destruct (S1 eq_refl) as (a & b & ->). simpl. rewrite F1. reflexivity.
Qed.

(** C2, at the failing input.  The stop event is set during acquisition
    (between its first and its second poll).  The scheduled run enters the
    extraction stage all the same and records "Completed"; the run started by
    a trigger, in the same environment, does neither. *)
Theorem scheduled_run_ignores_stop :
  let scheduled := snd (scheduled_pipeline_run cancel_env initial_world) in
  let manual := snd (pipeline_task cancel_env alpha_args initial_world) in
  trace scheduled = [EnterScraping; EnterAnalysis] /\
  pipeline_runs (w_db scheduled) =
    [{| new_links_found := 1; articles_scraped := 0; entities_analyzed := 0;
        run_status := "Completed" |}] /\
  trace manual = [EnterScraping] /\
  pipeline_runs (w_db manual) =
    [{| new_links_found := 1; articles_scraped := 0; entities_analyzed := 0;
        run_status := "Stopped by user" |}].
Proof.
  vm_compute. repeat split.
Qed.

(** ** Job controller: a trigger that selects no known source *)

(** C10, the counterexample.  While a run is active, a trigger whose names
    resolve to no adapter is answered 409, not 400. *)
Lemma trigger_unknown_while_running :
  fst (get_scraper_modules alpha_env (req_scrapers request_unknown) busy_world) = Ok [] /\
  code (fst (fst (trigger_pipeline alpha_env request_unknown busy_world))) = 409 /\
  code (fst (fst (trigger_pipeline alpha_env request_unknown busy_world))) <> 400.
Proof.
  vm_compute. repeat split. discriminate.
Qed.

(** C10, as amended.  When the names of a trigger request resolve to no
    adapter, no thread is started and the tracker is left unchanged; the
    answer is 400 when no run is active and 409 when one is. *)
Theorem trigger_unknown_sources (E : env) (req : request) (w : world) :
  fst (get_scraper_modules E (req_scrapers req) w) = Ok [] ->
  snd (fst (trigger_pipeline E req w)) = None /\
  w_tracker (snd (trigger_pipeline E req w)) = w_tracker w /\
  code (fst (fst (trigger_pipeline E req w))) =
    (if is_running (w_tracker w) then 409 else 400).
Proof.
  intros H. split; [|split].
  - unfold trigger_pipeline. destruct (is_running (w_tracker w)); [reflexivity|].
    unfold bind. destruct (get_scraper_modules E (req_scrapers req) w) as [r w'].
    simpl in H. subst r. reflexivity.
  - apply trigger_pipeline_tracker.
  - unfold trigger_pipeline. destruct (is_running (w_tracker w)); [reflexivity|].
    unfold bind. destruct (get_scraper_modules E (req_scrapers req) w) as [r w'].
    simpl in H. subst r. reflexivity.
Qed.

Lemma trigger_unknown_sources_witness :
  snd (fst (trigger_pipeline alpha_env request_unknown initial_world)) = None /\
  w_tracker (snd (trigger_pipeline alpha_env request_unknown initial_world)) = idle_tracker /\
  code (fst (fst (trigger_pipeline alpha_env request_unknown initial_world))) = 400.
Proof.
  apply (trigger_unknown_sources alpha_env request_unknown initial_world).
  reflexivity.
Defined.

(** ** Job controller: single flight *)

(** C1, at the failing input.  Two triggers are handled before the thread
    of the first has executed line 224: both find [is_running] false, both
    are answered 202, and both threads then run the body; run to their ends,
    they leave two summaries. *)
Theorem two_triggers_two_runs :
  let s := sys_run alpha_env initial_system
             [Trigger request_all; Trigger request_all; Enter 0; Enter 0] in
  map code (responses s) = [202; 202] /\
  List.length (inside s) = 2 /\
  is_running (w_tracker (sys_world s)) = true /\
  List.length (pipeline_runs (w_db (sys_world (sys_run alpha_env s [Leave 0; Leave 0])))) = 2.
Proof.
  vm_compute. repeat split.
Qed.

(** ** The store over time *)

Lemma db_later_trans (a b c : db) : db_later a b -> db_later b c -> db_later a c.
Proof.
  intros Hab Hbc. induction Hbc as [|b c d Hbc IH Hs]; [assumption|].
  apply later_then with (d2 := c); [now apply IH | exact Hs].
Qed.

Lemma db_later_step (a b : db) : db_step a b -> db_later a b.
Proof. intros H. eapply later_then; [apply later_now | exact H]. Qed.

Lemma db_step_seq_articles (d d' : db) : db_step d d' -> seq_articles d <= seq_articles d'.
Proof.
  destruct 1; simpl; auto.
  - unfold add_link. destruct (url_in_links url d); simpl; auto.
  - unfold add_article. destruct (url_in_articles (ad_url data) d); simpl; auto.
Qed.

Lemma map_article_id_mark (id : nat) (l : list article_row) :
  map article_id (map (fun a => if article_id a =? id then set_analyzed a else a) l) =
  map article_id l.
Proof.
  rewrite map_map. apply map_ext. intros a.
  destruct (article_id a =? id); reflexivity.
Qed.

Lemma db_step_wf (d d' : db) : db_step d d' -> db_wf d -> db_wf d'.
Proof.
  intros Hs [Hnd Hle]. destruct Hs; try (split; assumption).
  - unfold add_link. destruct (url_in_links url d); simpl; split; assumption.
  - unfold add_article. destruct (url_in_articles (ad_url data) d); [split; assumption|].
    split; simpl.
    + rewrite map_app. simpl.
      apply NoDup_app; [assumption | repeat constructor; simpl; tauto |].
      intros x Hx [<-|[]].
      rewrite in_map_iff in Hx. destruct Hx as (a & Ha & Hin).
      rewrite Forall_forall in Hle. apply Hle in Hin. lia.
    + apply Forall_app. split.
      * eapply Forall_impl; [|exact Hle]. simpl. intros; lia.
      * repeat constructor.
  - split; simpl.
    + now rewrite map_article_id_mark.
    + rewrite Forall_forall in *. intros a Ha.
      rewrite in_map_iff in Ha. destruct Ha as (b & <- & Hb).
      specialize (Hle b Hb). destruct (article_id b =? id); simpl; assumption.
Qed.

Lemma db_later_wf (d d' : db) : db_later d d' -> db_wf d -> db_wf d'.
Proof.
  induction 1; auto. intros. eapply db_step_wf; eauto.
Qed.

Lemma create_database_wf : db_wf create_database.
Proof. split; constructor. Qed.

(** flags *)

Lemma find_app_some {A} (f : A -> bool) (l l' : list A) (a : A) :
  find f l = Some a -> find f (l ++ l') = Some a.
Proof.
  induction l as [|x l IH]; simpl; [discriminate|].
  destruct (f x); auto.
Qed.

Lemma analyzed_flag_mark_other (id id' : nat) (d : db) :
  id <> id' ->
  analyzed_flag id (mark_article_as_analyzed id' d) = analyzed_flag id d.
Proof.
  intros Hne. unfold analyzed_flag. simpl.
  induction (articles d) as [|a l IH]; simpl; [reflexivity|].
  destruct (article_id a =? id') eqn:E1; simpl.
  - apply Nat.eqb_eq in E1.
    destruct (article_id a =? id) eqn:E2; [apply Nat.eqb_eq in E2; congruence|].
    exact IH.
  - destruct (article_id a =? id); [reflexivity | exact IH].
Qed.

Lemma analyzed_flag_mark_same (id : nat) (d : db) :
  analyzed_flag id (mark_article_as_analyzed id d) =
  option_map (fun _ => true) (analyzed_flag id d).
Proof.
  unfold analyzed_flag. simpl.
  induction (articles d) as [|a l IH]; simpl; [reflexivity|].
  destruct (article_id a =? id) eqn:E1; simpl.
  - rewrite E1. reflexivity.
  - rewrite E1. exact IH.
Qed.

Lemma analyzed_flag_add_article (id link_id : nat) (data : article_data) (d : db) (b : bool) :
  analyzed_flag id d = Some b ->
  analyzed_flag id (snd (add_article link_id data d)) = Some b.
Proof.
  unfold analyzed_flag, add_article.
  destruct (url_in_articles (ad_url data) d); simpl; [auto|].
  destruct (find _ (articles d)) as [a|] eqn:Hf; [|discriminate].
  intros H. now rewrite (find_app_some _ _ _ Hf).
Qed.

(** a flag that is set stays set *)
Lemma db_step_flag_true (id : nat) (d d' : db) :
  db_step d d' -> analyzed_flag id d = Some true -> analyzed_flag id d' = Some true.
Proof.
  intros Hs H. destruct Hs; try exact H.
  - unfold add_link. destruct (url_in_links url d); exact H.
  - now apply analyzed_flag_add_article.
  - destruct (Nat.eq_dec id id0) as [<-|Hne].
    + rewrite analyzed_flag_mark_same, H. reflexivity.
    + now rewrite analyzed_flag_mark_other.
Qed.

Lemma db_later_flag_true (id : nat) (d d' : db) :
  db_later d d' -> analyzed_flag id d = Some true -> analyzed_flag id d' = Some true.
Proof.
  induction 1; auto. intros. eapply db_step_flag_true; eauto.
Qed.

(** what the unprocessed-item query selects *)

Lemma find_unique (l : list article_row) (a : article_row) :
  NoDup (map article_id l) -> In a l ->
  find (fun x => article_id x =? article_id a) l = Some a.
Proof.
  induction l as [|x l IH]; simpl; [contradiction|].
  intros Hnd [->|Hin].
  - now rewrite Nat.eqb_refl.
  - inversion Hnd as [|? ? Hx Hnd']; subst.
    destruct (article_id x =? article_id a) eqn:E1.
    + apply Nat.eqb_eq in E1. exfalso. apply Hx. rewrite E1. now apply in_map.
    + now apply IH.
Qed.

Lemma selected_ids_spec (d : db) (id : nat) :
  In id (selected_ids d) <->
  exists a, In a (articles d) /\ article_id a = id /\ unanalyzed a = true.
Proof.
  unfold selected_ids, get_unanalyzed_articles. rewrite map_map. simpl.
  rewrite in_map_iff. split.
  - intros (a & <- & Ha). apply filter_In in Ha. destruct Ha. eauto.
  - intros (a & Ha & <- & Hu). exists a. split; [reflexivity|].
    apply filter_In. now split.
Qed.

(** the query returns only items whose flag is false *)
Lemma selected_flag_false (d : db) (id : nat) :
  db_wf d -> In id (selected_ids d) -> analyzed_flag id d = Some false.
Proof.
  intros [Hnd _] H. apply selected_ids_spec in H. destruct H as (a & Ha & <- & Hu).
  unfold analyzed_flag. rewrite (find_unique _ _ Hnd Ha). simpl.
  unfold unanalyzed in Hu. apply andb_prop in Hu. destruct Hu as [Hu _].
  now destruct (is_analyzed a).
Qed.

Lemma flag_true_not_selected (d : db) (id : nat) :
  db_wf d -> analyzed_flag id d = Some true -> ~ In id (selected_ids d).
Proof.
  intros Hwf Ht Hin. rewrite (@selected_flag_false d id Hwf Hin) in Ht. discriminate.
Qed.

(** filtering the rows keeps their ids distinct *)
Lemma unanalyzed_ids_distinct (rows : list article_row) :
  NoDup (map article_id rows) ->
  NoDup (map article_id (filter unanalyzed rows)).
Proof.
  intros Hnd. induction rows as [|row rows IH]; simpl; [constructor|].
  inversion Hnd as [|? ? Hfresh Hrest]; subst.
  destruct (unanalyzed row); simpl; [|now apply IH].
  constructor; [|now apply IH].
  intros Hin. apply Hfresh.
  rewrite in_map_iff in *. destruct Hin as (other & Hid & Hin).
  apply filter_In in Hin. exists other. tauto.
Qed.

Lemma selected_ids_NoDup (d : db) : db_wf d -> NoDup (selected_ids d).
Proof.
  intros [Hnd _]. unfold selected_ids, get_unanalyzed_articles.
  rewrite map_map. simpl. now apply unanalyzed_ids_distinct.
Qed.

(** ** Extraction stage: one article *)

Lemma quiet_refl (w : world) : quiet w w.
Proof. split; reflexivity. Qed.

Lemma quiet_trans (a b c : world) : quiet a b -> quiet b c -> quiet a c.
Proof. intros [H1 H2] [K1 K2]. split; congruence. Qed.

Lemma add_sentiments_quiet (E : env) (id : nat) (es : list entity) (n : nat) (w : world) :
  quiet w (snd (add_sentiments E id es n w)).
Proof.
  apply (@respects_add_sentiments E quiet).
  - apply quiet_refl.
  - apply quiet_trans.
  - intros w0. split; reflexivity.
  - intros row w0. split; reflexivity.
Qed.

Lemma add_sentiments_healthy (E : env) (id : nat) (es : list entity) :
  (forall k, fault E k = None) ->
  forall n w, snd (fst (add_sentiments E id es n w)) = None.
Proof.
  intros Hf. induction es as [|en rest IH]; intros n w.
  - reflexivity.
  - unfold add_sentiments; fold add_sentiments. unfold bind.
    rewrite db_write_ok by apply Hf. apply IH.
Qed.

(** the [try] block, case by case *)
Lemma analyze_article_eq (E : env) (a : analyzer) (x : todo) (n : nat) (w : world) :
  analyze_article E a x n w =
    match analyze_text_for_sentiment a (todo_text x) with
    | Raise e => ((n, Some e), log (Analyze (todo_id x)) w)
    | Ok (es, usage) =>
        match
          match usage with
          | Some u =>
              db_write E (add_usage_log (todo_id x) (provider a) u)
                (log (Analyze (todo_id x)) w)
          | None => (Ok tt, log (Analyze (todo_id x)) w)
          end
        with
        | (Raise e, w1) => ((n, Some e), w1)
        | (Ok _, w1) =>
            match snd (fst (add_sentiments E (todo_id x) es n w1)) with
            | Some e =>
                ((fst (fst (add_sentiments E (todo_id x) es n w1)), Some e),
                 snd (add_sentiments E (todo_id x) es n w1))
            | None =>
                match db_write E (mark_article_as_analyzed (todo_id x))
                        (snd (add_sentiments E (todo_id x) es n w1)) with
                | (Raise e, w3) =>
                    ((fst (fst (add_sentiments E (todo_id x) es n w1)), Some e), w3)
                | (Ok _, w3) =>
                    ((fst (fst (add_sentiments E (todo_id x) es n w1)), None), w3)
                end
            end
        end
    end.
Proof.
  unfold analyze_article, bind, modify, ret.
  destruct (analyze_text_for_sentiment a (todo_text x)) as [[es usage]|e]; [|reflexivity].
  destruct usage as [u|].
  - destruct (db_write E (add_usage_log (todo_id x) (provider a) u)
                (log (Analyze (todo_id x)) w)) as [[u1|e] w1]; [|reflexivity].
    destruct (add_sentiments E (todo_id x) es n w1) as [[c oe] w2]. simpl.
    destruct oe as [e|]; [reflexivity|].
    destruct (db_write E (mark_article_as_analyzed (todo_id x)) w2) as [[u3|e] w3];
      reflexivity.
  - destruct (add_sentiments E (todo_id x) es n (log (Analyze (todo_id x)) w))
      as [[c oe] w2]. simpl.
    destruct oe as [e|]; [reflexivity|].
    destruct (db_write E (mark_article_as_analyzed (todo_id x)) w2) as [[u3|e] w3];
      reflexivity.
Qed.

Lemma db_write_cases (E : env) (f : db -> db) (w : world) :
  (exists msg, db_write E f w = (Raise (OperationalError msg), tick_db w)) \/
  db_write E f w = (Ok tt, with_db (f (w_db w)) (tick_db w)).
Proof.
  destruct (fault E (db_calls w)) as [msg|] eqn:Hf.
  - left. exists msg. now apply db_write_fault.
  - right. now apply db_write_ok.
Qed.

(** What the [try] block does to the trace and to the articles: it logs the
    call of the extractor; when it raises, no article changed; when it ends,
    the extractor had returned and exactly the article's flag was set. *)
Lemma analyze_article_effect (E : env) (a : analyzer) (x : todo) (n : nat) (w : world) :
  trace (snd (analyze_article E a x n w)) = trace w ++ [Analyze (todo_id x)] /\
  match snd (fst (analyze_article E a x n w)) with
  | Some e =>
      articles (w_db (snd (analyze_article E a x n w))) = articles (w_db w) /\
      ((forall k, fault E k = None) ->
       analyze_text_for_sentiment a (todo_text x) = Raise e)
  | None =>
      articles (w_db (snd (analyze_article E a x n w))) =
        articles (mark_article_as_analyzed (todo_id x) (w_db w)) /\
      exists r, analyze_text_for_sentiment a (todo_text x) = Ok r
  end.
Proof.
  rewrite analyze_article_eq.
  destruct (analyze_text_for_sentiment a (todo_text x)) as [[es usage]|e].
  2:{ simpl. auto. }
  set (w0 := log (Analyze (todo_id x)) w).
  assert (Hu : exists r1 w1,
             match usage with
             | Some u => db_write E (add_usage_log (todo_id x) (provider a) u) w0
             | None => (Ok tt, w0)
             end = (r1, w1) /\ quiet w0 w1 /\
             ((forall k, fault E k = None) -> r1 = Ok tt)).
  { destruct usage as [u|].
    - destruct (db_write_cases E (add_usage_log (todo_id x) (provider a) u) w0)
        as [[msg H]|H]; rewrite H; do 2 eexists; split; try reflexivity.
      + split; [split; reflexivity|]. intros Hf.
        rewrite db_write_ok in H by apply Hf. discriminate.
      + split; [split; reflexivity|]. reflexivity.
    - do 2 eexists. split; [reflexivity|]. split; [apply quiet_refl|reflexivity]. }
  destruct Hu as (r1 & w1 & -> & [Ha1 Ht1] & Hh1).
  destruct r1 as [u1|e].
  2:{ simpl. rewrite Ht1. split; [reflexivity|]. split; [exact Ha1|].
      intros Hf. specialize (Hh1 Hf). discriminate. }
  pose proof (add_sentiments_quiet E (todo_id x) es n w1) as [Ha2 Ht2].
  pose proof (@add_sentiments_healthy E (todo_id x) es) as Hh2.
  destruct (snd (fst (add_sentiments E (todo_id x) es n w1))) as [e|] eqn:H2.
  { simpl. rewrite Ht2, Ht1. split; [reflexivity|]. split; [rewrite Ha2, Ha1; reflexivity|].
    intros Hf. rewrite (Hh2 Hf) in H2. discriminate. }
  destruct (db_write_cases E (mark_article_as_analyzed (todo_id x))
              (snd (add_sentiments E (todo_id x) es n w1))) as [[msg H]|H]; rewrite H.
  - simpl. rewrite Ht2, Ht1. split; [reflexivity|]. split; [rewrite Ha2, Ha1; reflexivity|].
    intros Hf. rewrite db_write_ok in H by apply Hf. discriminate.
  - simpl. rewrite Ht2, Ht1. split; [reflexivity|]. split; [|eauto].
    rewrite Ha2, Ha1. reflexivity.
Qed.

(** ** Extraction stage: the loop *)

Lemma analyzed_flag_articles (id : nat) (d d' : db) :
  articles d' = articles d -> analyzed_flag id d' = analyzed_flag id d.
Proof. unfold analyzed_flag. now intros ->. Qed.

(** one turn of the loop *)
Lemma analyze_articles_cons (E : env) (ev : nat) (a : analyzer) (x : todo)
  (rest : list todo) (i n : nat) (w : world) :
  analyze_articles E ev a (x :: rest) i n w =
    if fst (is_set E ev w)
    then (n, with_tracker (set_status "Stopping..." (w_tracker w)) (tick_poll w))
    else
      let w1 := with_tracker
                  (set_current_task
                     ("Analyzing article ID: " ++ str_of_nat (todo_id x)) (w_tracker w))
                  (tick_poll w) in
      let r := fst (analyze_article E a x n w1) in
      let w2 := snd (analyze_article E a x n w1) in
      let w3 := match snd r with
                | Some e => log (AnalyzeFailed (todo_id x) e) w2
                | None => w2
                end in
      analyze_articles E ev a rest (i + 1) (fst r)
        (with_tracker (set_progress (i + 1) (w_tracker w3)) w3).
Proof.
  unfold analyze_articles; fold analyze_articles.
  unfold bind, is_set, update_tracker, modify, ret. cbn [fst snd].
  destruct (match stop_at E ev with Some k => k <=? polls w | None => false end);
    [reflexivity|].
  cbv zeta. simpl w_tracker.
  destruct (analyze_article E a x n _) as [[c oe] w2]. cbn [fst snd].
  destruct oe; reflexivity.
Qed.

Lemma is_set_true_stop_at (E : env) (ev : nat) (w : world) :
  fst (is_set E ev w) = true -> stop_at E ev <> None.
Proof.
  unfold is_set. simpl. destruct (stop_at E ev); [discriminate|discriminate].
Qed.

Lemma is_set_never (E : env) (ev : nat) (w : world) :
  stop_at E ev = None -> fst (is_set E ev w) = false.
Proof. unfold is_set. simpl. now intros ->. Qed.

(** The loop, item by item.  The items have distinct ids.  It extends the
    trace by [evs]; it neither logs anything about, nor changes the flag of,
    an article that is not among the items; and every item has one of the
    three outcomes. *)
Lemma analyze_articles_outcome (E : env) (ev : nat) (a : analyzer) (items : list todo) :
  forall i n w,
    NoDup (map todo_id items) ->
    exists evs,
      trace (snd (analyze_articles E ev a items i n w)) = trace w ++ evs /\
      (forall id, ~ In id (map todo_id items) ->
         ~ In (Analyze id) evs /\
         (forall e, ~ In (AnalyzeFailed id e) evs) /\
         analyzed_flag id (w_db (snd (analyze_articles E ev a items i n w))) =
           analyzed_flag id (w_db w)) /\
      (forall x, In x items ->
         item_outcome E ev a evs (w_db w)
           (w_db (snd (analyze_articles E ev a items i n w))) x).
Proof.
  induction items as [|y rest IH]; intros i n w Hnd.
  - exists []. split; [simpl; now rewrite app_nil_r|]. split.
    + intros id _. repeat split; auto.
    + intros x [].
  - rewrite analyze_articles_cons.
    inversion Hnd as [|? ? Hy Hrest]; subst.
    destruct (fst (is_set E ev w)) eqn:Hs.
    + exists []. split; [simpl; now rewrite app_nil_r|]. split.
      * intros id _. repeat split; auto.
      * intros x _. left. split; [eapply is_set_true_stop_at; eauto|].
        repeat split; auto.
    + cbv zeta.
      set (w1 := with_tracker _ (tick_poll w)).
      pose proof (analyze_article_effect E a y n w1) as [Ht Hr].
      destruct (analyze_article E a y n w1) as [[c oe] w2].
      cbn [fst snd] in Ht, Hr |- *.
      set (w3 := match oe with
                 | Some e => log (AnalyzeFailed (todo_id y) e) w2
                 | None => w2
                 end).
      set (w4 := with_tracker _ w3).
      destruct (IH (i + 1) c w4 Hrest) as (evs' & Ht' & Hout' & Hitems').
      set (w' := snd (analyze_articles E ev a rest (i + 1) c w4)) in *.
      set (fl := match oe with
                 | Some e => [AnalyzeFailed (todo_id y) e]
                 | None => []
                 end).
      assert (Htr : trace w4 = trace w ++ Analyze (todo_id y) :: fl).
      { subst w4 w3 fl. destruct oe; simpl; rewrite Ht; simpl;
          rewrite <- ?app_assoc; reflexivity. }
      assert (Hdb : w_db w4 = w_db w2) by (subst w4 w3; destruct oe; reflexivity).
      assert (FA : forall id, In (Analyze id) (Analyze (todo_id y) :: fl ++ evs') <->
                              id = todo_id y \/ In (Analyze id) evs').
      { intros id. simpl. rewrite in_app_iff. split.
        - intros [H|[H|H]]; [left; congruence| |now right].
          subst fl. destruct oe; simpl in H; [destruct H as [H|[]]; discriminate|contradiction].
        - intros [->|H]; [now left|right; now right]. }
      assert (FF : forall id e, In (AnalyzeFailed id e) (Analyze (todo_id y) :: fl ++ evs') <->
                                (oe = Some e /\ id = todo_id y) \/ In (AnalyzeFailed id e) evs').
      { intros id e. simpl. rewrite in_app_iff. split.
        - intros [H|[H|H]]; [discriminate| |now right].
          subst fl. destruct oe as [e0|]; simpl in H; [|contradiction].
          destruct H as [H|[]]. inversion H; subst. left. auto.
        - intros [[-> ->]|H]; [|right; now right].
          right. left. subst fl. simpl. now left. }
      destruct (Hout' (todo_id y) Hy) as (HyA & HyF & Hyfl).
      exists (Analyze (todo_id y) :: fl ++ evs').
      split; [|split].
      * rewrite Ht', Htr, <- app_assoc. reflexivity.
      * intros id Hid. simpl in Hid.
        assert (Hne : id <> todo_id y) by (intros ->; apply Hid; now left).
        assert (Hnr : ~ In id (map todo_id rest)) by (intros H; apply Hid; now right).
        destruct (Hout' id Hnr) as (HA & HF & Hfl).
        split; [|split].
        -- rewrite FA. intros [H|H]; [contradiction|now apply HA].
        -- intros e. rewrite FF. intros [[_ H]|H]; [contradiction|now apply (HF e)].
        -- rewrite Hfl, Hdb.
           destruct oe as [e|].
           ++ destruct Hr as [Hr _]. now apply analyzed_flag_articles.
           ++ destruct Hr as [Hr _].
              rewrite (analyzed_flag_articles id _ _ Hr).
              now apply analyzed_flag_mark_other.
      * intros x [<-|Hx].
        -- destruct oe as [e|].
           ++ right. left. split; [apply FA; now left|]. split.
              ** exists e. split; [apply FF; left; auto|]. apply Hr.
              ** rewrite Hyfl, Hdb. destruct Hr as [Hr _].
                 now apply analyzed_flag_articles.
           ++ right. right. split; [apply FA; now left|]. split; [|split].
              ** intros e. rewrite FF. intros [[H _]|H]; [discriminate|now apply (HyF e)].
              ** apply Hr.
              ** rewrite Hyfl, Hdb. destruct Hr as [Hr _].
                 rewrite (analyzed_flag_articles (todo_id y) _ _ Hr).
                 apply analyzed_flag_mark_same.
        -- assert (Hne : todo_id x <> todo_id y).
           { intros Heq. apply Hy. rewrite <- Heq. now apply in_map. }
           assert (Hflx : analyzed_flag (todo_id x) (w_db w4) =
                          analyzed_flag (todo_id x) (w_db w)).
           { rewrite Hdb. destruct oe as [e|].
             - destruct Hr as [Hr _]. now apply analyzed_flag_articles.
             - destruct Hr as [Hr _].
               rewrite (analyzed_flag_articles (todo_id x) _ _ Hr).
               now apply analyzed_flag_mark_other. }
           destruct (Hitems' x Hx) as [(S0 & A0 & F0 & G0)|[(A0 & (e & F0 & X0) & G0)|(A0 & F0 & X0 & G0)]].
           ++ left. split; [exact S0|]. split; [|split].
              ** rewrite FA. intros [H|H]; [contradiction|now apply A0].
              ** intros e. rewrite FF. intros [[_ H]|H]; [contradiction|now apply (F0 e)].
              ** now rewrite G0.
           ++ right. left. split; [apply FA; now right|]. split.
              ** exists e. split; [apply FF; now right|exact X0].
              ** now rewrite G0.
           ++ right. right. split; [apply FA; now right|]. split; [|split].
              ** intros e. rewrite FF. intros [[_ H]|H]; [contradiction|now apply (F0 e)].
              ** exact X0.
              ** now rewrite G0, Hflx.
Qed.

(** ** Extraction stage: the whole stage *)

Lemma run_analysis_pipeline_eq (E : env) (ev : nat) (kwargs : llm_config) (w : world) :
  run_analysis_pipeline E ev kwargs w =
    match SentimentAnalyzer E kwargs with
    | Raise e =>
        (Ok (analysis_stats 0),
         with_tracker (set_status ("Error: " ++ str e) (w_tracker w)) (log EnterAnalysis w))
    | Ok a =>
        match fault E (db_calls w) with
        | Some msg => (Raise (OperationalError msg), tick_db (log EnterAnalysis w))
        | None =>
            let items := get_unanalyzed_articles (w_db w) in
            let w1 := with_tracker
                        (set_phase "Analyzing sentiment" (List.length items) (w_tracker w))
                        (tick_db (log EnterAnalysis w)) in
            match items with
            | [] =>
                (Ok (analysis_stats 0),
                 with_tracker
                   (set_current_task "No new articles to analyze." (w_tracker w1)) w1)
            | _ :: _ =>
                (Ok (analysis_stats (fst (analyze_articles E ev a items 0 0 w1))),
                 snd (analyze_articles E ev a items 0 0 w1))
            end
        end
    end.
Proof.
  unfold run_analysis_pipeline, bindM, bind, modify, update_tracker, ret, db_read, db_call.
  destruct (SentimentAnalyzer E kwargs) as [a|e]; [|reflexivity].
  cbn [db_calls log].
  destruct (fault E (db_calls w)) as [msg|]; [reflexivity|].
  cbv zeta. cbn [w_db log tick_db].
  destruct (get_unanalyzed_articles (w_db w)) as [|x xs]; [reflexivity|].
  match goal with
  | |- _ = (Ok (analysis_stats (fst ?X)), snd ?X) =>
      change ((let (n, w') := X in (Ok (analysis_stats n), w')) =
              (Ok (analysis_stats (fst X)), snd X));
      destruct X; reflexivity
  end.
Qed.

(** The stage with a working extractor and a store that answers the query:
    it logs its entry, then what the loop logs; the extractor is called only
    on selected articles; every selected article has one of the three
    outcomes. *)
Lemma run_analysis_pipeline_outcome (E : env) (ev : nat) (kwargs : llm_config)
  (a : analyzer) (w : world) :
  SentimentAnalyzer E kwargs = Ok a ->
  fault E (db_calls w) = None ->
  db_wf (w_db w) ->
  exists evs,
    new_events w (snd (run_analysis_pipeline E ev kwargs w)) = EnterAnalysis :: evs /\
    (forall id, ~ In id (selected_ids (w_db w)) -> ~ In (Analyze id) evs) /\
    (forall x, In x (get_unanalyzed_articles (w_db w)) ->
       item_outcome E ev a evs (w_db w)
         (w_db (snd (run_analysis_pipeline E ev kwargs w))) x).
Proof.
  intros Ha Hf Hwf. rewrite run_analysis_pipeline_eq, Ha, Hf. cbv zeta.
  pose proof (@selected_ids_NoDup (w_db w) Hwf) as Hnd. unfold selected_ids in *.
  destruct (get_unanalyzed_articles (w_db w)) as [|x xs] eqn:Hitems.
  - exists []. split; [|split].
    + apply new_events_app. reflexivity.
    + auto.
    + intros x [].
  - set (w1 := with_tracker _ (tick_db (log EnterAnalysis w))).
    destruct (@analyze_articles_outcome E ev a (x :: xs) 0 0 w1 Hnd) as (evs & Ht & Hout & Hit).
    exists evs. split; [|split].
    + apply new_events_app. cbn [snd]. rewrite Ht. subst w1. simpl.
      rewrite <- app_assoc. reflexivity.
    + intros id Hid. now apply Hout.
    + intros y Hy. exact (Hit y Hy).
Qed.

(** whatever the environment, the extractor is called on selected articles
    only *)
Lemma run_analysis_pipeline_analyzes_selected (E : env) (ev : nat) (kwargs : llm_config)
  (w : world) (id : nat) :
  db_wf (w_db w) ->
  In (Analyze id) (new_events w (snd (run_analysis_pipeline E ev kwargs w))) ->
  In id (selected_ids (w_db w)).
Proof.
  intros Hwf Hin.
  destruct (SentimentAnalyzer E kwargs) as [a|e] eqn:Ha.
  - destruct (fault E (db_calls w)) as [msg|] eqn:Hf.
    + rewrite run_analysis_pipeline_eq, Ha, Hf in Hin.
      erewrite new_events_app in Hin by reflexivity.
      destruct Hin as [H|[]]. discriminate.
    + destruct (@run_analysis_pipeline_outcome E ev kwargs a w Ha Hf Hwf) as (evs & Hev & Hsel & _).
      rewrite Hev in Hin. destruct Hin as [H|Hin]; [discriminate|].
      destruct (in_dec Nat.eq_dec id (selected_ids (w_db w))) as [Hy|Hn]; [exact Hy|].
      exfalso. exact (Hsel id Hn Hin).
  - rewrite run_analysis_pipeline_eq, Ha in Hin.
    erewrite new_events_app in Hin by reflexivity.
    destruct Hin as [H|[]]. discriminate.
Qed.

(** ** The program only writes the store through [database.py] *)

Lemma world_later_refl (w : world) : world_later w w.
Proof. apply later_now. Qed.

Lemma world_later_trans (a b c : world) :
  world_later a b -> world_later b c -> world_later a c.
Proof. apply db_later_trans. Qed.

Lemma run_scraping_pipeline_later (E : env) (mods : list scraper) (ev : nat) (w : world) :
  world_later w (snd (run_scraping_pipeline E mods ev w)).
Proof.
  apply (@respects_run_scraping_pipeline E world_later (fun _ => True)).
  - apply world_later_refl.
  - apply world_later_trans.
  - intros. apply later_now.
  - intros. apply later_now.
  - intros. apply later_now.
  - intros. apply later_now.
  - intros. apply later_now.
  - intros. apply db_later_step. apply step_add_link.
  - intros. apply db_later_step. apply step_add_article.
  - exact I.
Qed.

Lemma run_analysis_pipeline_later (E : env) (ev : nat) (kwargs : llm_config) (w : world) :
  world_later w (snd (run_analysis_pipeline E ev kwargs w)).
Proof.
  apply (@respects_run_analysis_pipeline E world_later (fun _ => True)).
  - apply world_later_refl.
  - apply world_later_trans.
  - intros. apply later_now.
  - intros. apply later_now.
  - intros. apply later_now.
  - intros. apply later_now.
  - intros. apply later_now.
  - intros. apply db_later_step. apply step_add_sentiment.
  - intros. apply db_later_step. apply step_add_usage_log.
  - intros. apply db_later_step. apply step_mark.
  - exact I.
  - intros. exact I.
  - intros. exact I.
Qed.

Lemma db_write_later (E : env) (f : db -> db) (w : world) :
  (forall d, db_step d (f d)) -> world_later w (snd (db_write E f w)).
Proof.
  intros Hf. destruct (db_write_cases E f w) as [[msg H]|H]; rewrite H; simpl.
  - apply later_now.
  - apply db_later_step. apply Hf.
Qed.

Lemma task_run_later (E : env) (args : thread_args) (w : world) :
  world_later w (snd (task_run E args w)).
Proof.
  rewrite task_run_eq, task_body_eq.
  pose proof (run_scraping_pipeline_later E (scraper_mods args) (th_stop_event args) w) as L1.
  destruct (run_scraping_pipeline E (scraper_mods args) (th_stop_event args) w)
    as [[s1|e] w1]; simpl in L1.
  - assert (L2 : world_later w1 (snd (extraction_step E args w1))).
    { unfold extraction_step. destruct (fst (is_set E (th_stop_event args) w1)).
      - apply later_now.
      - apply (run_analysis_pipeline_later E _ _ (tick_poll w1)). }
    destruct (extraction_step E args w1) as [[s2|e] w2]; simpl in L2.
    + match goal with
      | |- context [db_write E ?f ?x] =>
          pose proof (@db_write_later E f x (fun d => step_add_pipeline_run _ d)) as L3;
          destruct (db_write E f x) as [[u|e] w3]
      end; simpl in L3 |- *.
      * eapply world_later_trans; [exact L1|]. eapply world_later_trans; [exact L2|exact L3].
      * eapply world_later_trans; [exact L1|]. eapply world_later_trans; [exact L2|].
        eapply world_later_trans; [exact L3|].
        apply (@db_write_later E _ w3 (fun d => step_add_pipeline_run _ d)).
    + eapply world_later_trans; [exact L1|]. eapply world_later_trans; [exact L2|].
      apply (@db_write_later E _ w2 (fun d => step_add_pipeline_run _ d)).
  - eapply world_later_trans; [exact L1|].
    apply (@db_write_later E _ w1 (fun d => step_add_pipeline_run _ d)).
Qed.

Lemma pipeline_task_later (E : env) (args : thread_args) (w : world) :
  world_later w (snd (pipeline_task E args w)).
Proof.
  unfold pipeline_task, bind, task_begin, bind, update_tracker, modify.
  apply (task_run_later E args
           (with_tracker (set_stop_event (Some (th_stop_event args))
                            (w_tracker (with_tracker (set_is_running true (w_tracker w)) w)))
              (with_tracker (set_is_running true (w_tracker w)) w))).
Qed.

(** ** A store that does not fail *)

Lemma db_read_ok {A} (E : env) (f : db -> A) (w : world) :
  fault E (db_calls w) = None ->
  db_read E f w = (Ok (f (w_db w)), tick_db w).
Proof.
  intros H. unfold db_read, db_call. rewrite H. reflexivity.
Qed.

Lemma run_scraping_pipeline_healthy (E : env) (mods : list scraper) (ev : nat) (w : world) :
  (forall k, fault E k = None) ->
  exists s, fst (run_scraping_pipeline E mods ev w) = Ok s.
Proof.
  intros Hf. unfold run_scraping_pipeline, bindM, bind, update_tracker.
  unfold modify, ret. cbv beta iota.
  match goal with
  | |- context [scrape_links ?a ?b ?c ?d ?e ?f] =>
      destruct (scrape_links a b c d e f) as [[n|early] w1]
  end; cbv beta iota; [|eexists; reflexivity].
  destruct (is_set E ev w1) as [[|] w2]; cbv beta iota; [eexists; reflexivity|].
  rewrite db_read_ok by apply Hf. cbv beta iota.
  destruct (get_unscraped_links (w_db w2)) as [|l ls]; cbv beta iota;
    [eexists; reflexivity|].
  match goal with
  | |- context [scrape_articles ?a ?b ?c ?d ?e ?f ?g] =>
      destruct (scrape_articles a b c d e f g) as [k w3]
  end.
  eexists; reflexivity.
Qed.

Lemma run_analysis_pipeline_healthy (E : env) (ev : nat) (kwargs : llm_config) (w : world) :
  fault E (db_calls w) = None ->
  exists c, fst (run_analysis_pipeline E ev kwargs w) = Ok (analysis_stats c).
Proof.
  intros Hf. rewrite run_analysis_pipeline_eq, Hf.
  destruct (SentimentAnalyzer E kwargs) as [a|e]; [|eexists; reflexivity].
  cbv zeta. destruct (get_unanalyzed_articles (w_db w)); eexists; reflexivity.
Qed.

Lemma two_articles_wf : db_wf (w_db two_articles).
Proof.
  apply (@db_later_wf create_database); [|apply create_database_wf].
  exact (run_scraping_pipeline_later flaky_env [beta] 0 initial_world).
Qed.

Lemma in_selected_ids (d : db) (x : todo) :
  In x (get_unanalyzed_articles d) -> In (todo_id x) (selected_ids d).
Proof. intros H. unfold selected_ids. now apply in_map. Qed.

(** C5.  The store does not fail and the extractor was constructed.  If a
    selected article was reached by the extraction stage and the extractor
    returned no entity for its text, its flag is set when the stage ends; and
    in every later state of the store the unprocessed-item query does not
    select it, selects only articles whose flag is false, and no run of the
    extraction stage calls the extractor on it. *)
Theorem zero_entities_marks_processed (E : env) (ev : nat) (kwargs : llm_config)
  (a : analyzer) (w : world) (x : todo) (u : option usage_stats) :
  db_wf (w_db w) ->
  (forall k, fault E k = None) ->
  SentimentAnalyzer E kwargs = Ok a ->
  In x (get_unanalyzed_articles (w_db w)) ->
  In (Analyze (todo_id x)) (new_events w (snd (run_analysis_pipeline E ev kwargs w))) ->
  analyze_text_for_sentiment a (todo_text x) = Ok ([], u) ->
  analyzed_flag (todo_id x) (w_db (snd (run_analysis_pipeline E ev kwargs w))) = Some true /\
  forall w2,
    world_later (snd (run_analysis_pipeline E ev kwargs w)) w2 ->
    ~ In (todo_id x) (selected_ids (w_db w2)) /\
    (forall id, In id (selected_ids (w_db w2)) -> analyzed_flag id (w_db w2) = Some false) /\
    (forall E2 ev2 kwargs2,
       ~ In (Analyze (todo_id x))
            (new_events w2 (snd (run_analysis_pipeline E2 ev2 kwargs2 w2)))).
Proof.
  intros Hwf Hf Ha Hx Hreached Hzero.
  destruct (@run_analysis_pipeline_outcome E ev kwargs a w Ha (Hf _) Hwf)
    as (evs & Hev & _ & Hout).
  assert (Hflag : analyzed_flag (todo_id x)
                    (w_db (snd (run_analysis_pipeline E ev kwargs w))) = Some true).
  { destruct (Hout x Hx) as [(_ & Hn & _)|[(_ & (e & _ & He) & _)|(_ & _ & _ & Hfl)]].
    - exfalso. rewrite Hev in Hreached. destruct Hreached as [H|H]; [discriminate|].
      now apply Hn.
    - rewrite (He Hf) in Hzero. discriminate.
    - rewrite Hfl, (@selected_flag_false (w_db w) (todo_id x) Hwf (in_selected_ids _ _ Hx)).
      reflexivity. }
  split; [exact Hflag|].
  intros w2 Hlater.
  assert (Hwf2 : db_wf (w_db w2)).
  { apply (@db_later_wf (w_db w)); [|exact Hwf].
    eapply db_later_trans; [apply run_analysis_pipeline_later|exact Hlater]. }
  assert (Hns : ~ In (todo_id x) (selected_ids (w_db w2))).
  { apply flag_true_not_selected; [exact Hwf2|].
    eapply db_later_flag_true; [exact Hlater|exact Hflag]. }
  split; [exact Hns|]. split.
  - intros id Hid. now apply selected_flag_false.
  - intros E2 ev2 kwargs2 Hin. apply Hns.
    eapply run_analysis_pipeline_analyzes_selected; [exact Hwf2|exact Hin].
Qed.

Lemma zero_entities_marks_processed_witness :
  analyzed_flag (todo_id good_item)
    (w_db (snd (run_analysis_pipeline flaky_env 0 default_llm_config two_articles)))
    = Some true /\
  forall w2,
    world_later (snd (run_analysis_pipeline flaky_env 0 default_llm_config two_articles)) w2 ->
    ~ In (todo_id good_item) (selected_ids (w_db w2)) /\
    (forall id, In id (selected_ids (w_db w2)) -> analyzed_flag id (w_db w2) = Some false) /\
    (forall E2 ev2 kwargs2,
       ~ In (Analyze (todo_id good_item))
            (new_events w2 (snd (run_analysis_pipeline E2 ev2 kwargs2 w2)))).
Proof.
  refine (@zero_entities_marks_processed flaky_env 0 default_llm_config flaky_analyzer
            two_articles good_item None _ _ _ _ _ _).
  - exact two_articles_wf.
  - intros k. reflexivity.
  - reflexivity.
  - vm_compute. left. reflexivity.
  - vm_compute. right. left. reflexivity.
  - reflexivity.
Defined.

(** the scenario of the specification, computed: of the two articles the
    second makes the extractor raise; both are visited, the first is marked,
    the second is not, and the run is recorded as "Completed" *)
Example one_item_fails :
  let w := snd (pipeline_task flaky_env beta_args initial_world) in
  trace w = [EnterScraping; EnterAnalysis; Analyze 1; Analyze 2;
             AnalyzeFailed 2 (PyException "model unavailable")] /\
  analyzed_flag 1 (w_db w) = Some true /\
  analyzed_flag 2 (w_db w) = Some false /\
  selected_ids (w_db w) = [2] /\
  pipeline_runs (w_db w) =
    [{| new_links_found := 2; articles_scraped := 2; entities_analyzed := 0;
        run_status := "Completed" |}].
Proof.
  vm_compute. repeat split.
Qed.

(** ** Single flight when threads enter promptly *)

Lemma prompt_step_single_flight (E : env) (s : system) (a : prompt_action) :
  single_flight s -> single_flight (prompt_step E s a).
Proof.
  intros [Hst Hin]. destruct a as [req|]; unfold prompt_step.
  - unfold sys_step at 2.
    pose proof (trigger_pipeline_tracker E req (sys_world s)) as Htr.
    destruct Hin as [[Hi Hr]|(t & Hi & Hr)].
    + destruct (trigger_pipeline E req (sys_world s)) as [[resp th] w'].
      simpl in Htr. destruct th as [t|]; unfold sys_step; simpl; rewrite Hst; simpl.
      * split; [reflexivity|]. right. exists t. rewrite Hi. split; reflexivity.
      * split; [reflexivity|]. left. split; [exact Hi|]. simpl. rewrite Htr. exact Hr.
    + rewrite (trigger_pipeline_conflict E req (sys_world s) Hr).
      unfold sys_step; simpl. rewrite Hst. simpl.
      split; [reflexivity|]. right. exists t. split; assumption.
  - unfold sys_step. destruct Hin as [[Hi Hr]|(t & Hi & Hr)]; rewrite Hi; cbn [nth_error].
    + split; [exact Hst|]. left. split; assumption.
    + split; [exact Hst|]. left. split; [reflexivity|].
      cbn [sys_world]. now rewrite task_run_resets.
Qed.

(** X18.  Single flight when no started thread is overtaken: in every
    schedule where each thread a trigger starts executes lines 224-225
    before the next request is handled, after any sequence of triggers and
    completions no thread is waiting to enter, at most one is inside the run
    body, and [is_running] says whether one is. *)
Lemma single_flight_when_prompt (E : env) (actions : list prompt_action) :
  single_flight (fold_left (prompt_step E) actions initial_system) /\
  List.length (inside (fold_left (prompt_step E) actions initial_system)) <= 1.
Proof.
  assert (H : forall s, single_flight s ->
                        single_flight (fold_left (prompt_step E) actions s)).
  { induction actions as [|a rest IH]; intros s Hs; simpl; [exact Hs|].
    apply IH. now apply prompt_step_single_flight. }
  assert (H0 : single_flight initial_system).
  { split; [reflexivity|]. left. split; reflexivity. }
  specialize (H _ H0). split; [exact H|].
  destruct H as [_ [[-> _]|(t & -> & _)]]; simpl; lia.
Qed.

(** ** Acquisition: what is counted *)

(** [add_link] returns a row id exactly when the locator was absent, and the
    id is a true value *)
Lemma add_link_new_iff_absent (url source : string) (d : db) :
  truthy_id (fst (add_link url source d)) = negb (url_in_links url d) /\
  (fst (add_link url source d) = None <-> url_in_links url d = true) /\
  (url_in_links url d = false ->
   links (snd (add_link url source d)) =
     links d ++ [{| link_id := S (seq_links d); link_url := url;
                    source_website := source |}]) /\
  (url_in_links url d = true -> snd (add_link url source d) = d).
Proof.
  unfold add_link. destruct (url_in_links url d); simpl.
  - repeat split; auto; discriminate.
  - repeat split; auto; discriminate.
Qed.

(** C4, at the failing input.  The two references of [gamma] lead to the
    same canonical address.  The first run stores two references and one
    article, yet counts two articles; the second run, with the same adapter
    output, stores nothing and still counts one. *)
Theorem second_acquisition_counts_rejected_article :
  let '(r1, w1) := run_scraping_pipeline gamma_env [gamma] 0 initial_world in
  let '(r2, w2) := run_scraping_pipeline gamma_env [gamma] 1 w1 in
  r1 = Ok (scraping_stats 2 2) /\
  List.length (links (w_db w1)) = 2 /\ List.length (articles (w_db w1)) = 1 /\
  r2 = Ok (scraping_stats 0 1) /\
  links (w_db w2) = links (w_db w1) /\ articles (w_db w2) = articles (w_db w1).
Proof.
  vm_compute. repeat split.
Qed.

(** ** Acquisition: references are counted once *)

Lemma run_scraping_pipeline_eq (E : env) (mods : list scraper) (ev : nat) (w : world) :
  run_scraping_pipeline E mods ev w =
    let w0 := with_tracker
                (set_current_task "Fetching article lists from sources."
                   (set_phase "Scraping links" (List.length mods) (w_tracker w)))
                (log EnterScraping w) in
    let wl := snd (scrape_links E ev mods 0 0 w0) in
    match fst (scrape_links E ev mods 0 0 w0) with
    | inr early => (Ok early, wl)
    | inl n =>
        if fst (is_set E ev wl) then (Ok (scraping_stats n 0), tick_poll wl)
        else
          match fault E (db_calls wl) with
          | Some msg => (Raise (OperationalError msg), tick_db (tick_poll wl))
          | None =>
              let todo := get_unscraped_links (w_db wl) in
              let w2 := with_tracker
                          (set_phase "Scraping articles" (List.length todo) (w_tracker wl))
                          (tick_db (tick_poll wl)) in
              match todo with
              | [] =>
                  (Ok (scraping_stats n 0),
                   with_tracker
                     (set_current_task "No new articles to scrape." (w_tracker w2)) w2)
              | _ :: _ =>
                  (Ok (scraping_stats n
                         (fst (scrape_articles E ev (scraper_map mods) todo 0 0 w2))),
                   snd (scrape_articles E ev (scraper_map mods) todo 0 0 w2))
              end
          end
    end.
Proof.
  unfold run_scraping_pipeline, bindM, bind, update_tracker.
  unfold modify, ret. cbv beta iota zeta.
  match goal with
  | |- context [scrape_links E ev mods 0 0 ?W] => set (W0 := W)
  end.
  change (with_tracker
            (set_current_task "Fetching article lists from sources."
               (set_phase "Scraping links" (List.length mods) (w_tracker w)))
            (log EnterScraping w)) with W0.
  destruct (scrape_links E ev mods 0 0 W0) as [[n|early] wl];
    cbn [fst snd]; [|reflexivity].
  unfold is_set at 1. cbn [fst snd].
  change (fst (is_set E ev wl))
    with (match stop_at E ev with Some k => k <=? polls wl | None => false end).
  destruct (match stop_at E ev with Some k => k <=? polls wl | None => false end);
    [reflexivity|].
  unfold db_read, db_call. cbn [db_calls tick_poll].
  destruct (fault E (db_calls wl)) as [msg|]; [reflexivity|].
  cbn [w_db tick_poll].
  destruct (get_unscraped_links (w_db wl)) as [|l ls]; [reflexivity|].
  match goal with
  | |- _ = (Ok (scraping_stats n (fst ?X)), snd ?X) =>
      change ((let (k, w') := X in (Ok (scraping_stats n k), w')) =
              (Ok (scraping_stats n (fst X)), snd X));
      destruct X; reflexivity
  end.
Qed.

Lemma db_step_url_in_links (u : string) (d d' : db) :
  db_step d d' -> url_in_links u d = true -> url_in_links u d' = true.
Proof.
  intros Hs H. destruct Hs; try exact H.
  - unfold add_link. destruct (url_in_links url d); simpl; [exact H|].
    unfold url_in_links in *. simpl. rewrite existsb_app, H. reflexivity.
  - unfold add_article. destruct (url_in_articles (ad_url data) d); exact H.
Qed.

Lemma db_later_url_in_links (u : string) (d d' : db) :
  db_later d d' -> url_in_links u d = true -> url_in_links u d' = true.
Proof.
  induction 1; auto. intros. eapply db_step_url_in_links; eauto.
Qed.

Lemma add_link_makes_known (u source : string) (d : db) :
  url_in_links u (snd (add_link u source d)) = true.
Proof.
  unfold add_link. destruct (url_in_links u d) eqn:H; simpl; [exact H|].
  unfold url_in_links. simpl. rewrite existsb_app. simpl.
  rewrite String.eqb_refl. now rewrite orb_true_r.
Qed.

Lemma add_links_later (E : env) (source : string) (urls : list string) (n : nat) (w : world) :
  world_later w (snd (add_links E source urls n w)).
Proof.
  apply (@respects_add_links E world_later).
  - apply world_later_refl.
  - apply world_later_trans.
  - intros. apply later_now.
  - intros. apply db_later_step. apply step_add_link.
Qed.

Lemma scrape_links_later (E : env) (ev : nat) (mods : list scraper) (i n : nat) (w : world) :
  world_later w (snd (scrape_links E ev mods i n w)).
Proof.
  apply (@respects_scrape_links E world_later).
  - apply world_later_refl.
  - apply world_later_trans.
  - intros. apply later_now.
  - intros. apply later_now.
  - intros. apply later_now.
  - intros. apply db_later_step. apply step_add_link.
Qed.

Lemma scrape_articles_later (E : env) (ev : nat) (smap : Dict.t scraper)
  (todo : list link_row) (i n : nat) (w : world) :
  world_later w (snd (scrape_articles E ev smap todo i n w)).
Proof.
  apply (@respects_scrape_articles E world_later).
  - apply world_later_refl.
  - apply world_later_trans.
  - intros. apply later_now.
  - intros. apply later_now.
  - intros. apply later_now.
  - intros. apply db_later_step. apply step_add_article.
Qed.

Lemma scrape_articles_same_links (E : env) (ev : nat) (smap : Dict.t scraper)
  (todo : list link_row) (i n : nat) (w : world) :
  same_links w (snd (scrape_articles E ev smap todo i n w)).
Proof.
  apply (@respects_scrape_articles E same_links).
  - intros w0. reflexivity.
  - unfold same_links. intros a b c H1 H2. congruence.
  - intros. reflexivity.
  - intros. reflexivity.
  - intros. reflexivity.
  - intros id data w0. unfold same_links, add_article. simpl.
    destruct (url_in_articles (ad_url data) (w_db w0)); reflexivity.
Qed.

(** one turn of the link loop *)
Lemma add_links_cons (E : env) (source u : string) (rest : list string) (n : nat) (w : world) :
  add_links E source (u :: rest) n w =
    match fault E (db_calls w) with
    | Some msg => ((n, Some (OperationalError msg)), tick_db w)
    | None =>
        add_links E source rest
          (if truthy_id (fst (add_link u source (w_db w))) then n + 1 else n)
          (with_db (snd (add_link u source (w_db w))) (tick_db w))
    end.
Proof.
  unfold add_links; fold add_links. unfold bind, db_call.
  destruct (fault E (db_calls w)); [reflexivity|].
  destruct (add_link u source (w_db w)) as [id d]. reflexivity.
Qed.

(** references that are stored already are not counted and change nothing *)
Lemma add_links_known (E : env) (source : string) (urls : list string) :
  forall n w,
    (forall u, In u urls -> url_in_links u (w_db w) = true) ->
    fst (fst (add_links E source urls n w)) = n /\
    w_db (snd (add_links E source urls n w)) = w_db w.
Proof.
  induction urls as [|u rest IH]; intros n w Hk.
  - split; reflexivity.
  - rewrite add_links_cons. destruct (fault E (db_calls w)); [split; reflexivity|].
    assert (Hu : url_in_links u (w_db w) = true) by (apply Hk; now left).
    unfold add_link. rewrite Hu. cbn [fst snd truthy_id].
    destruct (IH n (with_db (w_db w) (tick_db w))) as [H1 H2].
    { intros v Hv. simpl. apply Hk. now right. }
    split; [exact H1|]. rewrite H2. reflexivity.
Qed.

(** with a store that does not fail, every reference of the list is stored
    when the loop ends *)
Lemma add_links_complete (E : env) (source : string) (urls : list string) :
  (forall k, fault E k = None) ->
  forall n w u, In u urls ->
    url_in_links u (w_db (snd (add_links E source urls n w))) = true.
Proof.
  intros Hf. induction urls as [|v rest IH]; intros n w u Hin; [contradiction|].
  rewrite add_links_cons, Hf.
  destruct Hin as [->|Hin].
  - eapply db_later_url_in_links; [apply add_links_later|].
    simpl. apply add_link_makes_known.
  - now apply IH.
Qed.

Lemma scrape_links_cons (E : env) (ev : nat) (s : scraper) (rest : list scraper)
  (i n : nat) (w : world) :
  scrape_links E ev (s :: rest) i n w =
    if fst (is_set E ev w)
    then (inr (scraping_stats n 0),
          with_tracker (set_status "Stopping..." (w_tracker w)) (tick_poll w))
    else
      let w1 := with_tracker
                  (set_current_task ("Fetching links from " ++ SOURCE_NAME s) (w_tracker w))
                  (tick_poll w) in
      match get_article_urls s with
      | Raise _ =>
          scrape_links E ev rest (i + 1) n
            (with_tracker (set_progress (i + 1) (w_tracker w1)) w1)
      | Ok [] => scrape_links E ev rest (i + 1) n w1
      | Ok (u :: us) =>
          let w2 := snd (add_links E (SOURCE_NAME s) (u :: us) n w1) in
          scrape_links E ev rest (i + 1)
            (fst (fst (add_links E (SOURCE_NAME s) (u :: us) n w1)))
            (with_tracker (set_progress (i + 1) (w_tracker w2)) w2)
      end.
Proof.
  unfold scrape_links; fold scrape_links.
  unfold bind, is_set, update_tracker. unfold modify, ret. cbn [fst snd].
  destruct (match stop_at E ev with Some k => k <=? polls w | None => false end);
    [reflexivity|].
  cbv zeta. simpl w_tracker.
  destruct (get_article_urls s) as [[|u us]|e]; try reflexivity.
  destruct (add_links E (SOURCE_NAME s) (u :: us) n _) as [[c oe] w2]. reflexivity.
Qed.

(** when every reference is stored already, step 1 counts nothing and
    leaves the store as it is *)
Lemma scrape_links_known (E : env) (ev : nat) (mods : list scraper) :
  forall i n w,
    refs_known mods (w_db w) ->
    w_db (snd (scrape_links E ev mods i n w)) = w_db w /\
    (fst (scrape_links E ev mods i n w) = inl n \/
     fst (scrape_links E ev mods i n w) = inr (scraping_stats n 0)).
Proof.
  induction mods as [|s rest IH]; intros i n w Hk.
  - split; [reflexivity|now left].
  - rewrite scrape_links_cons.
    destruct (fst (is_set E ev w)); [split; [reflexivity|now right]|].
    cbv zeta.
    assert (Hrest : forall w', w_db w' = w_db w -> refs_known rest (w_db w')).
    { intros w' Hw s' urls u Hs Hu Hin. rewrite Hw.
      apply (Hk s' urls u); [now right|exact Hu|exact Hin]. }
    destruct (get_article_urls s) as [[|u us]|e] eqn:Hurls.
    + destruct (IH (i + 1) n
                  (with_tracker
                     (set_current_task ("Fetching links from " ++ SOURCE_NAME s) (w_tracker w))
                     (tick_poll w)) (Hrest _ eq_refl)) as [H1 H2].
      split; [rewrite H1; reflexivity|exact H2].
    + set (w1 := with_tracker _ (tick_poll w)).
      destruct (@add_links_known E (SOURCE_NAME s) (u :: us) n w1) as [Hn Hd].
      { intros v Hv. apply (Hk s (u :: us) v); [now left|exact Hurls|exact Hv]. }
      rewrite Hn.
      match goal with
      | |- context [scrape_links E ev rest (i + 1) n ?W] =>
          destruct (IH (i + 1) n W) as [H1 H2]
      end.
      { apply Hrest. simpl. rewrite Hd. reflexivity. }
      split; [|exact H2]. rewrite H1. simpl. rewrite Hd. reflexivity.
    + match goal with
      | |- context [scrape_links E ev rest (i + 1) n ?W] =>
          destruct (IH (i + 1) n W (Hrest _ eq_refl)) as [H1 H2]
      end.
      split; [rewrite H1; reflexivity|exact H2].
Qed.

(** with a store that does not fail and no stop request, step 1 ends with
    every reference of every adapter stored *)
Lemma scrape_links_complete (E : env) (ev : nat) (mods : list scraper) :
  (forall k, fault E k = None) ->
  stop_at E ev = None ->
  forall i n w, refs_known mods (w_db (snd (scrape_links E ev mods i n w))).
Proof.
  intros Hf Hs. induction mods as [|s rest IH]; intros i n w s' urls u Hin Hu Hv.
  - contradiction.
  - rewrite scrape_links_cons, (is_set_never E ev w Hs). cbv zeta.
    destruct Hin as [<-|Hin].
    + rewrite Hu. destruct urls as [|u0 us]; [contradiction|].
      eapply db_later_url_in_links; [apply scrape_links_later|].
      simpl. now apply add_links_complete.
    + destruct (get_article_urls s) as [[|u0 us]|e]; eapply IH; eauto.
Qed.

(** after an acquisition that was not stopped, on a store that did not
    fail, every reference of the adapters is stored *)
Lemma acquisition_stores_references (E : env) (mods : list scraper) (ev : nat) (w : world) :
  (forall k, fault E k = None) ->
  stop_at E ev = None ->
  refs_known mods (w_db (snd (run_scraping_pipeline E mods ev w))).
Proof.
  intros Hf Hs.
  rewrite run_scraping_pipeline_eq. cbv zeta.
  set (w0 := with_tracker _ (log EnterScraping w)).
  pose proof (@scrape_links_complete E ev mods Hf Hs 0 0 w0) as Hc.
  assert (Hmono : forall w', world_later (snd (scrape_links E ev mods 0 0 w0)) w' ->
                             refs_known mods (w_db w')).
  { intros w' Hl s urls u H1 H2 H3.
    eapply db_later_url_in_links; [exact Hl|]. eapply Hc; eauto. }
  destruct (fst (scrape_links E ev mods 0 0 w0)) as [n|early].
  - rewrite (is_set_never E ev _ Hs), Hf.
    destruct (get_unscraped_links _) as [|l ls] eqn:Hpending.
    + apply Hmono. apply later_now.
    + apply Hmono. cbn [snd].
      match goal with
      | |- world_later _ (snd (scrape_articles ?a ?b ?c ?d ?e ?f ?g)) =>
          exact (scrape_articles_later a b c d e f g)
      end.
  - apply Hmono. apply later_now.
Qed.

(** X19.  Acquisition run a second time with the same adapters, after a
    first run that was not stopped on a store that did not fail: no reference
    is new, whatever the adapters return and whatever the environment of the
    second run, and the [links] table is left as it was. *)
Lemma second_acquisition_no_new_reference (E : env) (mods : list scraper) (ev : nat)
  (w : world) (E2 : env) (ev2 : nat) :
  (forall k, fault E k = None) ->
  stop_at E ev = None ->
  match fst (run_scraping_pipeline E2 mods ev2 (snd (run_scraping_pipeline E mods ev w))) with
  | Ok s => st_new_links_found s = Some 0
  | Raise _ => True
  end /\
  links (w_db (snd (run_scraping_pipeline E2 mods ev2 (snd (run_scraping_pipeline E mods ev w)))))
  = links (w_db (snd (run_scraping_pipeline E mods ev w))).
Proof.
  intros Hf Hs.
  pose proof (@acquisition_stores_references E mods ev w Hf Hs) as Hk.
  set (w1 := snd (run_scraping_pipeline E mods ev w)) in *.
  rewrite run_scraping_pipeline_eq. cbv zeta.
  set (w0 := with_tracker _ (log EnterScraping w1)).
  destruct (@scrape_links_known E2 ev2 mods 0 0 w0 Hk) as [Hd Hr].
  assert (Hl : links (w_db (snd (scrape_links E2 ev2 mods 0 0 w0))) = links (w_db w1))
    by (rewrite Hd; reflexivity).
  destruct Hr as [Hr|Hr]; rewrite Hr.
  - destruct (fst (is_set E2 ev2 _)); [split; [reflexivity|exact Hl]|].
    destruct (fault E2 _); [split; [exact I|exact Hl]|].
    destruct (get_unscraped_links _) as [|l ls]; [split; [reflexivity|exact Hl]|].
    split; [reflexivity|]. cbn [snd].
    rewrite scrape_articles_same_links. exact Hl.
  - split; [reflexivity|exact Hl].
Qed.

(** ** Acquisition: content items, for adapters that echo the locator *)

Lemma dict_get_set (V : Type) (d : Dict.t V) (k k' : string) (v : V) :
  Dict.get (Dict.set d k v) k' = if String.eqb k k' then Some v else Dict.get d k'.
Proof.
  induction d as [|[k0 v0] d IH]; simpl.
  - reflexivity.
  - destruct (String.eqb k0 k) eqn:E0; simpl.
    + apply String.eqb_eq in E0. subst k0.
      destruct (String.eqb k k'); reflexivity.
    + rewrite IH. destruct (String.eqb k k') eqn:E2; [|reflexivity].
      apply String.eqb_eq in E2. subst k'. now rewrite E0.
Qed.

(** the lookup table of step 2 holds selected adapters only *)
Lemma scraper_map_In (mods : list scraper) (k : string) (s : scraper) :
  Dict.get (scraper_map mods) k = Some s -> In s mods.
Proof.
  unfold scraper_map.
  assert (H : forall acc,
             Dict.get (fold_left (fun d m => Dict.set d (SOURCE_NAME m) m) mods acc) k = Some s ->
             In s mods \/ Dict.get acc k = Some s).
  { induction mods as [|m rest IH]; intros acc Hg; simpl in *.
    - now right.
    - destruct (IH _ Hg) as [Hin|Hacc]; [left; now right|].
      rewrite dict_get_set in Hacc.
      destruct (String.eqb (SOURCE_NAME m) k); [|now right].
      inversion Hacc. left. now left. }
  intros Hg. destruct (H _ Hg) as [Hin|Hacc]; [exact Hin|discriminate].
Qed.

Lemma url_in_links_In (u : string) (d : db) :
  url_in_links u d = true <-> In u (map link_url (links d)).
Proof.
  unfold url_in_links. rewrite existsb_exists, in_map_iff. split.
  - intros (l & Hl & He). apply String.eqb_eq in He. eauto.
  - intros (l & He & Hl). exists l. split; [exact Hl|]. now apply String.eqb_eq.
Qed.

Lemma same_url_same_link (d : db) (l l' : link_row) :
  NoDup (map link_url (links d)) ->
  In l (links d) -> In l' (links d) -> link_url l = link_url l' -> l = l'.
Proof.
  induction (links d) as [|x xs IH]; simpl; [contradiction|].
  intros Hnd [->|Hl] [->|Hl'] He; inversion Hnd as [|? ? Hx Hxs]; subst.
  - reflexivity.
  - exfalso. apply Hx. rewrite He. now apply in_map.
  - exfalso. apply Hx. rewrite <- He. now apply in_map.
  - now apply IH.
Qed.

(** a link without an article has its locator free in [articles] *)
Lemma unscraped_url_free (d : db) (l : link_row) :
  links_wf d -> In l (links d) -> scraped l d = false ->
  url_in_articles (link_url l) d = false.
Proof.
  intros (Hu & _ & _ & Hart) Hl Hs.
  destruct (url_in_articles (link_url l) d) eqn:Hin; [|reflexivity].
  unfold url_in_articles in Hin. apply existsb_exists in Hin.
  destruct Hin as (a & Ha & He). apply String.eqb_eq in He.
  destruct (Hart a Ha) as (l' & Hl' & Hid & Hurl).
  assert (l' = l) by (eapply same_url_same_link; eauto; congruence). subst l'.
  unfold scraped in Hs. rewrite <- not_true_iff_false in Hs. exfalso. apply Hs.
  apply existsb_exists. exists a. split; [exact Ha|]. apply Nat.eqb_eq. congruence.
Qed.

Lemma add_link_links_wf (u source : string) (d : db) :
  links_wf d -> links_wf (snd (add_link u source d)).
Proof.
  intros (Hu & Hid & Hle & Hart). unfold add_link.
  destruct (url_in_links u d) eqn:Hin; simpl; [repeat split; assumption|].
  assert (Hfresh : ~ In (S (seq_links d)) (map link_id (links d))).
  { intros H. rewrite in_map_iff in H. destruct H as (l & He & Hl).
    rewrite Forall_forall in Hle. apply Hle in Hl. lia. }
  split; [|split; [|split]]; simpl.
  - rewrite map_app. simpl. apply NoDup_app; [assumption|repeat constructor; simpl; tauto|].
    intros x Hx [<-|[]]. apply url_in_links_In in Hx. congruence.
  - rewrite map_app. simpl. apply NoDup_app; [assumption|repeat constructor; simpl; tauto|].
    intros x Hx [<-|[]]. contradiction.
  - apply Forall_app. split.
    + eapply Forall_impl; [|exact Hle]. simpl. intros; lia.
    + repeat constructor.
  - intros a Ha. destruct (Hart a Ha) as (l & Hl & H1 & H2).
    exists l. split; [apply in_or_app; now left|]. now split.
Qed.

Lemma add_article_links_wf (l : link_row) (data : article_data) (d : db) :
  links_wf d -> In l (links d) -> ad_url data = link_url l ->
  links_wf (snd (add_article (link_id l) data d)).
Proof.
  intros (Hu & Hid & Hle & Hart) Hl He. unfold add_article.
  destruct (url_in_articles (ad_url data) d); simpl; [repeat split; assumption|].
  split; [|split; [|split]]; simpl; try assumption.
  intros a Ha. apply in_app_or in Ha. destruct Ha as [Ha|[<-|[]]].
  - now apply Hart.
  - exists l. simpl. repeat split; [exact Hl|now symmetry].
Qed.

Lemma db_step_scraped (l : link_row) (d d' : db) :
  db_step d d' -> scraped l d = true -> scraped l d' = true.
Proof.
  intros Hs H. destruct Hs; try exact H.
  - unfold add_link. destruct (url_in_links url d); exact H.
  - unfold add_article. destruct (url_in_articles (ad_url data) d); [exact H|].
    unfold scraped in *. simpl. rewrite existsb_app, H. reflexivity.
  - unfold scraped in *. simpl. apply existsb_exists in H. destruct H as (a & Ha & He).
    apply existsb_exists.
    exists (if article_id a =? id then set_analyzed a else a). split.
    + apply in_map_iff. exists a. now split.
    + destruct (article_id a =? id); exact He.
Qed.

Lemma db_later_scraped (l : link_row) (d d' : db) :
  db_later d d' -> scraped l d = true -> scraped l d' = true.
Proof.
  induction 1; auto. intros. eapply db_step_scraped; eauto.
Qed.

(** one turn of the content loop *)
Lemma scrape_articles_cons (E : env) (ev : nat) (smap : Dict.t scraper) (l : link_row)
  (rest : list link_row) (i n : nat) (w : world) :
  scrape_articles E ev smap (l :: rest) i n w =
    if fst (is_set E ev w)
    then (n, with_tracker (set_status "Stopping..." (w_tracker w)) (tick_poll w))
    else
      let skip := scrape_articles E ev smap rest (i + 1) n
                    (with_tracker (set_progress (i + 1) (w_tracker w)) (tick_poll w)) in
      match Dict.get smap (source_website l) with
      | Some s =>
          match scrape_article_content s (link_url l) with
          | Ok (Some data) =>
              match fault E (db_calls w) with
              | Some msg =>
                  scrape_articles E ev smap rest (i + 1) n
                    (with_tracker (set_progress (i + 1) (w_tracker w))
                       (tick_db (tick_poll w)))
              | None =>
                  scrape_articles E ev smap rest (i + 1) (n + 1)
                    (with_tracker
                       (set_progress (i + 1)
                          (set_current_task ("Scraped: " ++ ad_title data) (w_tracker w)))
                       (with_db (snd (add_article (link_id l) data (w_db w)))
                          (tick_db (tick_poll w))))
              end
          | Ok None => skip
          | Raise _ => skip
          end
      | None => skip
      end.
Proof.
  unfold scrape_articles; fold scrape_articles.
  unfold bind, is_set, update_tracker, db_call. unfold modify, ret. cbn [fst snd].
  destruct (match stop_at E ev with Some k => k <=? polls w | None => false end);
    [reflexivity|].
  cbv zeta.
  destruct (Dict.get smap (source_website l)) as [s|]; [|reflexivity].
  destruct (scrape_article_content s (link_url l)) as [[data|]|e]; try reflexivity.
  cbn [db_calls tick_poll].
  destruct (fault E (db_calls w)); [reflexivity|].
  cbn [w_db tick_poll].
  destruct (add_article (link_id l) data (w_db w)) as [id d]. reflexivity.
Qed.

Lemma scraped_after_add_article (l l' : link_row) (data : article_data) (d : db) :
  url_in_articles (ad_url data) d = false ->
  scraped l' (snd (add_article (link_id l) data d)) =
    scraped l' d || (link_id l =? link_id l').
Proof.
  intros H. unfold add_article. rewrite H. unfold scraped. simpl.
  rewrite existsb_app. simpl. now rewrite orb_false_r.
Qed.

(** Step 2 on a store that does not fail, with no stop request and
    adapters that echo the locator: every link it was given has an article
    when it ends, unless no content is available for it. *)
Lemma scrape_articles_settles (E : env) (ev : nat) (smap : Dict.t scraper) :
  (forall k, fault E k = None) ->
  stop_at E ev = None ->
  (forall k s, Dict.get smap k = Some s -> echoes s) ->
  forall pending i n w,
    links_wf (w_db w) ->
    NoDup (map link_id pending) ->
    (forall l, In l pending -> In l (links (w_db w)) /\ scraped l (w_db w) = false) ->
    forall l, In l pending ->
      scraped l (w_db (snd (scrape_articles E ev smap pending i n w))) = true \/
      unavailable smap l.
Proof.
  intros Hf Hs Hecho. induction pending as [|l0 rest IH]; intros i n w Hwf Hnd Hin l Hl.
  - contradiction.
  - rewrite scrape_articles_cons, (is_set_never E ev w Hs), Hf. cbv zeta.
    inversion Hnd as [|? ? Hfresh Hnd']; subst.
    assert (Hskip : forall w', w_db w' = w_db w ->
              scraped l (w_db (snd (scrape_articles E ev smap rest (i + 1) n w'))) = true \/
              unavailable smap l \/ (l = l0)).
    { intros w' Hw. destruct Hl as [<-|Hl]; [now right; right|].
      assert (Hwf' : links_wf (w_db w')) by now rewrite Hw.
      assert (Hin' : forall l', In l' rest ->
                       In l' (links (w_db w')) /\ scraped l' (w_db w') = false)
        by (intros l' Hl'; rewrite Hw; apply Hin; now right).
      destruct (IH (i + 1) n w' Hwf' Hnd' Hin' l Hl) as [H|H]; auto. }
    destruct (Dict.get smap (source_website l0)) as [s|] eqn:Hget.
    + destruct (scrape_article_content s (link_url l0)) as [[data|]|e] eqn:Hc.
      * destruct (Hin l0 (or_introl eq_refl)) as [Hl0 Hs0].
        assert (Hurl : ad_url data = link_url l0) by (eapply Hecho; eauto).
        assert (Hfree : url_in_articles (ad_url data) (w_db w) = false).
        { rewrite Hurl. now apply unscraped_url_free. }
        set (w1 := with_tracker _ (with_db _ (tick_db (tick_poll w)))).
        assert (Hdb1 : w_db w1 = snd (add_article (link_id l0) data (w_db w)))
          by reflexivity.
        destruct Hl as [<-|Hl].
        -- left. eapply db_later_scraped; [apply scrape_articles_later|].
           rewrite Hdb1, scraped_after_add_article by exact Hfree.
           rewrite Nat.eqb_refl. apply orb_true_r.
        -- apply IH; auto.
           ++ rewrite Hdb1. now apply add_article_links_wf.
           ++ intros l' Hl'. rewrite Hdb1. destruct (Hin l' (or_intror Hl')) as [H1 H2].
              split.
              ** unfold add_article. rewrite Hfree. exact H1.
              ** rewrite scraped_after_add_article by exact Hfree. rewrite H2. simpl.
                 apply Nat.eqb_neq. intros Heq. apply Hfresh. rewrite Heq.
                 now apply in_map.
      * destruct (Hskip (with_tracker (set_progress (i + 1) (w_tracker w)) (tick_poll w))
                    eq_refl) as [H|[H| ->]]; auto.
        right. unfold unavailable. now rewrite Hget, Hc.
      * destruct (Hskip (with_tracker (set_progress (i + 1) (w_tracker w)) (tick_poll w))
                    eq_refl) as [H|[H| ->]]; auto.
        right. unfold unavailable. now rewrite Hget, Hc.
    + destruct (Hskip (with_tracker (set_progress (i + 1) (w_tracker w)) (tick_poll w))
                  eq_refl) as [H|[H| ->]]; auto.
      right. unfold unavailable. now rewrite Hget.
Qed.

(** Step 2 on links for which no content is available counts nothing and
    changes nothing, whatever the environment. *)
Lemma scrape_articles_unavailable (E : env) (ev : nat) (smap : Dict.t scraper) :
  forall pending i n w,
    (forall l, In l pending -> unavailable smap l) ->
    fst (scrape_articles E ev smap pending i n w) = n /\
    w_db (snd (scrape_articles E ev smap pending i n w)) = w_db w.
Proof.
  induction pending as [|l0 rest IH]; intros i n w Hun.
  - split; reflexivity.
  - rewrite scrape_articles_cons.
    destruct (fst (is_set E ev w)); [split; reflexivity|]. cbv zeta.
    pose proof (Hun l0 (or_introl eq_refl)) as H0. unfold unavailable in H0.
    assert (Hrest : forall l, In l rest -> unavailable smap l)
      by (intros l Hl; apply Hun; now right).
    destruct (IH (i + 1) n
                (with_tracker (set_progress (i + 1) (w_tracker w)) (tick_poll w)) Hrest)
      as [H1 H2].
    destruct (Dict.get smap (source_website l0)) as [s|]; [|now split].
    destruct (scrape_article_content s (link_url l0)) as [[data|]|e];
      [contradiction|now split|now split].
Qed.

Lemma scrape_links_keeps_links_wf (E : env) (ev : nat) (mods : list scraper)
  (i n : nat) (w : world) :
  keeps_links_wf w (snd (scrape_links E ev mods i n w)).
Proof.
  apply (@respects_scrape_links E keeps_links_wf).
  - intros w0 H. exact H.
  - intros a b c H1 H2 H. apply H2, H1, H.
  - intros t w0 H. exact H.
  - intros w0 H. exact H.
  - intros w0 H. exact H.
  - intros url source w0 H. simpl. now apply add_link_links_wf.
Qed.

(** without a stop request step 1 runs to its end *)
Lemma scrape_links_to_the_end (E : env) (ev : nat) (mods : list scraper) :
  stop_at E ev = None ->
  forall i n w, exists k, fst (scrape_links E ev mods i n w) = inl k.
Proof.
  intros Hs. induction mods as [|s rest IH]; intros i n w.
  - exists n. reflexivity.
  - rewrite scrape_links_cons, (is_set_never E ev w Hs). cbv zeta.
    destruct (get_article_urls s) as [[|u us]|e]; apply IH.
Qed.

Lemma unscraped_ids_distinct (rows : list link_row) (p : link_row -> bool) :
  NoDup (map link_id rows) -> NoDup (map link_id (filter p rows)).
Proof.
  intros Hnd. induction rows as [|row rows IH]; simpl; [constructor|].
  inversion Hnd as [|? ? Hfresh Hrest]; subst.
  destruct (p row); simpl; [|now apply IH].
  constructor; [|now apply IH].
  intros Hin. apply Hfresh.
  rewrite in_map_iff in *. destruct Hin as (other & Hid & Hin).
  apply filter_In in Hin. exists other. tauto.
Qed.

Lemma get_unscraped_links_spec (d : db) (l : link_row) :
  In l (get_unscraped_links d) <-> In l (links d) /\ scraped l d = false.
Proof.
  unfold get_unscraped_links, scraped. rewrite filter_In.
  split; intros [H1 H2]; (split; [exact H1|]).
  - now apply negb_true_iff in H2.
  - now apply negb_true_iff.
Qed.

(** and every link left without an article is one for which no content is
    available, when the adapters echo the locator *)
Lemma acquisition_settles_links (E : env) (mods : list scraper) (ev : nat) (w : world) :
  links_wf (w_db w) ->
  (forall s, In s mods -> echoes s) ->
  (forall k, fault E k = None) ->
  stop_at E ev = None ->
  forall l,
    In l (get_unscraped_links (w_db (snd (run_scraping_pipeline E mods ev w)))) ->
    unavailable (scraper_map mods) l.
Proof.
  intros Hwf Hecho Hf Hs l.
  rewrite run_scraping_pipeline_eq. cbv zeta.
  set (w0 := with_tracker _ (log EnterScraping w)).
  pose proof (scrape_links_keeps_links_wf E ev mods 0 0 w0 Hwf) as Hwfl.
  destruct (@scrape_links_to_the_end E ev mods Hs 0 0 w0) as [n Hn]. rewrite Hn.
  set (wl := snd (scrape_links E ev mods 0 0 w0)) in *.
  rewrite (is_set_never E ev wl Hs), Hf.
  destruct (get_unscraped_links (w_db wl)) as [|l0 ls] eqn:Hpending.
  - cbn [snd w_db with_tracker tick_db tick_poll]. simpl. rewrite Hpending. intros [].
  - cbn [snd]. set (w2 := with_tracker _ (tick_db (tick_poll wl))).
    intros Hl. apply get_unscraped_links_spec in Hl. destruct Hl as [Hl Hnot].
    pose proof (scrape_articles_same_links E ev (scraper_map mods) (l0 :: ls) 0 0 w2) as Hsame.
    unfold same_links in Hsame. rewrite Hsame in Hl.
    assert (Hwas : scraped l (w_db wl) = false).
    { destruct (scraped l (w_db wl)) eqn:Hw; [|reflexivity].
      rewrite (@db_later_scraped l (w_db w2) _
                 (scrape_articles_later E ev (scraper_map mods) (l0 :: ls) 0 0 w2) Hw)
        in Hnot. discriminate. }
    assert (Hpend : In l (l0 :: ls)).
    { rewrite <- Hpending. apply get_unscraped_links_spec. now split. }
    destruct (@scrape_articles_settles E ev (scraper_map mods) Hf Hs) with
      (pending := l0 :: ls) (i := 0) (n := 0) (w := w2) (l := l) as [H|H].
    + intros k s Hg. apply Hecho. eapply scraper_map_In; eauto.
    + exact Hwfl.
    + rewrite <- Hpending. apply unscraped_ids_distinct. apply Hwfl.
    + intros l' Hl'. rewrite <- Hpending in Hl'.
      now apply get_unscraped_links_spec in Hl'.
    + exact Hpend.
    + rewrite H in Hnot. discriminate.
    + exact H.
Qed.

(** X20.  Idempotence of acquisition for adapters that return the locator
    they were given as the article's [url]: after a first run that was not
    stopped, on a store that did not fail, a second run with the same
    adapters reports no new reference and no new content item and leaves the
    store as it is, whatever its own environment. *)
Lemma second_acquisition_finds_nothing (E : env) (mods : list scraper) (ev : nat)
  (w : world) (E2 : env) (ev2 : nat) :
  links_wf (w_db w) ->
  (forall s, In s mods -> echoes s) ->
  (forall k, fault E k = None) ->
  stop_at E ev = None ->
  match fst (run_scraping_pipeline E2 mods ev2 (snd (run_scraping_pipeline E mods ev w))) with
  | Ok s => s = scraping_stats 0 0
  | Raise _ => True
  end /\
  w_db (snd (run_scraping_pipeline E2 mods ev2 (snd (run_scraping_pipeline E mods ev w)))) =
  w_db (snd (run_scraping_pipeline E mods ev w)).
Proof.
  intros Hwf Hecho Hf Hs.
  pose proof (@acquisition_stores_references E mods ev w Hf Hs) as Hk.
  pose proof (@acquisition_settles_links E mods ev w Hwf Hecho Hf Hs) as Hu.
  set (w1 := snd (run_scraping_pipeline E mods ev w)) in *.
  rewrite run_scraping_pipeline_eq. cbv zeta.
  set (w0 := with_tracker _ (log EnterScraping w1)).
  destruct (@scrape_links_known E2 ev2 mods 0 0 w0 Hk) as [Hd Hr].
  change (w_db w0) with (w_db w1) in Hd.
  set (wl := snd (scrape_links E2 ev2 mods 0 0 w0)) in *.
  destruct Hr as [Hr|Hr]; rewrite Hr; [|split; [reflexivity|exact Hd]].
  destruct (fst (is_set E2 ev2 wl)); [split; [reflexivity|exact Hd]|].
  destruct (fault E2 (db_calls wl)); [split; [exact I|exact Hd]|].
  rewrite Hd.
  destruct (get_unscraped_links (w_db w1)) as [|l0 ls] eqn:Hpending.
  - split; [reflexivity|exact Hd].
  - cbn [fst snd].
    destruct (@scrape_articles_unavailable E2 ev2 (scraper_map mods) (l0 :: ls) 0 0
                (with_tracker
                   (set_phase "Scraping articles" (List.length (l0 :: ls)) (w_tracker wl))
                   (tick_db (tick_poll wl)))) as [H1 H2].
    { intros l Hl. apply Hu. exact Hl. }
    rewrite H1, H2. split; [reflexivity|exact Hd].
Qed.

Lemma create_database_links_wf : links_wf create_database.
Proof.
  repeat split; try constructor. intros a [].
Qed.

Lemma alpha_echoes : echoes alpha.
Proof.
  intros u data H. simpl in H. inversion H. reflexivity.
Qed.

(** the idempotence lemma at a concrete source: [alpha] echoes the locator,
    and a second acquisition reports nothing new *)
Example alpha_twice :
  match fst (run_scraping_pipeline alpha_env [alpha] 1
               (snd (run_scraping_pipeline alpha_env [alpha] 0 initial_world))) with
  | Ok s => s = scraping_stats 0 0
  | Raise _ => True
  end /\
  w_db (snd (run_scraping_pipeline alpha_env [alpha] 1
               (snd (run_scraping_pipeline alpha_env [alpha] 0 initial_world)))) =
  w_db (snd (run_scraping_pipeline alpha_env [alpha] 0 initial_world)).
Proof.
  apply second_acquisition_finds_nothing.
  - exact create_database_links_wf.
  - intros s [<-|[]]. exact alpha_echoes.
  - intros k. reflexivity.
  - reflexivity.
Defined.

(** * Further properties *)

(** ** The registry the scan builds *)

Lemma dict_mem_In (V : Type) (d : Dict.t V) (k : string) :
  Dict.mem d k = true <-> In k (Dict.keys d).
Proof.
  unfold Dict.mem, Dict.keys. induction d as [|[k' v] d IH]; simpl.
  - split; [discriminate|contradiction].
  - destruct (String.eqb k' k) eqn:Hk.
    + apply String.eqb_eq in Hk. split; auto.
    + apply String.eqb_neq in Hk. rewrite IH. split; [auto|].
      intros [H|H]; [contradiction|assumption].
Qed.

Lemma dict_keys_set (V : Type) (d : Dict.t V) (k : string) (v : V) :
  Dict.keys (Dict.set d k v) = if Dict.mem d k then Dict.keys d else Dict.keys d ++ [k].
Proof.
  unfold Dict.mem, Dict.keys. induction d as [|[k' v'] d IH]; simpl; [reflexivity|].
  destruct (String.eqb k' k) eqn:Hk; simpl; [reflexivity|].
  rewrite IH. destruct (Dict.get d k); reflexivity.
Qed.

Lemma dict_get_In (V : Type) (d : Dict.t V) (k : string) (v : V) :
  Dict.get d k = Some v -> In (k, v) d.
Proof.
  induction d as [|[k' v'] d IH]; simpl; [discriminate|].
  destruct (String.eqb k' k) eqn:Hk.
  - apply String.eqb_eq in Hk. intros [= ->]. subst. now left.
  - intros H. right. now apply IH.
Qed.

Lemma dict_set_wf (reg : Dict.t scraper) (s : scraper) :
  registry_wf reg -> registry_wf (Dict.set reg (SOURCE_NAME s) s).
Proof.
  intros [Hnd Hname]. split.
  - rewrite dict_keys_set. destruct (Dict.mem reg (SOURCE_NAME s)) eqn:Hm; [exact Hnd|].
    apply NoDup_app; [exact Hnd|repeat constructor; simpl; tauto|].
    intros k Hk [<-|[]]. apply dict_mem_In in Hk. congruence.
  - clear Hnd. induction reg as [|[k v] reg IH]; simpl.
    + repeat constructor.
    + inversion Hname as [|? ? Hkv Hrest]; subst. simpl in Hkv.
      destruct (String.eqb k (SOURCE_NAME s)) eqn:Hk.
      * apply String.eqb_eq in Hk. constructor; [simpl; congruence|exact Hrest].
      * constructor; [exact Hkv|now apply IH].
Qed.

Lemma registry_wf_get (reg : Dict.t scraper) (k : string) (s : scraper) :
  registry_wf reg -> Dict.get reg k = Some s -> SOURCE_NAME s = k.
Proof.
  intros [_ Hname] Hget. apply dict_get_In in Hget.
  rewrite Forall_forall in Hname. exact (Hname _ Hget).
Qed.

Lemma dict_mem_set (V : Type) (d : Dict.t V) (k k' : string) (v : V) :
  Dict.mem (Dict.set d k v) k' = String.eqb k k' || Dict.mem d k'.
Proof.
  unfold Dict.mem. rewrite dict_get_set. destruct (String.eqb k k'); reflexivity.
Qed.

(** What a scan that returns has built: a registry with one entry per
    name, every adapter under its own name; every adapter in it was there
    before or comes from a file of the directory that was imported and passed
    validation; and every such file has its name in the registry. *)
Lemma scan_registry (entries : list dir_entry) :
  forall acc reg,
    scan entries acc = Ok reg ->
    registry_wf acc ->
    registry_wf reg /\
    (forall k s, Dict.get reg k = Some s ->
       Dict.get acc k = Some s \/ exists entry, In entry entries /\ registers entry s) /\
    (forall entry s, In entry entries -> registers entry s ->
       Dict.mem reg (SOURCE_NAME s) = true) /\
    (forall k, Dict.mem acc k = true -> Dict.mem reg k = true).
Proof.
  induction entries as [|entry rest IH]; intros acc reg Hscan Hwf.
  - simpl in Hscan. inversion Hscan; subst.
    split; [exact Hwf|]. split; [intros; now left|].
    split; [intros entry s []|auto].
  - simpl in Hscan. fold (candidate entry) in Hscan.
    assert (Hskip : scan rest acc = Ok reg ->
              (forall s, ~ registers entry s) ->
              registry_wf reg /\
              (forall k s, Dict.get reg k = Some s ->
                 Dict.get acc k = Some s \/
                 exists entry0, In entry0 (entry :: rest) /\ registers entry0 s) /\
              (forall entry0 s, In entry0 (entry :: rest) -> registers entry0 s ->
                 Dict.mem reg (SOURCE_NAME s) = true) /\
              (forall k, Dict.mem acc k = true -> Dict.mem reg k = true)).
    { intros Hs Hno. destruct (IH _ _ Hs Hwf) as (H1 & H2 & H3 & H4).
      split; [exact H1|]. split; [|split; [|exact H4]].
      - intros k s Hget. destruct (H2 _ _ Hget) as [H|(e0 & Hin & Hr)]; [now left|].
        right. exists e0. split; [now right|exact Hr].
      - intros e0 s [<-|Hin] Hr; [exfalso; exact (Hno _ Hr)|]. eapply H3; eauto. }
    destruct (candidate entry) eqn:Hc.
    + destruct (import_module entry) as [module|e] eqn:Himp.
      * destruct (validate module) as [s|] eqn:Hval.
        -- destruct (IH _ _ Hscan (@dict_set_wf _ s Hwf)) as (H1 & H2 & H3 & H4).
           assert (Hreg : registers entry s).
           { split; [exact Hc|]. exists module. split; assumption. }
           split; [exact H1|]. split; [|split].
           ++ intros k s' Hget. destruct (H2 _ _ Hget) as [H|(e0 & Hin & Hr)].
              ** rewrite dict_get_set in H.
                 destruct (String.eqb (SOURCE_NAME s) k); [|now left].
                 inversion H; subst. right. exists entry. split; [now left|exact Hreg].
              ** right. exists e0. split; [now right|exact Hr].
           ++ intros e0 s' [<-|Hin] Hr.
              ** destruct Hr as (_ & m' & Hm' & Hv'). rewrite Himp in Hm'.
                 inversion Hm'; subst. rewrite Hval in Hv'. inversion Hv'; subst.
                 apply H4. rewrite dict_mem_set, String.eqb_refl. reflexivity.
              ** eapply H3; eauto.
           ++ intros k Hk. apply H4. rewrite dict_mem_set, Hk. apply orb_true_r.
        -- apply Hskip; [exact Hscan|].
           intros s (_ & m' & Hm' & Hv'). rewrite Himp in Hm'. inversion Hm'; subst.
           congruence.
      * assert (Hno : forall s, ~ registers entry s).
        { intros s (_ & m' & Hm' & _). rewrite Himp in Hm'. discriminate. }
        destruct e; try discriminate. now apply Hskip.
    + apply Hskip; [exact Hscan|].
      intros s (Hc' & _). congruence.
Qed.

(** a scan raises exactly the exception of the first import that raises
    something else than [ImportError] *)
Lemma scan_raise (entries : list dir_entry) :
  forall acc e, scan entries acc = Raise e -> import_aborts entries e.
Proof.
  induction entries as [|entry rest IH]; intros acc e Hscan; simpl in Hscan; [discriminate|].
  fold (candidate entry) in Hscan.
  assert (Hrest : forall acc',
            scan rest acc' = Raise e ->
            (candidate entry = true ->
             forall e', import_module entry = Raise e' -> exists msg, e' = ImportError msg) ->
            import_aborts (entry :: rest) e).
  { intros acc' H Hentry.
    destruct (IH _ _ H) as (Hne & before & e0 & after & -> & Hc & Hi & Hb).
    split; [exact Hne|]. exists (entry :: before), e0, after.
    split; [reflexivity|]. split; [exact Hc|]. split; [exact Hi|].
    intros entry' e' [<-|Hin] Hc' Hi'; [now apply Hentry|now apply (Hb entry')]. }
  destruct (candidate entry) eqn:Hc; [|apply (Hrest acc Hscan); discriminate].
  destruct (import_module entry) as [module|e'] eqn:Himp.
  - destruct (validate module); (eapply Hrest; [exact Hscan|]); discriminate.
  - destruct e' as [m|m|m|m];
      try (inversion Hscan; subst;
           (split; [intros msg0; discriminate|]);
           exists [], entry, rest;
           (split; [reflexivity|]); (split; [exact Hc|]); (split; [exact Himp|]);
           intros entry' e' []).
    apply (Hrest acc Hscan). intros _ e' H. inversion H. now exists m.
Qed.

(** and it does raise it *)
Lemma scan_aborted (entries : list dir_entry) (e : exn) :
  import_aborts entries e -> forall acc, scan entries acc = Raise e.
Proof.
  intros (Hne & before & entry & after & -> & Hc & Hi & Hb).
  induction before as [|entry' before IH]; intros acc; simpl.
  - fold (candidate entry). rewrite Hc, Hi.
    destruct e; try reflexivity. exfalso. now apply (Hne msg).
  - fold (candidate entry').
    assert (IH' : forall acc', scan (before ++ entry :: after) acc' = Raise e).
    { apply IH. intros e1 e2 Hin. apply Hb. now right. }
    destruct (candidate entry') eqn:Hc'; [|apply IH'].
    destruct (import_module entry') as [module|e'] eqn:Hi'.
    + destruct (validate module); apply IH'.
    + destruct (Hb entry' e' (or_introl eq_refl) Hc' Hi') as [msg ->]. apply IH'.
Qed.

Lemma truthy_false_nil (V : Type) (d : Dict.t V) : Dict.truthy d = false -> d = [].
Proof. destruct d; [reflexivity|discriminate]. Qed.

Lemma registry_wf_empty : registry_wf (Dict.empty scraper).
Proof. split; constructor. Qed.

(** discovery keeps the cache a registry, and returns the cache it leaves *)
Lemma discover_scrapers_wf (E : env) (w w1 : world) (reg : Dict.t scraper) :
  registry_wf (w_scraper_cache w) ->
  discover_scrapers E w = (Ok reg, w1) ->
  registry_wf reg /\ w_scraper_cache w1 = reg.
Proof.
  intros Hwf. unfold discover_scrapers.
  destruct (Dict.truthy (w_scraper_cache w)) eqn:Ht.
  - intros H. inversion H; subst. split; [exact Hwf|reflexivity].
  - destruct (listdir E (scans w)) as [entries|e0]; [|discriminate].
    destruct (scan _ _) as [d|e] eqn:Hscan; intros H; inversion H; subst.
    split; [|reflexivity].
    exact (proj1 (@scan_registry _ _ _ Hscan registry_wf_empty)).
Qed.

Lemma registers_fun (entry : dir_entry) (s s' : scraper) :
  registers entry s -> registers entry s' -> s = s'.
Proof.
  intros (_ & m & Hm & Hv) (_ & m' & Hm' & Hv'). congruence.
Qed.

(** two ways of cutting a list at an element cut it at the same place, or
    the element of one is after the element of the other *)
Lemma cut_twice {A} (l1 l1' l2 l2' : list A) (a a' : A) :
  l1 ++ a :: l2 = l1' ++ a' :: l2' ->
  (l1 = l1' /\ a = a' /\ l2 = l2') \/ In a' l2 \/ In a l2'.
Proof.
  revert l1'. induction l1 as [|x l1 IH]; intros [|x' l1'] H; simpl in H.
  - inversion H. left. auto.
  - inversion H; subst. right. left. apply in_or_app. right. now left.
  - inversion H; subst. right. right. apply in_or_app. right. now left.
  - inversion H; subst.
    destruct (IH _ H2) as [(-> & -> & ->)|[Hin|Hin]]; auto.
Qed.

Lemma last_registers_fun (entries : list dir_entry) (k : string) (s s' : scraper) :
  last_registers entries k s -> last_registers entries k s' -> s = s'.
Proof.
  intros (b & e & a & -> & Hr & Hk & Hlast) (b' & e' & a' & Heq & Hr' & Hk' & Hlast').
  destruct (cut_twice _ _ _ _ _ _ Heq) as [(_ & <- & _)|[Hin|Hin]].
  - eapply registers_fun; eauto.
  - exfalso. exact (Hlast _ _ Hin Hr' Hk').
  - exfalso. exact (Hlast' _ _ Hin Hr Hk).
Qed.

(** the adapter a scan leaves under a name is the one the accumulator had,
    when no file registers the name, and otherwise the one of the last file
    that registers it *)
Lemma scan_last (entries : list dir_entry) :
  forall acc reg,
    scan entries acc = Ok reg ->
    forall k s,
      Dict.get reg k = Some s ->
      (Dict.get acc k = Some s /\
       forall entry' s', In entry' entries -> registers entry' s' -> SOURCE_NAME s' <> k) \/
      last_registers entries k s.
Proof.
  induction entries as [|entry rest IH]; intros acc reg Hscan k s Hget.
  - simpl in Hscan. inversion Hscan; subst. left. split; [exact Hget|]. intros e' s' [].
  - simpl in Hscan. fold (candidate entry) in Hscan.
    assert (Hshift : last_registers rest k s -> last_registers (entry :: rest) k s).
    { intros (b & e & a & -> & H). exists (entry :: b), e, a. split; [reflexivity|exact H]. }
    assert (Hskip : scan rest acc = Ok reg ->
              (forall s0, ~ registers entry s0) ->
              (Dict.get acc k = Some s /\
               forall entry' s', In entry' (entry :: rest) -> registers entry' s' ->
                                 SOURCE_NAME s' <> k) \/
              last_registers (entry :: rest) k s).
    { intros Hs Hno. destruct (IH _ _ Hs _ _ Hget) as [[Ha Hn]|Hl]; [left|right; auto].
      split; [exact Ha|]. intros e' s' [<-|Hin] Hr; [exfalso; exact (Hno _ Hr)|].
      now apply (Hn e'). }
    destruct (candidate entry) eqn:Hc.
    + destruct (import_module entry) as [module|e] eqn:Himp.
      * destruct (validate module) as [s0|] eqn:Hval.
        -- assert (Hreg : registers entry s0).
           { split; [exact Hc|]. exists module. split; assumption. }
           destruct (IH _ _ Hscan _ _ Hget) as [[Ha Hn]|Hl]; [|right; auto].
           rewrite dict_get_set in Ha.
           destruct (String.eqb (SOURCE_NAME s0) k) eqn:Hk.
           ++ apply String.eqb_eq in Hk. inversion Ha; subst s0.
              right. exists [], entry, rest. split; [reflexivity|].
              split; [exact Hreg|]. split; [exact Hk|exact Hn].
           ++ apply String.eqb_neq in Hk. left. split; [exact Ha|].
              intros e' s' [<-|Hin] Hr; [|now apply (Hn e')].
              now rewrite <- (registers_fun Hreg Hr).
        -- apply Hskip; [exact Hscan|].
           intros s0 (_ & m' & Hm' & Hv'). rewrite Himp in Hm'. inversion Hm'; subst.
           congruence.
      * assert (Hno : forall s0, ~ registers entry s0).
        { intros s0 (_ & m' & Hm' & _). rewrite Himp in Hm'. discriminate. }
        destruct e; try discriminate. now apply Hskip.
    + apply Hskip; [exact Hscan|]. intros s0 (Hc' & _). congruence.
Qed.

(** X1.  Discovery on an empty cache registers exactly the valid scrapers
    of the directory.  The listing returned; the mapping discovery returns
    (and caches) has every adapter under its own [SOURCE_NAME] and no name
    twice; it holds the adapter [s] under the name [k] exactly when the last
    file of the listing that registers an adapter under [k] registers [s] (a
    file registers an adapter when it is named [*_scraper.py], does not start
    with [__], and its import returns a module that passes validation), so
    that of two files declaring one name the later is kept; and every file
    that registers an adapter has its name in the mapping. *)
Theorem discovery_registers_valid_scrapers (E : env) (w w1 : world) (reg : Dict.t scraper) :
  w_scraper_cache w = [] ->
  discover_scrapers E w = (Ok reg, w1) ->
  exists entries,
    listdir E (scans w) = Ok entries /\
    registry_wf reg /\
    w_scraper_cache w1 = reg /\
    (forall k s, Dict.get reg k = Some s <-> last_registers entries k s) /\
    (forall entry s, In entry entries -> registers entry s ->
       Dict.mem reg (SOURCE_NAME s) = true).
Proof.
  intros Hc. unfold discover_scrapers. rewrite Hc. simpl.
  destruct (listdir E (scans w)) as [entries|e0]; [|discriminate].
  destruct (scan _ _) as [d|e] eqn:Hscan; intros H; inversion H; subst.
  destruct (@scan_registry _ _ _ Hscan registry_wf_empty) as (H1 & _ & H3 & _).
  assert (Hlast : forall k s, Dict.get reg k = Some s -> last_registers entries k s).
  { intros k s Hget.
    destruct (@scan_last _ _ _ Hscan _ _ Hget) as [[Habs _]|Hl]; [discriminate|exact Hl]. }
  exists entries. split; [reflexivity|]. split; [exact H1|]. split; [reflexivity|].
  split; [|exact H3].
  intros k s. split; [apply Hlast|].
  intros Hl. pose proof Hl as (b & entry & a & -> & Hr & Hk & _).
  assert (Hm : Dict.mem reg (SOURCE_NAME s) = true).
  { apply (H3 entry); [apply in_or_app; right; now left|exact Hr]. }
  unfold Dict.mem in Hm. rewrite Hk in Hm.
  destruct (Dict.get reg k) as [s'|] eqn:Hget; [|discriminate].
  f_equal. eapply last_registers_fun; [apply Hlast; exact Hget|exact Hl].
Qed.

(** of [alpha_scraper.py] and [alpha_v2_scraper.py], which declare the same
    name, the second is the one registered *)
Lemma discovery_registers_valid_scrapers_witness :
  exists entries,
    listdir twin_env (scans initial_world) = Ok entries /\
    registry_wf [("alpha.com", alpha_v2)] /\
    w_scraper_cache (snd (discover_scrapers twin_env initial_world)) =
      [("alpha.com", alpha_v2)] /\
    (forall k s,
       Dict.get [("alpha.com", alpha_v2)] k = Some s <-> last_registers entries k s) /\
    (forall entry s, In entry entries -> registers entry s ->
       Dict.mem [("alpha.com", alpha_v2)] (SOURCE_NAME s) = true).
Proof.
  exact (@discovery_registers_valid_scrapers twin_env initial_world
           (snd (discover_scrapers twin_env initial_world)) [("alpha.com", alpha_v2)]
           eq_refl eq_refl).
Defined.

(** X2.  Discovery raises [e] exactly when the cache is empty and either
    listing the directory raises [e], or the listing returns and the scan is
    left by [e]: the import of a [*_scraper.py] file raises it, it is not an
    [ImportError], and the imports tried before raised nothing but
    [ImportError] (those are caught and the file is skipped).  Nothing is
    cached then, and every caller sees the failure: resolution raises [e],
    the listing of names answers 500, a trigger that passes the admission test
    answers 500 and starts no thread, and a scheduled run that finds no run
    active returns without touching the tracker, the store or the trace. *)
Theorem discovery_fails_on_listing_or_import (E : env) (w : world) (e : exn) :
  (fst (discover_scrapers E w) = Raise e <->
   w_scraper_cache w = [] /\
   (listdir E (scans w) = Raise e \/
    exists entries, listdir E (scans w) = Ok entries /\ import_aborts entries e)) /\
  (fst (discover_scrapers E w) = Raise e ->
   discover_scrapers E w = (Raise e, tick_scan w) /\
   w_scraper_cache (tick_scan w) = [] /\
   (forall names, get_scraper_modules E names w = (Raise e, tick_scan w)) /\
   list_scrapers E w =
     (inr {| code := 500; message := "Could not retrieve scraper list." |}, tick_scan w) /\
   (is_running (w_tracker w) = false ->
    (forall req,
       trigger_pipeline E req w =
         (({| code := 500; message := "Failed to load scraper modules." |}, None),
          tick_scan w)) /\
    scheduled_pipeline_run E w = (tt, tick_scan (tick_event w)))).
Proof.
  assert (Hiff : fst (discover_scrapers E w) = Raise e <->
                 w_scraper_cache w = [] /\
                 (listdir E (scans w) = Raise e \/
                  exists entries, listdir E (scans w) = Ok entries /\
                                  import_aborts entries e)).
  { unfold discover_scrapers.
    destruct (Dict.truthy (w_scraper_cache w)) eqn:Ht.
    - split; [discriminate|]. intros [Hc _]. rewrite Hc in Ht. discriminate.
    - apply truthy_false_nil in Ht.
      destruct (listdir E (scans w)) as [entries|e0].
      + destruct (scan entries (Dict.empty scraper)) as [d|e'] eqn:Hscan; simpl.
        * split; [discriminate|].
          intros [_ [H|(entries' & H & Ha)]]; [discriminate|].
          inversion H; subst. rewrite (scan_aborted Ha) in Hscan. discriminate.
        * split.
          -- intros H. inversion H; subst. split; [exact Ht|]. right.
             exists entries. split; [reflexivity|]. eapply scan_raise; eauto.
          -- intros [_ [H|(entries' & H & Ha)]]; [discriminate|].
             inversion H; subst. rewrite (scan_aborted Ha) in Hscan. congruence.
      + simpl. split.
        * intros H. inversion H; subst. split; [exact Ht|]. now left.
        * intros [_ [H|(entries' & H & _)]]; [now inversion H|discriminate]. }
  split; [exact Hiff|].
  intros H. pose proof (proj1 Hiff H) as [Hc _].
  assert (Hd : discover_scrapers E w = (Raise e, tick_scan w)).
  { revert H. unfold discover_scrapers. rewrite Hc. simpl.
    destruct (listdir E (scans w)) as [entries|e0]; simpl.
    - destruct (scan entries (Dict.empty scraper)); simpl; [discriminate|].
      now intros ->.
    - now intros ->. }
  assert (Hg : forall names, get_scraper_modules E names w = (Raise e, tick_scan w)).
  { intros names. unfold get_scraper_modules, bindM, bind. rewrite Hd. reflexivity. }
  split; [exact Hd|]. split; [exact Hc|]. split; [exact Hg|]. split.
  - unfold list_scrapers, get_all_scraper_names, bindM, bind. rewrite Hd. reflexivity.
  - intros Hidle. split.
    + intros req. unfold trigger_pipeline. rewrite Hidle.
      unfold bind. rewrite Hg. reflexivity.
    + unfold scheduled_pipeline_run. rewrite Hidle.
      unfold bind, new_event, get_scraper_modules, bindM, bind.
      assert (Hd' : discover_scrapers E (tick_event w) =
                    (Raise e, tick_scan (tick_event w))).
      { revert Hd. unfold discover_scrapers. simpl.
        destruct (Dict.truthy (w_scraper_cache w)); [discriminate|].
        destruct (listdir E (scans w)) as [entries|e0].
        - destruct (scan entries (Dict.empty scraper)); intros H'; inversion H'.
          reflexivity.
        - intros H'; inversion H'. reflexivity. }
      rewrite Hd'. reflexivity.
Qed.

(** a process started outside the directory of the program *)
Lemma discovery_fails_on_listing_or_import_witness :
  discover_scrapers unlistable_env initial_world =
    (Raise (PyException "[Errno 2] No such file or directory: 'scrapers'"),
     tick_scan initial_world) /\
  (forall req,
     trigger_pipeline unlistable_env req initial_world =
       (({| code := 500; message := "Failed to load scraper modules." |}, None),
        tick_scan initial_world)) /\
  scheduled_pipeline_run unlistable_env initial_world =
    (tt, tick_scan (tick_event initial_world)).
Proof.
  pose proof (proj2 (discovery_fails_on_listing_or_import unlistable_env initial_world
                       (PyException "[Errno 2] No such file or directory: 'scrapers'"))
                eq_refl) as (H1 & _ & _ & _ & H5).
  split; [exact H1|]. exact (H5 eq_refl).
Defined.

(** a scraper with a syntax error: the scan is left by the [SyntaxError] *)
Example syntax_error_aborts_discovery :
  fst (discover_scrapers syntax_error_env initial_world) =
    Raise (PyException "invalid syntax (zawya_scraper.py, line 3)") /\
  import_aborts
    [{| filename := "zawya_scraper.py";
        import_module := Raise (PyException "invalid syntax (zawya_scraper.py, line 3)") |}]
    (PyException "invalid syntax (zawya_scraper.py, line 3)").
Proof.
  split; [reflexivity|].
  split; [intros msg; discriminate|].
  eexists [], _, []. split; [reflexivity|]. split; [reflexivity|]. split; [reflexivity|].
  intros entry' e' [].
Qed.

(** ** The listing of source names *)

Lemma insort_perm (x : string) (l : list string) : Permutation (x :: l) (insort x l).
Proof.
  induction l as [|y l IH]; simpl; [reflexivity|].
  destruct (String.leb x y); [reflexivity|].
  rewrite perm_swap. now constructor.
Qed.

Lemma sorted_perm (l : list string) : Permutation l (sorted l).
Proof.
  induction l as [|x l IH]; simpl; [constructor|].
  rewrite <- insort_perm. now constructor.
Qed.

Lemma insort_sorted (x : string) (l : list string) :
  Sorted (fun a b => String.leb a b = true) l ->
  Sorted (fun a b => String.leb a b = true) (insort x l).
Proof.
  induction l as [|y l IH]; simpl; intros Hs.
  - repeat constructor.
  - destruct (String.leb x y) eqn:Hxy.
    + constructor; [exact Hs|]. constructor. exact Hxy.
    + inversion Hs as [|? ? Hl Hhd]; subst.
      assert (Hyx : String.leb y x = true).
      { destruct (String.leb_total x y); congruence. }
      constructor; [now apply IH|].
      destruct l as [|z l]; simpl.
      * constructor. exact Hyx.
      * destruct (String.leb x z); constructor; [exact Hyx|].
        inversion Hhd; assumption.
Qed.

Lemma sorted_Sorted (l : list string) :
  Sorted (fun a b => String.leb a b = true) (sorted l).
Proof.
  induction l as [|x l IH]; simpl; [constructor|]. now apply insort_sorted.
Qed.

(** resolving names that are all registered drops none of them *)
Lemma resolve_registered (reg : Dict.t scraper) (names : list string) :
  registry_wf reg ->
  (forall name, In name names -> Dict.mem reg name = true) ->
  map SOURCE_NAME (resolve_spec reg names) = names.
Proof.
  intros Hwf. induction names as [|name rest IH]; intros Hall; simpl; [reflexivity|].
  pose proof (Hall name (or_introl eq_refl)) as Hm. unfold Dict.mem in Hm.
  destruct (Dict.get reg name) as [s|] eqn:Hget; [|discriminate].
  simpl. rewrite (@registry_wf_get _ _ _ Hwf Hget). f_equal.
  apply IH. intros n Hn. apply Hall. now right.
Qed.

(** X3.  The listing of source names: the names are in ascending order
    and none is listed twice; a name is listed exactly when the registry the
    call leaves in the cache holds it; and when at least one name is listed,
    resolving the listed names afterwards, in whatever environment, scans
    nothing and returns one adapter per name, in the same order, each with
    the name as its [SOURCE_NAME]. *)
Theorem scraper_names_listing (E : env) (w w1 : world) (names : list string) :
  registry_wf (w_scraper_cache w) ->
  get_all_scraper_names E w = (Ok names, w1) ->
  Sorted (fun a b => String.leb a b = true) names /\
  NoDup names /\
  (forall name, In name names <-> Dict.mem (w_scraper_cache w1) name = true) /\
  (names <> [] ->
   forall E2, exists modules,
     get_scraper_modules E2 (Some names) w1 = (Ok modules, w1) /\
     map SOURCE_NAME modules = names).
Proof.
  intros Hwf. unfold get_all_scraper_names, bindM, bind.
  destruct (discover_scrapers E w) as [[reg|e] w'] eqn:Hd; intros H; inversion H; subst.
  destruct (@discover_scrapers_wf _ _ _ _ Hwf Hd) as [Hreg Hcache].
  assert (Hmem : forall name,
            In name (sorted (Dict.keys reg)) <-> Dict.mem reg name = true).
  { intros name. rewrite dict_mem_In. split; intros Hin.
    - eapply Permutation_in; [symmetry; apply sorted_perm|exact Hin].
    - eapply Permutation_in; [apply sorted_perm|exact Hin]. }
  split; [apply sorted_Sorted|]. split.
  { eapply Permutation_NoDup; [apply sorted_perm|apply Hreg]. }
  split; [rewrite Hcache; exact Hmem|].
  intros Hne E2. exists (resolve_spec reg (sorted (Dict.keys reg))). split.
  - assert (Ht : Dict.truthy (w_scraper_cache w1) = true).
    { rewrite Hcache. destruct reg; [|reflexivity]. exfalso. now apply Hne. }
    unfold get_scraper_modules, bindM, bind.
    rewrite (@discover_scrapers_cached E2 _ Ht), Hcache. unfold ret.
    rewrite select_modules_acc. reflexivity.
  - apply resolve_registered; [exact Hreg|]. intros name. apply Hmem.
Qed.

Lemma scraper_names_listing_witness :
  Sorted (fun a b => String.leb a b = true) ["alpha.com"] /\
  NoDup ["alpha.com"] /\
  (forall name,
     In name ["alpha.com"] <->
     Dict.mem (w_scraper_cache (snd (get_all_scraper_names alpha_env initial_world))) name
       = true) /\
  (["alpha.com"] <> [] ->
   forall E2, exists modules,
     get_scraper_modules E2 (Some ["alpha.com"])
       (snd (get_all_scraper_names alpha_env initial_world)) =
       (Ok modules, snd (get_all_scraper_names alpha_env initial_world)) /\
     map SOURCE_NAME modules = ["alpha.com"]).
Proof.
  exact (@scraper_names_listing alpha_env initial_world
           (snd (get_all_scraper_names alpha_env initial_world)) ["alpha.com"]
           registry_wf_empty eq_refl).
Defined.

(** ** What each stage may touch *)

Lemma acquisition_footprint_refl (d : db) : acquisition_footprint d d.
Proof.
  split; [exists []; now rewrite app_nil_r|].
  split; [exists []; split; [now rewrite app_nil_r|constructor]|].
  split; [reflexivity|split; reflexivity].
Qed.

Lemma acquisition_footprint_trans (a b c : db) :
  acquisition_footprint a b -> acquisition_footprint b c -> acquisition_footprint a c.
Proof.
  intros ((l1 & Hl1) & (a1 & Ha1 & Hf1) & Hs1 & Hu1 & Hp1)
         ((l2 & Hl2) & (a2 & Ha2 & Hf2) & Hs2 & Hu2 & Hp2).
  split; [exists (l1 ++ l2); now rewrite Hl2, Hl1, app_assoc|].
  split.
  { exists (a1 ++ a2). split; [now rewrite Ha2, Ha1, app_assoc|].
    apply Forall_app. split; assumption. }
  split; [congruence|split; congruence].
Qed.

Lemma acquisition_footprint_add_link (url source : string) (d : db) :
  acquisition_footprint d (snd (add_link url source d)).
Proof.
  unfold add_link. destruct (url_in_links url d); simpl;
    [apply acquisition_footprint_refl|].
  split; [eexists; reflexivity|].
  split; [exists []; split; [now rewrite app_nil_r|constructor]|].
  split; [reflexivity|split; reflexivity].
Qed.

Lemma acquisition_footprint_add_article (id : nat) (data : article_data) (d : db) :
  acquisition_footprint d (snd (add_article id data d)).
Proof.
  unfold add_article. destruct (url_in_articles (ad_url data) d); simpl;
    [apply acquisition_footprint_refl|].
  split; [exists []; now rewrite app_nil_r|].
  split; [eexists; split; [reflexivity|repeat constructor]|].
  split; [reflexivity|split; reflexivity].
Qed.

Lemma run_scraping_pipeline_footprint (E : env) (mods : list scraper) (ev : nat) (w : world) :
  acquisition_footprint (w_db w) (w_db (snd (run_scraping_pipeline E mods ev w))).
Proof.
  apply (@respects_run_scraping_pipeline E
           (fun w w' => acquisition_footprint (w_db w) (w_db w')) (fun _ => True)).
  - intros w0. apply acquisition_footprint_refl.
  - intros a b c. apply acquisition_footprint_trans.
  - intros t w0. apply acquisition_footprint_refl.
  - intros w0. apply acquisition_footprint_refl.
  - intros w0. apply acquisition_footprint_refl.
  - intros e w0 _. apply acquisition_footprint_refl.
  - intros w0. apply acquisition_footprint_refl.
  - intros url source w0. apply acquisition_footprint_add_link.
  - intros id data w0. apply acquisition_footprint_add_article.
  - exact I.
Qed.

(** X5.  Whatever the adapters return and whatever fails, acquisition
    only appends to the [links] and [articles] tables, the articles it adds
    are not analyzed yet, and it leaves the sentiments, the usage logs and
    the run log as they were. *)
Theorem acquisition_only_appends (E : env) (mods : list scraper) (ev : nat) (w : world) :
  acquisition_footprint (w_db w) (w_db (snd (run_scraping_pipeline E mods ev w))).
Proof. exact (@run_scraping_pipeline_footprint E mods ev w). Qed.

Lemma extraction_footprint_refl (d : db) : extraction_footprint d d.
Proof.
  repeat (split; [reflexivity|]).
  split; [auto|].
  split; exists []; now rewrite app_nil_r.
Qed.

Lemma extraction_footprint_trans (a b c : db) :
  extraction_footprint a b -> extraction_footprint b c -> extraction_footprint a c.
Proof.
  intros (Hl1 & Hq1 & Hr1 & Hp1 & Ha1 & Hf1 & (s1 & Hs1) & (u1 & Hu1))
         (Hl2 & Hq2 & Hr2 & Hp2 & Ha2 & Hf2 & (s2 & Hs2) & (u2 & Hu2)).
  repeat (split; [congruence|]).
  split; [auto|].
  split; [exists (s1 ++ s2); now rewrite Hs2, Hs1, app_assoc|].
  exists (u1 ++ u2). now rewrite Hu2, Hu1, app_assoc.
Qed.

Lemma extraction_footprint_add_sentiment (row : sentiment_row) (d : db) :
  extraction_footprint d (add_sentiment row d).
Proof.
  repeat (split; [reflexivity|]).
  split; [auto|].
  split; [eexists; reflexivity|exists []; simpl; now rewrite app_nil_r].
Qed.

Lemma extraction_footprint_add_usage_log (id : nat) (p : string) (u : usage_stats) (d : db) :
  extraction_footprint d (add_usage_log id p u d).
Proof.
  repeat (split; [reflexivity|]).
  split; [auto|].
  split; [exists []; simpl; now rewrite app_nil_r|eexists; reflexivity].
Qed.

Lemma extraction_footprint_mark (id : nat) (d : db) :
  extraction_footprint d (mark_article_as_analyzed id d).
Proof.
  repeat (split; [reflexivity|]).
  split.
  { simpl. rewrite map_map. apply map_ext. intros a.
    destruct (article_id a =? id); reflexivity. }
  split.
  { intros id' H. eapply db_step_flag_true; [apply step_mark|exact H]. }
  split; exists []; simpl; now rewrite app_nil_r.
Qed.

Lemma run_analysis_pipeline_footprint (E : env) (ev : nat) (kwargs : llm_config)
  (w : world) :
  extraction_footprint (w_db w) (w_db (snd (run_analysis_pipeline E ev kwargs w))).
Proof.
  apply (@respects_run_analysis_pipeline E
           (fun w w' => extraction_footprint (w_db w) (w_db w')) (fun _ => True)).
  - intros w0. apply extraction_footprint_refl.
  - intros a b c. apply extraction_footprint_trans.
  - intros t w0. apply extraction_footprint_refl.
  - intros w0. apply extraction_footprint_refl.
  - intros w0. apply extraction_footprint_refl.
  - intros e w0 _. apply extraction_footprint_refl.
  - intros w0. apply extraction_footprint_refl.
  - intros row w0. apply extraction_footprint_add_sentiment.
  - intros id p u w0. apply extraction_footprint_add_usage_log.
  - intros id w0. apply extraction_footprint_mark.
  - exact I.
  - intros id. exact I.
  - intros id e. exact I.
Qed.

(** X6.  Whatever the extractor answers and whatever fails, extraction
    leaves the links, the run log and the row counters as they were; the
    articles are the same rows except for [is_analyzed] flags, which are only
    ever raised; sentiments and usage logs are only appended. *)
Theorem extraction_only_flags_and_appends (E : env) (ev : nat) (kwargs : llm_config)
  (w : world) :
  extraction_footprint (w_db w) (w_db (snd (run_analysis_pipeline E ev kwargs w))).
Proof. exact (@run_analysis_pipeline_footprint E ev kwargs w). Qed.

(** ** Counters and rows *)

Lemma add_link_count (u source : string) (d : db) (n : nat) :
  (if truthy_id (fst (add_link u source d)) then n + 1 else n) + List.length (links d) =
  n + List.length (links (snd (add_link u source d))).
Proof.
  unfold add_link. destruct (url_in_links u d); simpl; [lia|].
  rewrite length_app. simpl. lia.
Qed.

Lemma add_links_count (E : env) (source : string) (urls : list string) :
  forall n w,
    fst (fst (add_links E source urls n w)) + List.length (links (w_db w)) =
    n + List.length (links (w_db (snd (add_links E source urls n w)))).
Proof.
  induction urls as [|u rest IH]; intros n w; [reflexivity|].
  rewrite add_links_cons. destruct (fault E (db_calls w)); [reflexivity|].
  specialize (IH (if truthy_id (fst (add_link u source (w_db w))) then n + 1 else n)
                 (with_db (snd (add_link u source (w_db w))) (tick_db w))).
  cbn [w_db with_db] in IH.
  pose proof (add_link_count u source (w_db w) n). lia.
Qed.

Lemma scrape_links_count (E : env) (ev : nat) (mods : list scraper) :
  forall i n w,
    exists k,
      (fst (scrape_links E ev mods i n w) = inl k \/
       fst (scrape_links E ev mods i n w) = inr (scraping_stats k 0)) /\
      k + List.length (links (w_db w)) =
      n + List.length (links (w_db (snd (scrape_links E ev mods i n w)))).
Proof.
  induction mods as [|s rest IH]; intros i n w.
  - exists n. split; [now left|reflexivity].
  - rewrite scrape_links_cons. destruct (fst (is_set E ev w)).
    + exists n. split; [now right|reflexivity].
    + cbv zeta. destruct (get_article_urls s) as [[|u us]|e].
      * match goal with
        | |- context [scrape_links E ev rest ?i' ?n' ?w'] =>
            destruct (IH i' n' w') as (k & Hk & Hc)
        end.
        exists k. split; [exact Hk|exact Hc].
      * match goal with
        | |- context [scrape_links E ev rest ?i' ?n' ?w'] =>
            destruct (IH i' n' w') as (k & Hk & Hc)
        end.
        exists k. split; [exact Hk|].
        cbn [w_db with_tracker] in Hc.
        pose proof (add_links_count E (SOURCE_NAME s) (u :: us) n
                      (with_tracker
                         (set_current_task ("Fetching links from " ++ SOURCE_NAME s)
                            (w_tracker w)) (tick_poll w))) as Ha.
        cbn [w_db with_tracker tick_poll] in Ha. lia.
      * match goal with
        | |- context [scrape_links E ev rest ?i' ?n' ?w'] =>
            destruct (IH i' n' w') as (k & Hk & Hc)
        end.
        exists k. split; [exact Hk|exact Hc].
Qed.

Lemma scrape_links_same_articles (E : env) (ev : nat) (mods : list scraper)
  (i n : nat) (w : world) :
  articles (w_db (snd (scrape_links E ev mods i n w))) = articles (w_db w).
Proof.
  apply (@respects_scrape_links E (fun w w' => articles (w_db w') = articles (w_db w))).
  - reflexivity.
  - intros a b c H1 H2. congruence.
  - reflexivity.
  - reflexivity.
  - reflexivity.
  - intros url source w0. unfold add_link. simpl.
    destruct (url_in_links url (w_db w0)); reflexivity.
Qed.

Lemma add_article_count (id : nat) (data : article_data) (d : db) :
  List.length (articles (snd (add_article id data d))) <= List.length (articles d) + 1.
Proof.
  unfold add_article. destruct (url_in_articles (ad_url data) d); simpl; [lia|].
  rewrite length_app. simpl. lia.
Qed.

Lemma scrape_articles_count (E : env) (ev : nat) (smap : Dict.t scraper)
  (pending : list link_row) :
  forall i n w,
    List.length (articles (w_db (snd (scrape_articles E ev smap pending i n w)))) + n <=
    List.length (articles (w_db w)) + fst (scrape_articles E ev smap pending i n w).
Proof.
  induction pending as [|l rest IH]; intros i n w; [simpl; unfold scrape_articles, ret; simpl; lia|].
  rewrite scrape_articles_cons. destruct (fst (is_set E ev w)); [simpl; lia|].
  cbv zeta.
  assert (Hskip :
    List.length (articles (w_db (snd (scrape_articles E ev smap rest (i + 1) n
      (with_tracker (set_progress (i + 1) (w_tracker w)) (tick_poll w)))))) + n <=
    List.length (articles (w_db w)) +
    fst (scrape_articles E ev smap rest (i + 1) n
      (with_tracker (set_progress (i + 1) (w_tracker w)) (tick_poll w)))).
  { apply (IH (i + 1) n (with_tracker (set_progress (i + 1) (w_tracker w)) (tick_poll w))). }
  destruct (Dict.get smap (source_website l)) as [s|]; [|exact Hskip].
  destruct (scrape_article_content s (link_url l)) as [[data|]|e]; try exact Hskip.
  destruct (fault E (db_calls w)).
  - match goal with
    | |- context [scrape_articles E ev smap rest ?i' ?n' ?w'] =>
        pose proof (IH i' n' w') as H
    end.
    exact H.
  - match goal with
    | |- context [scrape_articles E ev smap rest ?i' ?n' ?w'] =>
        pose proof (IH i' n' w') as H
    end.
    cbn [w_db with_tracker with_db] in H.
    pose proof (add_article_count (link_id l) data (w_db w)). lia.
Qed.

Lemma run_scraping_pipeline_counts (E : env) (mods : list scraper) (ev : nat) (w : world) :
  match run_scraping_pipeline E mods ev w with
  | (Ok s, w') =>
      exists a b,
        s = scraping_stats a b /\
        List.length (links (w_db w')) = List.length (links (w_db w)) + a /\
        List.length (articles (w_db w')) <= List.length (articles (w_db w)) + b
  | (Raise _, w') => articles (w_db w') = articles (w_db w)
  end.
Proof.
  rewrite run_scraping_pipeline_eq. cbv zeta.
  set (w0 := with_tracker _ (log EnterScraping w)).
  destruct (@scrape_links_count E ev mods 0 0 w0) as (k & Hk & Hc).
  pose proof (@scrape_links_same_articles E ev mods 0 0 w0) as Ha.
  change (w_db w0) with (w_db w) in *.
  set (wl := snd (scrape_links E ev mods 0 0 w0)) in *.
  destruct Hk as [Hk|Hk]; rewrite Hk.
  - destruct (fst (is_set E ev wl)).
    + exists k, 0. split; [reflexivity|]. cbn [w_db tick_poll]. rewrite Ha. lia.
    + destruct (fault E (db_calls wl)); [exact Ha|].
      destruct (get_unscraped_links (w_db wl)) as [|l ls].
      * exists k, 0. split; [reflexivity|]. cbn [w_db with_tracker tick_db tick_poll].
        rewrite Ha. lia.
      * set (w2 := with_tracker _ (tick_db (tick_poll wl))).
        exists k, (fst (scrape_articles E ev (scraper_map mods) (l :: ls) 0 0 w2)).
        split; [reflexivity|].
        pose proof (@scrape_articles_same_links E ev (scraper_map mods) (l :: ls) 0 0 w2) as Hl.
        pose proof (@scrape_articles_count E ev (scraper_map mods) (l :: ls) 0 0 w2) as Hn.
        unfold same_links in Hl. change (w_db w2) with (w_db wl) in *.
        rewrite Hl. rewrite Ha in Hn. lia.
  - exists k, 0. split; [reflexivity|]. rewrite Ha. lia.
Qed.

(** X7.  The counters acquisition returns against the rows it wrote,
    whatever fails and whenever it is stopped: [new_links_found] is exactly
    the number of rows added to [links]; [articles_scraped] is at least the
    number of rows added to [articles]; and when acquisition raises, it has
    added no article. *)
Theorem acquisition_counts_rows (E : env) (mods : list scraper) (ev : nat) (w : world) :
  match run_scraping_pipeline E mods ev w with
  | (Ok s, w') =>
      exists a b,
        s = scraping_stats a b /\
        List.length (links (w_db w')) = List.length (links (w_db w)) + a /\
        List.length (articles (w_db w')) <= List.length (articles (w_db w)) + b
  | (Raise _, w') => articles (w_db w') = articles (w_db w)
  end.
Proof. exact (@run_scraping_pipeline_counts E mods ev w). Qed.

Lemma add_sentiments_count (E : env) (id : nat) (es : list entity) :
  forall n w,
    fst (fst (add_sentiments E id es n w)) + List.length (sentiments (w_db w)) =
    n + List.length (sentiments (w_db (snd (add_sentiments E id es n w)))).
Proof.
  induction es as [|en rest IH]; intros n w; [reflexivity|].
  unfold add_sentiments; fold (add_sentiments E). unfold bind.
  destruct (db_write_cases E (add_sentiment (sentiment_of id en)) w) as [(msg & H)|H];
    rewrite H; [reflexivity|].
  specialize (IH (n + 1) (with_db (add_sentiment (sentiment_of id en) (w_db w)) (tick_db w))).
  cbn [w_db with_db add_sentiment sentiments] in IH. rewrite length_app in IH.
  simpl List.length in IH. lia.
Qed.

Lemma analyze_article_count (E : env) (a : analyzer) (x : todo) (n : nat) (w : world) :
  fst (fst (analyze_article E a x n w)) + List.length (sentiments (w_db w)) =
  n + List.length (sentiments (w_db (snd (analyze_article E a x n w)))).
Proof.
  rewrite analyze_article_eq.
  destruct (analyze_text_for_sentiment a (todo_text x)) as [[es usage]|e]; [|reflexivity].
  set (wl := log (Analyze (todo_id x)) w).
  assert (Hu : forall r1 w1,
            match usage with
            | Some u => db_write E (add_usage_log (todo_id x) (provider a) u) wl
            | None => (Ok tt, wl)
            end = (r1, w1) ->
            sentiments (w_db w1) = sentiments (w_db w)).
  { intros r1 w1. destruct usage as [u|].
    - destruct (db_write_cases E (add_usage_log (todo_id x) (provider a) u) wl)
        as [(msg & H)|H]; rewrite H; intros [= <- <-]; reflexivity.
    - intros [= <- <-]. reflexivity. }
  destruct (match usage with Some u => _ | None => _ end) as [r1 w1] eqn:Hr1.
  specialize (Hu _ _ eq_refl).
  destruct r1 as [[]|e]; [|cbn [fst snd]; rewrite Hu; reflexivity].
  pose proof (add_sentiments_count E (todo_id x) es n w1) as Hc.
  rewrite Hu in Hc.
  destruct (snd (fst (add_sentiments E (todo_id x) es n w1))); [exact Hc|].
  destruct (db_write_cases E (mark_article_as_analyzed (todo_id x))
              (snd (add_sentiments E (todo_id x) es n w1))) as [(msg & H)|H];
    rewrite H; exact Hc.
Qed.

Lemma analyze_articles_count (E : env) (ev : nat) (a : analyzer) (items : list todo) :
  forall i n w,
    fst (analyze_articles E ev a items i n w) + List.length (sentiments (w_db w)) =
    n + List.length (sentiments (w_db (snd (analyze_articles E ev a items i n w)))).
Proof.
  induction items as [|x rest IH]; intros i n w; [reflexivity|].
  rewrite analyze_articles_cons. destruct (fst (is_set E ev w)); [reflexivity|].
  cbv zeta.
  match goal with
  | |- context [analyze_article E a x n ?w1] =>
      pose proof (analyze_article_count E a x n w1) as Hc; set (W1 := w1) in *
  end.
  match goal with
  | |- context [analyze_articles E ev a rest ?i' ?n' ?w'] =>
      pose proof (IH i' n' w') as Hr
  end.
  cbn [w_db with_tracker] in Hr.
  assert (Hlog : sentiments
            (w_db match snd (fst (analyze_article E a x n W1)) with
                  | Some e => log (AnalyzeFailed (todo_id x) e) (snd (analyze_article E a x n W1))
                  | None => snd (analyze_article E a x n W1)
                  end) = sentiments (w_db (snd (analyze_article E a x n W1)))).
  { destruct (snd (fst (analyze_article E a x n W1))); reflexivity. }
  rewrite Hlog in Hr. change (w_db W1) with (w_db w) in Hc. lia.
Qed.

Lemma run_analysis_pipeline_counts (E : env) (ev : nat) (kwargs : llm_config) (w : world) :
  match run_analysis_pipeline E ev kwargs w with
  | (Ok s, w') =>
      exists c,
        s = analysis_stats c /\
        List.length (sentiments (w_db w')) = List.length (sentiments (w_db w)) + c
  | (Raise _, w') => w_db w' = w_db w
  end.
Proof.
  rewrite run_analysis_pipeline_eq.
  destruct (SentimentAnalyzer E kwargs) as [a|e].
  - destruct (fault E (db_calls w)); [reflexivity|]. cbv zeta.
    destruct (get_unanalyzed_articles (w_db w)) as [|x rest].
    + exists 0. split; [reflexivity|]. simpl. lia.
    + match goal with
      | |- context [analyze_articles E ev a ?items 0 0 ?w1] =>
          pose proof (analyze_articles_count E ev a items 0 0 w1) as Hc
      end.
      cbn [w_db with_tracker tick_db log] in Hc.
      eexists. split; [reflexivity|]. cbn [snd]. lia.
  - exists 0. split; [reflexivity|]. simpl. lia.
Qed.

(** X8.  The counter extraction returns against the rows it wrote,
    whatever the extractor answers, whatever fails and whenever it is
    stopped: [entities_analyzed] is exactly the number of rows added to
    [sentiments], those of articles whose processing failed half-way
    included; and when extraction raises, the store is as it was. *)
Theorem extraction_counts_rows (E : env) (ev : nat) (kwargs : llm_config) (w : world) :
  match run_analysis_pipeline E ev kwargs w with
  | (Ok s, w') =>
      exists c,
        s = analysis_stats c /\
        List.length (sentiments (w_db w')) = List.length (sentiments (w_db w)) + c
  | (Raise _, w') => w_db w' = w_db w
  end.
Proof. exact (@run_analysis_pipeline_counts E ev kwargs w). Qed.

(** ** The stages and the tracker *)

Section Blind.

Variable E : env.

Lemma blind_ret {A} (a : A) : blind (ret a).
Proof. intros w1 w2 H. split; [reflexivity|exact H]. Qed.

Lemma blind_bind {A B} (m : St A) (f : A -> St B) :
  blind m -> (forall a, blind (f a)) -> blind (bind m f).
Proof.
  intros Hm Hf w1 w2 H. unfold bind.
  destruct (Hm w1 w2 H) as [H1 H2].
  destruct (m w1) as [a1 w1'], (m w2) as [a2 w2']. simpl in H1, H2. subst a2.
  exact (Hf a1 w1' w2' H2).
Qed.

Lemma blind_bindM {A B} (m : M A) (f : A -> M B) :
  blind m -> (forall a, blind (f a)) -> blind (bindM m f).
Proof.
  intros Hm Hf. unfold bindM. apply blind_bind; [assumption|].
  intros [a|e]; [apply Hf|apply blind_ret].
Qed.

Lemma blind_update_tracker (f : tracker -> tracker) : blind (update_tracker f).
Proof. intros w1 w2 H. split; [reflexivity|exact H]. Qed.

Lemma blind_is_set (ev : nat) : blind (is_set E ev).
Proof.
  intros w1 w2 H.
  assert (Hp : polls w1 = polls w2)
    by (change (polls (untracked w1) = polls (untracked w2)); now rewrite H).
  unfold is_set. simpl. rewrite Hp. split; [reflexivity|].
  change (tick_poll (untracked w1) = tick_poll (untracked w2)). now rewrite H.
Qed.

Lemma blind_log (e : event) : blind (modify (log e)).
Proof.
  intros w1 w2 H. split; [reflexivity|].
  change (log e (untracked w1) = log e (untracked w2)). now rewrite H.
Qed.

Lemma blind_db_call {A} (f : db -> A * db) : blind (db_call E f).
Proof.
  intros w1 w2 H.
  assert (Hc : db_calls w1 = db_calls w2)
    by (change (db_calls (untracked w1) = db_calls (untracked w2)); now rewrite H).
  assert (Hd : w_db w1 = w_db w2)
    by (change (w_db (untracked w1) = w_db (untracked w2)); now rewrite H).
  assert (Ht : tick_db (untracked w1) = tick_db (untracked w2)) by now rewrite H.
  unfold db_call. rewrite Hc, Hd. destruct (fault E (db_calls w2)).
  - split; [reflexivity|exact Ht].
  - destruct (f (w_db w2)) as [a d]. split; [reflexivity|].
    change (with_db d (tick_db (untracked w1)) = with_db d (tick_db (untracked w2))).
    now rewrite Ht.
Qed.

Lemma blind_add_links (source : string) (urls : list string) :
  forall n, blind (add_links E source urls n).
Proof.
  induction urls as [|url rest IH]; intros n.
  - apply blind_ret.
  - change (blind (r <- db_call E (add_link url source) ;;
                   match r with
                   | Raise e => ret (n, Some e)
                   | Ok id => add_links E source rest
                                (if truthy_id id then n + 1 else n)
                   end)).
    apply blind_bind; [apply blind_db_call|].
    intros [id|e]; [apply IH|apply blind_ret].
Qed.

Lemma blind_scrape_links (ev : nat) (mods : list scraper) :
  forall i n, blind (scrape_links E ev mods i n).
Proof.
  induction mods as [|s rest IH]; intros i n.
  - apply blind_ret.
  - change (blind (stop <- is_set E ev ;;
                   if stop then
                     update_tracker (set_status "Stopping...") ;;
                     ret (inr (scraping_stats n 0))
                   else
                     update_tracker
                       (set_current_task ("Fetching links from " ++ SOURCE_NAME s)) ;;
                     match get_article_urls s with
                     | Raise _ =>
                         update_tracker (set_progress (i + 1)) ;;
                         scrape_links E ev rest (i + 1) n
                     | Ok [] => scrape_links E ev rest (i + 1) n
                     | Ok urls =>
                         r <- add_links E (SOURCE_NAME s) urls n ;;
                         update_tracker (set_progress (i + 1)) ;;
                         scrape_links E ev rest (i + 1) (fst r)
                     end)).
    apply blind_bind; [apply blind_is_set|].
    intros [|].
    + apply blind_bind; [apply blind_update_tracker|]. intros _. apply blind_ret.
    + apply blind_bind; [apply blind_update_tracker|]. intros _.
      destruct (get_article_urls s) as [[|u us]|e].
      * apply IH.
      * apply blind_bind; [apply blind_add_links|]. intros r.
        apply blind_bind; [apply blind_update_tracker|]. intros _. apply IH.
      * apply blind_bind; [apply blind_update_tracker|]. intros _. apply IH.
Qed.

Lemma blind_scrape_articles (ev : nat) (smap : Dict.t scraper) (pending : list link_row) :
  forall i n, blind (scrape_articles E ev smap pending i n).
Proof.
  induction pending as [|link rest IH]; intros i n.
  - apply blind_ret.
  - change (blind (stop <- is_set E ev ;;
      if stop then
        update_tracker (set_status "Stopping...") ;;
        ret n
      else
        match Dict.get smap (source_website link) with
        | Some scraper_to_use =>
            match scrape_article_content scraper_to_use (link_url link) with
            | Ok (Some article_data) =>
                r <- db_call E (add_article (link_id link) article_data) ;;
                match r with
                | Ok _ =>
                    update_tracker (set_current_task ("Scraped: " ++ ad_title article_data)) ;;
                    update_tracker (set_progress (i + 1)) ;;
                    scrape_articles E ev smap rest (i + 1) (n + 1)
                | Raise _ =>
                    update_tracker (set_progress (i + 1)) ;;
                    scrape_articles E ev smap rest (i + 1) n
                end
            | Ok None | Raise _ =>
                update_tracker (set_progress (i + 1)) ;;
                scrape_articles E ev smap rest (i + 1) n
            end
        | None =>
            update_tracker (set_progress (i + 1)) ;;
            scrape_articles E ev smap rest (i + 1) n
        end)).
    apply blind_bind; [apply blind_is_set|].
    intros [|].
    + apply blind_bind; [apply blind_update_tracker|]. intros _. apply blind_ret.
    + destruct (Dict.get smap (source_website link)) as [s|].
      * destruct (scrape_article_content s (link_url link)) as [[data|]|e].
        -- apply blind_bind; [apply blind_db_call|].
           intros [id|e].
           ++ apply blind_bind; [apply blind_update_tracker|]. intros _.
              apply blind_bind; [apply blind_update_tracker|]. intros _. apply IH.
           ++ apply blind_bind; [apply blind_update_tracker|]. intros _. apply IH.
        -- apply blind_bind; [apply blind_update_tracker|]. intros _. apply IH.
        -- apply blind_bind; [apply blind_update_tracker|]. intros _. apply IH.
      * apply blind_bind; [apply blind_update_tracker|]. intros _. apply IH.
Qed.

Lemma blind_run_scraping_pipeline (mods : list scraper) (ev : nat) :
  blind (run_scraping_pipeline E mods ev).
Proof.
  unfold run_scraping_pipeline.
  apply blind_bind; [apply blind_log|]. intros _.
  apply blind_bind; [apply blind_update_tracker|]. intros _.
  apply blind_bind; [apply blind_scrape_links|]. intros [n|early].
  - apply blind_bind; [apply blind_is_set|]. intros [|]; [apply blind_ret|].
    apply blind_bindM; [apply blind_db_call|].
    intros pending.
    apply blind_bind; [apply blind_update_tracker|]. intros _.
    destruct pending.
    + apply blind_bind; [apply blind_update_tracker|]. intros _. apply blind_ret.
    + apply blind_bind; [apply blind_scrape_articles|]. intros k. apply blind_ret.
  - apply blind_ret.
Qed.

Lemma blind_add_sentiments (id : nat) (entities : list entity) :
  forall n, blind (add_sentiments E id entities n).
Proof.
  induction entities as [|en rest IH]; intros n.
  - apply blind_ret.
  - change (blind (r <- db_write E (add_sentiment (sentiment_of id en)) ;;
                   match r with
                   | Raise e => ret (n, Some e)
                   | Ok _ => add_sentiments E id rest (n + 1)
                   end)).
    apply blind_bind; [apply blind_db_call|].
    intros [?|e]; [apply IH|apply blind_ret].
Qed.

Lemma blind_analyze_article (a : analyzer) (article : todo) (n : nat) :
  blind (analyze_article E a article n).
Proof.
  unfold analyze_article.
  apply blind_bind; [apply blind_log|]. intros _.
  destruct (analyze_text_for_sentiment a (todo_text article)) as [[entities usage]|e];
    [|apply blind_ret].
  apply blind_bind.
  - destruct usage; [apply blind_db_call|apply blind_ret].
  - intros [?|e]; [|apply blind_ret].
    apply blind_bind; [apply blind_add_sentiments|]. intros r2.
    destruct (snd r2); [apply blind_ret|].
    apply blind_bind; [apply blind_db_call|].
    intros [?|e]; apply blind_ret.
Qed.

Lemma blind_analyze_articles (ev : nat) (a : analyzer) (items : list todo) :
  forall i n, blind (analyze_articles E ev a items i n).
Proof.
  induction items as [|article rest IH]; intros i n.
  - apply blind_ret.
  - change (blind (stop <- is_set E ev ;;
      if stop then
        update_tracker (set_status "Stopping...") ;;
        ret n
      else
        update_tracker
          (set_current_task ("Analyzing article ID: " ++ str_of_nat (todo_id article))) ;;
        r <- analyze_article E a article n ;;
        match snd r with
        | Some e => modify (log (AnalyzeFailed (todo_id article) e))
        | None => ret tt
        end ;;
        update_tracker (set_progress (i + 1)) ;;
        analyze_articles E ev a rest (i + 1) (fst r))).
    apply blind_bind; [apply blind_is_set|].
    intros [|].
    + apply blind_bind; [apply blind_update_tracker|]. intros _. apply blind_ret.
    + apply blind_bind; [apply blind_update_tracker|]. intros _.
      apply blind_bind; [apply blind_analyze_article|]. intros r.
      apply blind_bind.
      { destruct (snd r); [apply blind_log|apply blind_ret]. }
      intros _.
      apply blind_bind; [apply blind_update_tracker|]. intros _. apply IH.
Qed.

Lemma blind_run_analysis_pipeline (ev : nat) (kwargs : llm_config) :
  blind (run_analysis_pipeline E ev kwargs).
Proof.
  unfold run_analysis_pipeline.
  apply blind_bind; [apply blind_log|]. intros _.
  destruct (SentimentAnalyzer E kwargs) as [a|e].
  - apply blind_bindM; [apply blind_db_call|].
    intros items.
    apply blind_bind; [apply blind_update_tracker|]. intros _.
    destruct items.
    + apply blind_bind; [apply blind_update_tracker|]. intros _. apply blind_ret.
    + apply blind_bind; [apply blind_analyze_articles|]. intros k. apply blind_ret.
  - apply blind_bind; [apply blind_update_tracker|]. intros _. apply blind_ret.
Qed.

End Blind.

(** X10.  The stages never read the status tracker: started with another
    tracker, each stage returns the same result and leaves the same store,
    cache, counters and trace.  (This is what lets [main.py] hand them an
    empty dict.) *)
Theorem stages_do_not_read_tracker (E : env) (mods : list scraper) (ev : nat)
  (kwargs : llm_config) (t : tracker) (w : world) :
  (fst (run_scraping_pipeline E mods ev (with_tracker t w)) =
     fst (run_scraping_pipeline E mods ev w) /\
   untracked (snd (run_scraping_pipeline E mods ev (with_tracker t w))) =
     untracked (snd (run_scraping_pipeline E mods ev w))) /\
  (fst (run_analysis_pipeline E ev kwargs (with_tracker t w)) =
     fst (run_analysis_pipeline E ev kwargs w) /\
   untracked (snd (run_analysis_pipeline E ev kwargs (with_tracker t w))) =
     untracked (snd (run_analysis_pipeline E ev kwargs w))).
Proof.
  split.
  - apply (@blind_run_scraping_pipeline E mods ev). reflexivity.
  - apply (@blind_run_analysis_pipeline E ev kwargs). reflexivity.
Qed.

(** ** The stop request *)

Lemma nth_error_set_nth {A} (l : list A) (i j : nat) (x : A) :
  nth_error (set_nth i x l) j =
    if (i =? j) && (i <? List.length l) then Some x else nth_error l j.
Proof.
  revert i j. induction l as [|y l IH]; intros i j.
  - destruct i; simpl; rewrite ?andb_false_r; reflexivity.
  - destruct i as [|i], j as [|j]; simpl; try reflexivity.
    rewrite IH. reflexivity.
Qed.

Lemma nth_error_set_nth_other {A} (l : list A) (i j : nat) (x : A) :
  i <> j -> nth_error (set_nth i x l) j = nth_error l j.
Proof.
  intros H. rewrite nth_error_set_nth.
  destruct (i =? j) eqn:Hij; [apply Nat.eqb_eq in Hij; contradiction|reflexivity].
Qed.

Lemma nth_error_set_nth_same {A} (l : list A) (i : nat) (x y : A) :
  nth_error l i = Some y -> nth_error (set_nth i x l) i = Some x.
Proof.
  intros H. rewrite nth_error_set_nth, Nat.eqb_refl.
  assert (Hlt : i < List.length l) by (apply nth_error_Some; congruence).
  apply Nat.ltb_lt in Hlt. now rewrite Hlt.
Qed.

Lemma scheduled_start_tracker (E : env) (w : world) :
  w_tracker (snd (scheduled_start E w)) = w_tracker w.
Proof.
  unfold scheduled_start. destruct (is_running (w_tracker w)); [reflexivity|].
  unfold bind, new_event.
  pose proof (get_scraper_modules_tracker E None (tick_event w)) as H.
  destruct (get_scraper_modules E None (tick_event w)) as [[mods|e] w']; simpl in *.
  - destruct mods; exact H.
  - exact H.
Qed.

Lemma scheduled_run_resets (E : env) (mods : list scraper) (ev : nat) (w : world) :
  w_tracker (snd (scheduled_run E mods ev w)) = idle_tracker.
Proof.
  unfold scheduled_run, try_finally, try_except, bind, reset_tracker, update_tracker,
    modify, ret.
  destruct (scheduled_body E mods ev w) as [[a|e] w1]; [reflexivity|].
  destruct (record_failure E e w1) as [r w2]. reflexivity.
Qed.

(** [scheduled_pipeline_run] is lines 463-477, then lines 479-480, then the
    [try] statement *)
Lemma scheduled_pipeline_run_steps (E : env) (w : world) :
  scheduled_pipeline_run E w =
    match scheduled_start E w with
    | (None, w') => (tt, w')
    | (Some (mods, ev), w') =>
        (tt, snd (run_step E (Scheduled mods ev) InBody
                    (snd (run_step E (Scheduled mods ev) BeforeStopEvent
                            (snd (run_step E (Scheduled mods ev) BeforeIsRunning w'))))))
    end.
Proof.
  unfold scheduled_pipeline_run, scheduled_start.
  destruct (is_running (w_tracker w)); [reflexivity|].
  unfold bind, new_event.
  destruct (get_scraper_modules E None (tick_event w)) as [[mods|e] w']; [|reflexivity].
  destruct mods as [|m mods]; [reflexivity|].
  unfold ret, run_step, task_begin, bind, scheduled_run, update_tracker, modify, ret.
  simpl.
  destruct (try_finally _ _ _) as [r w2]. reflexivity.
Qed.

(** and [pipeline_task] is lines 224-225, then the [try] statement *)
Lemma pipeline_task_steps (E : env) (args : thread_args) (w : world) :
  snd (pipeline_task E args w) =
    snd (run_step E (Triggered args) InBody
           (snd (run_step E (Triggered args) BeforeStopEvent
                   (snd (run_step E (Triggered args) BeforeIsRunning w))))).
Proof.
  unfold pipeline_task, run_step, task_begin, bind, update_tracker, modify, ret. simpl.
  destruct (task_run E args _) as [r w2]. reflexivity.
Qed.

(** the three steps of a handler in a row are [stop_pipeline] *)
Lemma stop_pipeline_steps (w : world) :
  (h1 <- stop_step AtCheck ;; h2 <- stop_step h1 ;; stop_step h2) w =
    (Replied (fst (fst (stop_pipeline w))) (snd (fst (stop_pipeline w))),
     snd (stop_pipeline w)).
Proof.
  unfold bind, stop_pipeline, stop_step.
  destruct (is_running (w_tracker w)); simpl; [|reflexivity].
  destruct (stop_event (w_tracker w)); reflexivity.
Qed.

Lemma runs_later_refl (rs : list (run_thread * run_pc)) : runs_later rs rs.
Proof. intros i t pc H. exists pc. auto. Qed.

Lemma runs_later_app (rs extra : list (run_thread * run_pc)) : runs_later rs (rs ++ extra).
Proof.
  intros i t pc H. exists pc. split; [|now left].
  rewrite nth_error_app1; [exact H|]. apply nth_error_Some. congruence.
Qed.

Lemma begun_later (rs rs' : list (run_thread * run_pc)) (ev : nat) :
  runs_later rs rs' -> begun rs ev -> begun rs' ev.
Proof.
  intros Hl (i & t & pc & Hn & He & Hpc).
  destruct (Hl _ _ _ Hn) as (pc' & Hn' & Hcase).
  exists i, t, pc'. split; [exact Hn'|]. split; [exact He|].
  destruct Hcase as [<- | (_ & Hnf & Hb)]; [exact Hpc|].
  destruct Hpc as [-> | ->]; [right; now apply Hb|contradiction].
Qed.

Lemma handler_ok_later (rs rs' : list (run_thread * run_pc)) (h : stop_handler) :
  runs_later rs rs' -> handler_ok rs h -> handler_ok rs' h.
Proof.
  intros Hl. destruct h as [| |ev|r [ev|]]; simpl; auto.
  - now apply begun_later.
  - intros [H1 H2]. split; [exact H1|]. now apply (begun_later Hl).
Qed.

(** the step of a run thread, by where the thread is *)
Lemma run_step_cases (E : env) (t : run_thread) (pc : run_pc) (w : world) :
  match pc with
  | BeforeIsRunning =>
      run_step E t pc w =
        (BeforeStopEvent, with_tracker (set_is_running true (w_tracker w)) w)
  | BeforeStopEvent =>
      run_step E t pc w =
        (InBody, with_tracker (set_stop_event (Some (run_event t)) (w_tracker w)) w)
  | InBody =>
      fst (run_step E t pc w) = Finished /\
      w_tracker (snd (run_step E t pc w)) = idle_tracker
  | Finished => run_step E t pc w = (Finished, w)
  end.
Proof.
  destruct pc; try reflexivity.
  unfold run_step, bind, ret. destruct t as [args|mods ev].
  - pose proof (task_run_resets E args w) as H.
    destruct (task_run E args w) as [r w']. split; [reflexivity|exact H].
  - pose proof (scheduled_run_resets E mods ev w) as H.
    destruct (scheduled_run E mods ev w) as [r w']. split; [reflexivity|exact H].
Qed.

Lemma stop_step_tracker (h : stop_handler) (w : world) :
  is_running (w_tracker (snd (stop_step h w))) = is_running (w_tracker w) /\
  stop_event (w_tracker (snd (stop_step h w))) = stop_event (w_tracker w).
Proof.
  destruct h as [| |ev|r o]; simpl.
  - destruct (is_running (w_tracker w)) eqn:H; simpl; rewrite ?H; split; reflexivity.
  - destruct (stop_event (w_tracker w)) eqn:H; simpl; rewrite ?H; split; reflexivity.
  - split; reflexivity.
  - split; reflexivity.
Qed.

Lemma server_step_inv (E : env) (s : server) (a : server_action) :
  server_inv s -> server_inv (server_step E s a).
Proof.
  intros (IA & IB & IC).
  assert (Hgrow : forall w' extra,
            w_tracker w' = w_tracker (srv_world s) ->
            server_inv {| srv_world := w'; runs := runs s ++ extra; stops := stops s |}).
  { intros w' extra Ht. unfold server_inv. simpl. rewrite Ht. split; [|split].
    - intros ev Hev. destruct (IA ev Hev) as (i & t & Hn & He).
      exists i, t. split; [|exact He].
      rewrite nth_error_app1; [exact Hn|]. apply nth_error_Some. congruence.
    - intros H1 H2. destruct (IB H1 H2) as (i & t & Hn).
      exists i, t. rewrite nth_error_app1; [exact Hn|]. apply nth_error_Some. congruence.
    - intros j h Hj. eapply handler_ok_later; [apply runs_later_app|]. exact (IC _ _ Hj). }
  destruct a as [req| |i| |j]; simpl.
  - pose proof (trigger_pipeline_tracker E req (srv_world s)) as Ht.
    destruct (trigger_pipeline E req (srv_world s)) as [[resp th] w']. now apply Hgrow.
  - pose proof (scheduled_start_tracker E (srv_world s)) as Ht.
    destruct (scheduled_start E (srv_world s)) as [th w']. simpl in Ht.
    destruct th as [[mods ev]|]; now apply Hgrow.
  - destruct (nth_error (runs s) i) as [[t pc]|] eqn:Hi; [|now repeat split].
    pose proof (run_step_cases E t pc (srv_world s)) as Hc.
    assert (Hother : forall i' t' pc' x,
              nth_error (runs s) i' = Some (t', pc') -> pc' <> pc ->
              nth_error (set_nth i x (runs s)) i' = Some (t', pc')).
    { intros i' t' pc' x Hn Hne. rewrite nth_error_set_nth_other; [exact Hn|].
      intros ->. rewrite Hi in Hn. inversion Hn. congruence. }
    assert (Hlater : forall pc',
              (pc = pc' \/ (pc' <> BeforeIsRunning /\ pc <> Finished /\
                            (pc = InBody -> pc' = Finished))) ->
              runs_later (runs s) (set_nth i (t, pc') (runs s))).
    { intros pc' Hpc i' t' pc0 Hn. destruct (Nat.eq_dec i i') as [<- | Hne].
      - rewrite Hi in Hn. inversion Hn; subst. exists pc'.
        split; [eapply nth_error_set_nth_same; eauto|exact Hpc].
      - exists pc0. split; [|now left]. now rewrite nth_error_set_nth_other. }
    destruct pc.
    + rewrite Hc. unfold server_inv. simpl. split; [|split].
      * intros ev Hev. destruct (IA ev Hev) as (i' & t' & Hn & He).
        exists i', t'. split; [|exact He]. apply Hother; [exact Hn|discriminate].
      * intros _ _. exists i, t. eapply nth_error_set_nth_same; eauto.
      * intros j h Hj. eapply handler_ok_later; [|exact (IC _ _ Hj)].
        apply Hlater. right. repeat split; discriminate.
    + rewrite Hc. unfold server_inv. simpl. split; [|split].
      * intros ev Hev. inversion Hev; subst. exists i, t.
        split; [eapply nth_error_set_nth_same; eauto|reflexivity].
      * discriminate.
      * intros j h Hj. eapply handler_ok_later; [|exact (IC _ _ Hj)].
        apply Hlater. right. repeat split; discriminate.
    + destruct Hc as [Hpc Htr].
      destruct (run_step E t InBody (srv_world s)) as [pc' w']. simpl in Hpc, Htr. subst pc'.
      unfold server_inv. simpl. rewrite Htr. simpl. split; [discriminate|].
      split; [discriminate|].
      intros j h Hj. eapply handler_ok_later; [|exact (IC _ _ Hj)].
      apply Hlater. right. repeat split; auto; discriminate.
    + rewrite Hc. unfold server_inv. simpl. split; [|split].
      * intros ev Hev. destruct (IA ev Hev) as (i' & t' & Hn & He).
        exists i', t'. split; [|exact He]. apply Hother; [exact Hn|discriminate].
      * intros H1 H2. destruct (IB H1 H2) as (i' & t' & Hn).
        exists i', t'. apply Hother; [exact Hn|discriminate].
      * intros j h Hj. eapply handler_ok_later; [|exact (IC _ _ Hj)].
        apply Hlater. now left.
  - unfold server_inv. simpl. split; [exact IA|]. split; [exact IB|].
    intros j h Hj. destruct (Nat.lt_ge_cases j (List.length (stops s))) as [Hlt|Hge].
    + rewrite nth_error_app1 in Hj by exact Hlt. exact (IC _ _ Hj).
    + rewrite nth_error_app2 in Hj by exact Hge.
      destruct (j - List.length (stops s)) as [|[|k]]; simpl in Hj; inversion Hj.
      exact I.
  - destruct (nth_error (stops s) j) as [h|] eqn:Hj; [|now repeat split].
    pose proof (stop_step_tracker h (srv_world s)) as [Hr He].
    pose proof (IC j h Hj) as Hok.
    assert (Hok' : handler_ok (runs s) (fst (stop_step h (srv_world s)))).
    { destruct h as [| |ev|r o]; simpl.
      - destruct (is_running (w_tracker (srv_world s))); simpl; auto.
      - destruct (stop_event (w_tracker (srv_world s))) as [ev|] eqn:Hev; simpl; auto.
        destruct (IA ev eq_refl) as (i & t & Hn & Het). exists i, t, InBody. auto.
      - split; [reflexivity|exact Hok].
      - exact Hok. }
    destruct (stop_step h (srv_world s)) as [h' w']. simpl in Hr, He, Hok'.
    unfold server_inv. simpl. rewrite Hr, He. split; [exact IA|]. split; [exact IB|].
    intros j' h0 Hj'. destruct (Nat.eq_dec j j') as [<- | Hne].
    + rewrite (nth_error_set_nth_same _ _ _ Hj) in Hj'. inversion Hj'; subst. exact Hok'.
    + rewrite nth_error_set_nth_other in Hj' by exact Hne. exact (IC _ _ Hj').
Qed.

Lemma server_run_inv (E : env) (actions : list server_action) :
  forall s, server_inv s -> server_inv (server_run E s actions).
Proof.
  induction actions as [|a rest IH]; intros s Hs; [exact Hs|].
  simpl. apply IH. now apply server_step_inv.
Qed.

Lemma initial_server_inv : server_inv initial_server.
Proof.
  split; [discriminate|]. split; [discriminate|]. intros [|j] h H; discriminate.
Qed.

Lemma nth_error_last {A} (l : list A) (a : A) : nth_error (l ++ [a]) (List.length l) = Some a.
Proof. rewrite nth_error_app2 by lia. now rewrite Nat.sub_diag. Qed.

Lemma server_step_stop (E : env) (s : server) (j : nat) (h : stop_handler) :
  nth_error (stops s) j = Some h ->
  server_step E s (StopStep j) =
    {| srv_world := snd (stop_step h (srv_world s)); runs := runs s;
       stops := set_nth j (fst (stop_step h (srv_world s))) (stops s) |}.
Proof.
  intros H. simpl. rewrite H. now destruct (stop_step h (srv_world s)).
Qed.

Lemma server_step_run (E : env) (s : server) (i : nat) (t : run_thread) (pc : run_pc) :
  nth_error (runs s) i = Some (t, pc) ->
  server_step E s (RunStep i) =
    {| srv_world := snd (run_step E t pc (srv_world s));
       runs := set_nth i (t, fst (run_step E t pc (srv_world s))) (runs s);
       stops := stops s |}.
Proof.
  intros H. simpl. rewrite H. now destruct (run_step E t pc (srv_world s)).
Qed.

(** a stop request that arrives while the tracker says a run is active,
    and whose second read comes after the run has ended, is answered 500 *)
Lemma stop_overtaken (E : env) (s : server) (i : nat) (t : run_thread) :
  nth_error (runs s) i = Some (t, InBody) ->
  is_running (w_tracker (srv_world s)) = true ->
  exists r,
    nth_error
      (stops (server_run E s
                [StopRequest; StopStep (List.length (stops s)); RunStep i;
                 StopStep (List.length (stops s))]))
      (List.length (stops s)) = Some (Replied r None) /\
    code r = 500.
Proof.
  intros Hi Hr. set (n := List.length (stops s)).
  unfold server_run. cbn [fold_left].
  set (s1 := server_step E s StopRequest).
  assert (H1 : nth_error (stops s1) n = Some AtCheck) by apply nth_error_last.
  rewrite (server_step_stop E s1 n H1).
  assert (Hc : stop_step AtCheck (srv_world s1) = (AtRead, srv_world s)).
  { simpl. now rewrite Hr. }
  rewrite Hc. cbn [fst snd].
  set (s2 := {| srv_world := srv_world s; runs := runs s1;
                stops := set_nth n AtRead (stops s1) |}).
  rewrite (server_step_run E s2 i (t := t) (pc := InBody)) by exact Hi.
  destruct (run_step_cases E t InBody (srv_world s2)) as [_ Htr].
  set (s3 := {| srv_world := snd (run_step E t InBody (srv_world s2));
                runs := _; stops := stops s2 |}).
  assert (H3 : nth_error (stops s3) n = Some AtRead).
  { simpl. eapply nth_error_set_nth_same. exact H1. }
  rewrite (server_step_stop E s3 n H3).
  eexists. split.
  - cbn [stops]. erewrite nth_error_set_nth_same by exact H3.
    simpl srv_world. simpl in Htr. unfold stop_step. rewrite Htr. simpl. reflexivity.
  - reflexivity.
Qed.

(** a stop request handled while a run thread is between lines 224 and 225
    is answered 500 *)
Lemma stop_between_lines (E : env) (s : server) (i : nat) (t : run_thread) :
  nth_error (runs s) i = Some (t, BeforeIsRunning) ->
  stop_event (w_tracker (srv_world s)) = None ->
  exists r,
    nth_error
      (stops (server_run E s
                [RunStep i; StopRequest; StopStep (List.length (stops s));
                 StopStep (List.length (stops s))]))
      (List.length (stops s)) = Some (Replied r None) /\
    code r = 500.
Proof.
  intros Hi He. set (n := List.length (stops s)).
  unfold server_run. cbn [fold_left].
  rewrite (server_step_run E s i (t := t) (pc := BeforeIsRunning)) by exact Hi.
  cbn [run_step]. unfold bind, update_tracker, modify, ret. cbn [fst snd].
  set (s1 := {| srv_world := with_tracker _ (srv_world s); runs := _; stops := stops s |}).
  set (s2 := server_step E s1 StopRequest).
  assert (H2 : nth_error (stops s2) n = Some AtCheck) by apply nth_error_last.
  rewrite (server_step_stop E s2 n H2).
  assert (Hc : stop_step AtCheck (srv_world s2) = (AtRead, srv_world s1)) by reflexivity.
  rewrite Hc. cbn [fst snd].
  set (s3 := {| srv_world := srv_world s1; runs := runs s2;
                stops := set_nth n AtRead (stops s2) |}).
  assert (H3 : nth_error (stops s3) n = Some AtRead).
  { simpl. eapply nth_error_set_nth_same. exact H2. }
  rewrite (server_step_stop E s3 n H3).
  eexists. split.
  - cbn [stops]. erewrite nth_error_set_nth_same by exact H3.
    simpl. rewrite He. reflexivity.
  - reflexivity.
Qed.

(** a stop request whose write comes after the run has ended is answered
    202 and leaves its status on the idle tracker *)
Lemma stop_after_the_end (E : env) (s : server) (i : nat) (t : run_thread) (ev : nat) :
  nth_error (runs s) i = Some (t, InBody) ->
  is_running (w_tracker (srv_world s)) = true ->
  stop_event (w_tracker (srv_world s)) = Some ev ->
  exists r,
    nth_error
      (stops (server_run E s
                [StopRequest; StopStep (List.length (stops s));
                 StopStep (List.length (stops s)); RunStep i;
                 StopStep (List.length (stops s))]))
      (List.length (stops s)) = Some (Replied r (Some ev)) /\
    code r = 202 /\
    w_tracker
      (srv_world (server_run E s
                    [StopRequest; StopStep (List.length (stops s));
                     StopStep (List.length (stops s)); RunStep i;
                     StopStep (List.length (stops s))])) =
      set_status "Stopping..." idle_tracker.
Proof.
  intros Hi Hr He. set (n := List.length (stops s)).
  unfold server_run. cbn [fold_left].
  set (s1 := server_step E s StopRequest).
  assert (H1 : nth_error (stops s1) n = Some AtCheck) by apply nth_error_last.
  rewrite (server_step_stop E s1 n H1).
  assert (Hc : stop_step AtCheck (srv_world s1) = (AtRead, srv_world s)).
  { simpl. now rewrite Hr. }
  rewrite Hc. cbn [fst snd].
  set (s2 := {| srv_world := srv_world s; runs := runs s1;
                stops := set_nth n AtRead (stops s1) |}).
  assert (H2 : nth_error (stops s2) n = Some AtRead).
  { simpl. eapply nth_error_set_nth_same. exact H1. }
  rewrite (server_step_stop E s2 n H2).
  assert (Hc2 : stop_step AtRead (srv_world s2) = (AtWrite ev, srv_world s)).
  { simpl. now rewrite He. }
  rewrite Hc2. cbn [fst snd].
  set (s3 := {| srv_world := srv_world s; runs := runs s2;
                stops := set_nth n (AtWrite ev) (stops s2) |}).
  assert (H3 : nth_error (stops s3) n = Some (AtWrite ev)).
  { simpl. eapply nth_error_set_nth_same. exact H2. }
  rewrite (server_step_run E s3 i (t := t) (pc := InBody)) by exact Hi.
  destruct (run_step_cases E t InBody (srv_world s3)) as [_ Htr].
  set (s4 := {| srv_world := snd (run_step E t InBody (srv_world s3));
                runs := _; stops := stops s3 |}).
  assert (H4 : nth_error (stops s4) n = Some (AtWrite ev)) by exact H3.
  rewrite (server_step_stop E s4 n H4).
  eexists. split; [|split].
  - cbn [stops]. erewrite nth_error_set_nth_same by exact H4. reflexivity.
  - reflexivity.
  - simpl. simpl in Htr. rewrite Htr. reflexivity.
Qed.

(** X15.  The stop request against the run threads, statement by
    statement, in every state the server reaches from start-up.  A reply is
    404, 500 or 202, and only 202 comes with an event, which is then the
    event of a run thread that had executed line 225 (480).  The read of line
    184 finds the event of a run thread that is at its [try] statement, or
    finds none and the handler answers 500; then the tracker has been reset
    since line 175, or a run thread is between lines 224 and 225.  A handler
    that is not interrupted answers 404 exactly when the tracker says no run
    is active, and changes nothing; otherwise it answers 202 and its only
    write is the status ["Stopping..."], or it answers 500 and a run thread
    is between lines 224 and 225.  The answer 500 does occur: when the run
    ends between the two reads, and when the request is handled between
    lines 224 and 225.  And a handler whose write comes after the end of the
    run answers 202 and leaves ["Stopping..."] as the status of the idle
    tracker. *)
Theorem stop_request_between_two_reads (E : env) (s : server) :
  reachable E s ->
  (forall j r o,
     nth_error (stops s) j = Some (Replied r o) ->
     (code r = 404 /\ o = None) \/ (code r = 500 /\ o = None) \/
     (code r = 202 /\ exists ev, o = Some ev /\ begun (runs s) ev)) /\
  ((exists ev,
      stop_step AtRead (srv_world s) = (AtWrite ev, srv_world s) /\
      stop_event (w_tracker (srv_world s)) = Some ev /\ in_body (runs s) ev) \/
   (exists r,
      stop_step AtRead (srv_world s) = (Replied r None, srv_world s) /\ code r = 500 /\
      stop_event (w_tracker (srv_world s)) = None /\
      (is_running (w_tracker (srv_world s)) = false \/ between_lines (runs s)))) /\
  (is_running (w_tracker (srv_world s)) = false ->
   code (fst (fst (stop_pipeline (srv_world s)))) = 404 /\
   snd (fst (stop_pipeline (srv_world s))) = None /\
   snd (stop_pipeline (srv_world s)) = srv_world s) /\
  (is_running (w_tracker (srv_world s)) = true ->
   (code (fst (fst (stop_pipeline (srv_world s)))) = 202 /\
    (exists ev, snd (fst (stop_pipeline (srv_world s))) = Some ev /\ in_body (runs s) ev) /\
    snd (stop_pipeline (srv_world s)) =
      with_tracker (set_status "Stopping..." (w_tracker (srv_world s))) (srv_world s)) \/
   (code (fst (fst (stop_pipeline (srv_world s)))) = 500 /\
    snd (fst (stop_pipeline (srv_world s))) = None /\
    snd (stop_pipeline (srv_world s)) = srv_world s /\
    between_lines (runs s))) /\
  (forall i t,
     nth_error (runs s) i = Some (t, InBody) ->
     is_running (w_tracker (srv_world s)) = true ->
     exists r,
       nth_error
         (stops (server_run E s
                   [StopRequest; StopStep (List.length (stops s)); RunStep i;
                    StopStep (List.length (stops s))]))
         (List.length (stops s)) = Some (Replied r None) /\
       code r = 500) /\
  (forall i t,
     nth_error (runs s) i = Some (t, BeforeIsRunning) ->
     stop_event (w_tracker (srv_world s)) = None ->
     exists r,
       nth_error
         (stops (server_run E s
                   [RunStep i; StopRequest; StopStep (List.length (stops s));
                    StopStep (List.length (stops s))]))
         (List.length (stops s)) = Some (Replied r None) /\
       code r = 500) /\
  (forall i t ev,
     nth_error (runs s) i = Some (t, InBody) ->
     is_running (w_tracker (srv_world s)) = true ->
     stop_event (w_tracker (srv_world s)) = Some ev ->
     exists r,
       nth_error
         (stops (server_run E s
                   [StopRequest; StopStep (List.length (stops s));
                    StopStep (List.length (stops s)); RunStep i;
                    StopStep (List.length (stops s))]))
         (List.length (stops s)) = Some (Replied r (Some ev)) /\
       code r = 202 /\
       w_tracker
         (srv_world (server_run E s
                       [StopRequest; StopStep (List.length (stops s));
                        StopStep (List.length (stops s)); RunStep i;
                        StopStep (List.length (stops s))])) =
         set_status "Stopping..." idle_tracker).
Proof.
  intros (actions & ->).
  pose proof (server_run_inv E actions initial_server_inv) as (IA & IB & IC).
  set (s := server_run E initial_server actions) in *.
  split; [|split; [|split; [|split; [|split; [|split]]]]].
  - intros j r o Hj. specialize (IC j _ Hj). simpl in IC.
    destruct o as [ev|].
    + right. right. destruct IC as [Hc Hb]. split; [exact Hc|]. exists ev. auto.
    + destruct IC as [Hc|Hc]; [left|right; left]; auto.
  - unfold stop_step.
    destruct (stop_event (w_tracker (srv_world s))) as [ev|] eqn:He.
    + left. exists ev. split; [reflexivity|]. split; [reflexivity|]. now apply IA.
    + right. eexists. split; [reflexivity|]. split; [reflexivity|].
      split; [reflexivity|].
      destruct (is_running (w_tracker (srv_world s))) eqn:Hr; [right|now left].
      now apply IB.
  - intros Hr. unfold stop_pipeline. rewrite Hr. simpl. auto.
  - intros Hr. unfold stop_pipeline. rewrite Hr. cbn [negb].
    destruct (stop_event (w_tracker (srv_world s))) as [ev|] eqn:He.
    + left. split; [reflexivity|]. split; [|reflexivity].
      exists ev. split; [reflexivity|]. now apply IA.
    + right. split; [reflexivity|]. split; [reflexivity|]. split; [reflexivity|].
      now apply IB.
  - intros i t. apply stop_overtaken.
  - intros i t. apply stop_between_lines.
  - intros i t ev. apply stop_after_the_end.
Qed.

(** at the state a trigger request and the first two steps of its thread
    lead to *)
Lemma stop_request_between_two_reads_witness :
  (forall j r o,
     nth_error (stops run_in_body) j = Some (Replied r o) ->
     (code r = 404 /\ o = None) \/ (code r = 500 /\ o = None) \/
     (code r = 202 /\ exists ev, o = Some ev /\ begun (runs run_in_body) ev)) /\
  ((exists ev,
      stop_step AtRead (srv_world run_in_body) = (AtWrite ev, srv_world run_in_body) /\
      stop_event (w_tracker (srv_world run_in_body)) = Some ev /\ in_body (runs run_in_body) ev) \/
   (exists r,
      stop_step AtRead (srv_world run_in_body) = (Replied r None, srv_world run_in_body) /\ code r = 500 /\
      stop_event (w_tracker (srv_world run_in_body)) = None /\
      (is_running (w_tracker (srv_world run_in_body)) = false \/ between_lines (runs run_in_body)))) /\
  (is_running (w_tracker (srv_world run_in_body)) = false ->
   code (fst (fst (stop_pipeline (srv_world run_in_body)))) = 404 /\
   snd (fst (stop_pipeline (srv_world run_in_body))) = None /\
   snd (stop_pipeline (srv_world run_in_body)) = srv_world run_in_body) /\
  (is_running (w_tracker (srv_world run_in_body)) = true ->
   (code (fst (fst (stop_pipeline (srv_world run_in_body)))) = 202 /\
    (exists ev, snd (fst (stop_pipeline (srv_world run_in_body))) = Some ev /\ in_body (runs run_in_body) ev) /\
    snd (stop_pipeline (srv_world run_in_body)) =
      with_tracker (set_status "Stopping..." (w_tracker (srv_world run_in_body))) (srv_world run_in_body)) \/
   (code (fst (fst (stop_pipeline (srv_world run_in_body)))) = 500 /\
    snd (fst (stop_pipeline (srv_world run_in_body))) = None /\
    snd (stop_pipeline (srv_world run_in_body)) = srv_world run_in_body /\
    between_lines (runs run_in_body))) /\
  (forall i t,
     nth_error (runs run_in_body) i = Some (t, InBody) ->
     is_running (w_tracker (srv_world run_in_body)) = true ->
     exists r,
       nth_error
         (stops (server_run alpha_env run_in_body
                   [StopRequest; StopStep (List.length (stops run_in_body)); RunStep i;
                    StopStep (List.length (stops run_in_body))]))
         (List.length (stops run_in_body)) = Some (Replied r None) /\
       code r = 500) /\
  (forall i t,
     nth_error (runs run_in_body) i = Some (t, BeforeIsRunning) ->
     stop_event (w_tracker (srv_world run_in_body)) = None ->
     exists r,
       nth_error
         (stops (server_run alpha_env run_in_body
                   [RunStep i; StopRequest; StopStep (List.length (stops run_in_body));
                    StopStep (List.length (stops run_in_body))]))
         (List.length (stops run_in_body)) = Some (Replied r None) /\
       code r = 500) /\
  (forall i t ev,
     nth_error (runs run_in_body) i = Some (t, InBody) ->
     is_running (w_tracker (srv_world run_in_body)) = true ->
     stop_event (w_tracker (srv_world run_in_body)) = Some ev ->
     exists r,
       nth_error
         (stops (server_run alpha_env run_in_body
                   [StopRequest; StopStep (List.length (stops run_in_body));
                    StopStep (List.length (stops run_in_body)); RunStep i;
                    StopStep (List.length (stops run_in_body))]))
         (List.length (stops run_in_body)) = Some (Replied r (Some ev)) /\
       code r = 202 /\
       w_tracker
         (srv_world (server_run alpha_env run_in_body
                       [StopRequest; StopStep (List.length (stops run_in_body));
                        StopStep (List.length (stops run_in_body)); RunStep i;
                        StopStep (List.length (stops run_in_body))])) =
         set_status "Stopping..." idle_tracker).
Proof.
  refine (@stop_request_between_two_reads alpha_env run_in_body _).
  exists [TriggerRequest request_all; RunStep 0; RunStep 0]. reflexivity.
Defined.

(** three stop requests, computed.  The run ends between the two reads: 500.
    The request is handled between lines 224 and 225: 500.  The run ends
    between the second read and the write: 202, and the idle tracker is left
    with the status of the handler. *)
Example stop_requests_overtaken :
  (let s := server_run alpha_env run_in_body
              [StopRequest; StopStep 0; RunStep 0; StopStep 0] in
   map snd (runs s) = [Finished] /\
   map (fun h => match h with Replied r o => Some (code r, o) | _ => None end) (stops s) =
     [Some (500, None)]) /\
  (let s := server_run alpha_env initial_server
              [TriggerRequest request_all; RunStep 0; StopRequest; StopStep 0; StopStep 0] in
   map snd (runs s) = [BeforeStopEvent] /\
   map (fun h => match h with Replied r o => Some (code r, o) | _ => None end) (stops s) =
     [Some (500, None)]) /\
  (let s := server_run alpha_env run_in_body
              [StopRequest; StopStep 0; StopStep 0; RunStep 0; StopStep 0] in
   map snd (runs s) = [Finished] /\
   map (fun h => match h with Replied r o => Some (code r, o) | _ => None end) (stops s) =
     [Some (202, Some 0)] /\
   is_running (w_tracker (srv_world s)) = false /\
   status (w_tracker (srv_world s)) = "Stopping...").
Proof.
  vm_compute. repeat split.
Qed.

(** ** A stop set before a stage starts *)

Lemma is_set_same_polls (E : env) (ev : nat) (w w' : world) :
  polls w' = polls w -> fst (is_set E ev w') = fst (is_set E ev w).
Proof. intros H. unfold is_set. simpl. now rewrite H. Qed.

(** X11.  When the stop event is already set as a stage starts, the stage
    does no work: acquisition makes no database call, stores nothing and
    returns zero counts; extraction calls the extractor for no article and
    leaves the store as it was. *)
Theorem stop_before_start_does_nothing (E : env) (mods : list scraper) (ev : nat)
  (kwargs : llm_config) (w : world) :
  fst (is_set E ev w) = true ->
  (fst (run_scraping_pipeline E mods ev w) = Ok (scraping_stats 0 0) /\
   w_db (snd (run_scraping_pipeline E mods ev w)) = w_db w /\
   db_calls (snd (run_scraping_pipeline E mods ev w)) = db_calls w) /\
  (w_db (snd (run_analysis_pipeline E ev kwargs w)) = w_db w /\
   new_events w (snd (run_analysis_pipeline E ev kwargs w)) = [EnterAnalysis]).
Proof.
  intros Hset. split.
  - rewrite run_scraping_pipeline_eq. cbv zeta.
    set (w0 := with_tracker _ (log EnterScraping w)).
    assert (H0 : fst (is_set E ev w0) = true)
      by (rewrite <- Hset; now apply is_set_same_polls).
    destruct mods as [|s rest].
    + change (scrape_links E ev [] 0 0 w0) with (@inl nat stats 0, w0).
      cbn [fst snd]. rewrite H0. repeat split.
    + rewrite scrape_links_cons, H0. repeat split.
  - rewrite run_analysis_pipeline_eq.
    destruct (SentimentAnalyzer E kwargs) as [a|e].
    + destruct (fault E (db_calls w)).
      * split; [reflexivity|]. now apply new_events_app.
      * cbv zeta. destruct (get_unanalyzed_articles (w_db w)) as [|x rest].
        -- split; [reflexivity|]. now apply new_events_app.
        -- rewrite analyze_articles_cons.
           match goal with
           | |- context [fst (is_set E ev ?w1)] =>
               assert (H1 : fst (is_set E ev w1) = true)
                 by (rewrite <- Hset; now apply is_set_same_polls)
           end.
           rewrite H1. split; [reflexivity|]. now apply new_events_app.
    + split; [reflexivity|]. now apply new_events_app.
Qed.

Lemma stop_before_start_does_nothing_witness :
  (fst (run_scraping_pipeline stopped_env [alpha] 0 initial_world) = Ok (scraping_stats 0 0) /\
   w_db (snd (run_scraping_pipeline stopped_env [alpha] 0 initial_world)) = w_db initial_world /\
   db_calls (snd (run_scraping_pipeline stopped_env [alpha] 0 initial_world)) =
     db_calls initial_world) /\
  (w_db (snd (run_analysis_pipeline stopped_env 0 default_llm_config two_articles)) =
     w_db two_articles /\
   new_events two_articles
     (snd (run_analysis_pipeline stopped_env 0 default_llm_config two_articles)) =
     [EnterAnalysis]).
Proof.
  split.
  - exact (proj1 (@stop_before_start_does_nothing stopped_env [alpha] 0 default_llm_config
                    initial_world eq_refl)).
  - exact (proj2 (@stop_before_start_does_nothing stopped_env [alpha] 0 default_llm_config
                    two_articles eq_refl)).
Defined.

(** ** An extractor that cannot be constructed *)

(** X12.  When the extractor cannot be constructed (no API key, unknown
    provider), the run is not failed.  Take a run body without a stop
    request in which acquisition returned its counts and the store accepts
    the summary.  The extraction stage returns a count of zero and leaves
    ["Error: ..."] with the description of the exception in the tracker; the
    run body ends normally; the summary it records is ["Completed"] with the
    two counts acquisition returned, which are the number of link rows
    acquisition added and a bound on the number of article rows it added,
    and with zero entities; links and articles are as acquisition left them,
    no sentiment and no usage log is written, no article is handed to an
    extractor; and the tracker is idle afterwards, so that the error status
    is gone. *)
Theorem extractor_failure_is_swallowed (E : env) (args : thread_args) (w w1 : world)
  (s1 : stats) (e : exn) :
  SentimentAnalyzer E (th_llm_config args) = Raise e ->
  stop_at E (th_stop_event args) = None ->
  run_scraping_pipeline E (scraper_mods args) (th_stop_event args) w = (Ok s1, w1) ->
  fault E (db_calls w1) = None ->
  fst (task_run E args w) = Ok tt /\
  (exists n1 n2,
     s1 = scraping_stats n1 n2 /\
     List.length (links (w_db w1)) = List.length (links (w_db w)) + n1 /\
     List.length (articles (w_db w1)) <= List.length (articles (w_db w)) + n2 /\
     pipeline_runs (w_db (snd (task_run E args w))) =
       pipeline_runs (w_db w) ++
       [{| new_links_found := n1; articles_scraped := n2; entities_analyzed := 0;
           run_status := "Completed" |}]) /\
  links (w_db (snd (task_run E args w))) = links (w_db w1) /\
  articles (w_db (snd (task_run E args w))) = articles (w_db w1) /\
  sentiments (w_db (snd (task_run E args w))) = sentiments (w_db w) /\
  usage_logs (w_db (snd (task_run E args w))) = usage_logs (w_db w) /\
  (forall id, ~ In (Analyze id) (new_events w (snd (task_run E args w)))) /\
  fst (extraction_step E args w1) = Ok (analysis_stats 0) /\
  status (w_tracker (snd (extraction_step E args w1))) = ("Error: " ++ str e)%string /\
  w_tracker (snd (task_run E args w)) = idle_tracker.
Proof.
  intros Hsa Hs H1 Hf.
  pose proof (run_scraping_pipeline_counts E (scraper_mods args) (th_stop_event args) w) as Hc.
  pose proof (run_scraping_pipeline_footprint E (scraper_mods args) (th_stop_event args) w)
    as (_ & _ & Hsent & Hlogs & _).
  destruct (run_scraping_pipeline_frame E (scraper_mods args) (th_stop_event args) w)
    as (Hruns & _ & _ & _ & evs & Htr & Hevs).
  rewrite H1 in Hc, Hsent, Hlogs, Hruns, Htr. cbn [fst snd] in *.
  destruct Hc as (n1 & n2 & -> & Hl & Ha).
  assert (Hstep : extraction_step E args w1 =
            (Ok (analysis_stats 0),
             with_tracker (set_status ("Error: " ++ str e) (w_tracker (tick_poll w1)))
               (log EnterAnalysis (tick_poll w1)))).
  { unfold extraction_step. rewrite (@is_set_never E _ w1 Hs).
    now rewrite run_analysis_pipeline_eq, Hsa. }
  assert (Hrun : task_run E args w =
            (Ok tt,
             with_tracker idle_tracker
               (with_db
                  (add_pipeline_run
                     (merge (merge (scraping_stats n1 n2) (analysis_stats 0))
                        (status_stats "Completed")) (w_db w1))
                  (tick_db (tick_poll
                     (with_tracker
                        (set_status ("Error: " ++ str e) (w_tracker (tick_poll w1)))
                        (log EnterAnalysis (tick_poll w1)))))))).
  { rewrite task_run_eq, task_body_eq, H1, Hstep.
    match goal with
    | |- context [is_set E (th_stop_event args) ?w2] =>
        rewrite (@is_set_never E _ w2 Hs)
    end.
    rewrite db_write_ok by exact Hf. reflexivity. }
  rewrite Hrun, Hstep. cbn [fst snd].
  split; [reflexivity|]. split.
  { exists n1, n2. split; [reflexivity|]. split; [exact Hl|]. split; [exact Ha|].
    simpl. rewrite Hruns. reflexivity. }
  split; [reflexivity|]. split; [reflexivity|].
  split; [exact Hsent|]. split; [exact Hlogs|].
  split; [|split; [reflexivity|split; reflexivity]].
  intros id Hin.
  rewrite (@new_events_app w _ (evs ++ [EnterAnalysis])) in Hin
    by (simpl; rewrite Htr, <- app_assoc; reflexivity).
  apply in_app_or in Hin. destruct Hin as [Hin|[Hin|[]]]; [|discriminate].
  rewrite Forall_forall in Hevs. specialize (Hevs _ Hin). discriminate.
Qed.

Lemma extractor_failure_is_swallowed_witness :
  fst (task_run alpha_env alpha_args initial_world) = Ok tt /\
  (exists n1 n2,
     scraping_stats 1 1 = scraping_stats n1 n2 /\
     List.length (links (w_db (snd (run_scraping_pipeline alpha_env [alpha] 0 initial_world))))
       = List.length (links (w_db initial_world)) + n1 /\
     List.length
       (articles (w_db (snd (run_scraping_pipeline alpha_env [alpha] 0 initial_world))))
       <= List.length (articles (w_db initial_world)) + n2 /\
     pipeline_runs (w_db (snd (task_run alpha_env alpha_args initial_world))) =
       pipeline_runs (w_db initial_world) ++
       [{| new_links_found := n1; articles_scraped := n2; entities_analyzed := 0;
           run_status := "Completed" |}]) /\
  links (w_db (snd (task_run alpha_env alpha_args initial_world))) =
    links (w_db (snd (run_scraping_pipeline alpha_env [alpha] 0 initial_world))) /\
  articles (w_db (snd (task_run alpha_env alpha_args initial_world))) =
    articles (w_db (snd (run_scraping_pipeline alpha_env [alpha] 0 initial_world))) /\
  sentiments (w_db (snd (task_run alpha_env alpha_args initial_world))) =
    sentiments (w_db initial_world) /\
  usage_logs (w_db (snd (task_run alpha_env alpha_args initial_world))) =
    usage_logs (w_db initial_world) /\
  (forall id,
     ~ In (Analyze id)
          (new_events initial_world (snd (task_run alpha_env alpha_args initial_world)))) /\
  fst (extraction_step alpha_env alpha_args
         (snd (run_scraping_pipeline alpha_env [alpha] 0 initial_world))) =
    Ok (analysis_stats 0) /\
  status (w_tracker
            (snd (extraction_step alpha_env alpha_args
                    (snd (run_scraping_pipeline alpha_env [alpha] 0 initial_world))))) =
    ("Error: " ++ str (PyException "OpenAI API key not found."))%string /\
  w_tracker (snd (task_run alpha_env alpha_args initial_world)) = idle_tracker.
Proof.
  refine (@extractor_failure_is_swallowed alpha_env alpha_args initial_world
            (snd (run_scraping_pipeline alpha_env [alpha] 0 initial_world))
            (scraping_stats 1 1) (PyException "OpenAI API key not found.") _ _ _ _).
  - reflexivity.
  - reflexivity.
  - vm_compute. reflexivity.
  - vm_compute. reflexivity.
Defined.

(** ** The command-line run *)

Lemma discover_scrapers_db (E : env) (w : world) :
  w_db (snd (discover_scrapers E w)) = w_db w /\
  trace (snd (discover_scrapers E w)) = trace w.
Proof.
  unfold discover_scrapers. destruct (Dict.truthy (w_scraper_cache w)); [split; reflexivity|].
  destruct (listdir E (scans w)); [|split; reflexivity].
  destruct (scan _ _); split; reflexivity.
Qed.

Lemma get_scraper_modules_db (E : env) (names : option (list string)) (w : world) :
  w_db (snd (get_scraper_modules E names w)) = w_db w /\
  trace (snd (get_scraper_modules E names w)) = trace w.
Proof.
  unfold get_scraper_modules, bindM, bind.
  pose proof (discover_scrapers_db E w) as H.
  destruct (discover_scrapers E w) as [[reg|e] w1]; simpl in H; [|exact H].
  destruct names; exact H.
Qed.

(** X16.  The command-line run never records a run: whatever happens, the
    run log is left as it was.  On a store that does not fail, when discovery
    returns at least one scraper, it returns normally and has entered both
    stages, acquisition first. *)
Theorem main_records_no_run (E : env) (w : world) :
  pipeline_runs (w_db (snd (main E w))) = pipeline_runs (w_db w) /\
  ((forall k, fault E k = None) ->
   forall m ms, fst (get_scraper_modules E None (tick_db w)) = Ok (m :: ms) ->
     fst (main E w) = Ok tt /\
     exists evs, new_events w (snd (main E w)) = EnterScraping :: evs /\
                 In EnterAnalysis evs).
Proof.
  unfold main, bindM, bind. split.
  - destruct (db_write_cases E (fun d => d) w) as [(msg & H)|H]; rewrite H; [reflexivity|].
    pose proof (get_scraper_modules_db E None (with_db (w_db w) (tick_db w))) as [Hd _].
    destruct (get_scraper_modules E None _) as [[mods|e] w1]; simpl in Hd;
      [|simpl; rewrite Hd; reflexivity].
    destruct mods as [|m ms]; [simpl; rewrite Hd; reflexivity|].
    unfold new_event.
    set (w2 := tick_event w1). set (ev := events_made w1).
    destruct (run_scraping_pipeline_frame E (m :: ms) ev w2) as (Hr1 & _).
    destruct (run_scraping_pipeline E (m :: ms) ev w2) as [[s1|e1] w3]; simpl in Hr1;
      [|simpl; rewrite Hr1, Hd; reflexivity].
    destruct (run_analysis_pipeline_frame E ev default_llm_config w3) as (Hr2 & _).
    destruct (run_analysis_pipeline E ev default_llm_config w3) as [[s2|e2] w4];
      simpl in Hr2; simpl; rewrite Hr2, Hr1, Hd; reflexivity.
  - intros Hf m ms Hg.
    rewrite db_write_ok by apply Hf.
    change (with_db (w_db w) (tick_db w)) with (tick_db w).
    pose proof (get_scraper_modules_db E None (tick_db w)) as [_ Ht].
    destruct (get_scraper_modules E None (tick_db w)) as [r w1]. simpl in Hg, Ht. subst r.
    unfold new_event.
    set (w2 := tick_event w1). set (ev := events_made w1).
    destruct (@run_scraping_pipeline_healthy E (m :: ms) ev w2 Hf) as (s1 & Hs1).
    assert (Htr1 : exists evs1, trace (snd (run_scraping_pipeline E (m :: ms) ev w2)) =
                                trace w ++ EnterScraping :: evs1).
    { rewrite run_scraping_pipeline_eq. cbv zeta.
      set (w0 := with_tracker _ (log EnterScraping w2)).
      assert (H0 : trace w0 = trace w ++ [EnterScraping])
        by (unfold w0, w2; simpl; now rewrite Ht).
      destruct (@respects_scrape_links E
                  (fun a b => exists evs, trace b = trace a ++ evs)) with
        (ev := ev) (mods := m :: ms) (i := 0) (n := 0) (w := w0) as (evs & Hevs).
      { intros a. exists []. now rewrite app_nil_r. }
      { intros a b c (x & Hx) (y & Hy). exists (x ++ y). now rewrite Hy, Hx, app_assoc. }
      { intros t a. exists []. now rewrite app_nil_r. }
      { intros a. exists []. now rewrite app_nil_r. }
      { intros a. exists []. now rewrite app_nil_r. }
      { intros url source a. exists []. now rewrite app_nil_r. }
      set (wl := snd (scrape_links E ev (m :: ms) 0 0 w0)) in *.
      assert (Hwl : trace wl = trace w ++ EnterScraping :: evs).
      { rewrite Hevs, H0, <- app_assoc. reflexivity. }
      destruct (fst (scrape_links E ev (m :: ms) 0 0 w0)); [|exists evs; exact Hwl].
      destruct (fst (is_set E ev wl)); [exists evs; exact Hwl|].
      rewrite (Hf (db_calls wl)).
      destruct (get_unscraped_links (w_db wl)) as [|l ls]; [exists evs; exact Hwl|].
      cbn [snd].
      match goal with
      | |- context [scrape_articles E ev ?sm ?p 0 0 ?w5] =>
          destruct (@respects_scrape_articles E
                      (fun a b => exists evs, trace b = trace a ++ evs)) with
            (ev := ev) (smap := sm) (todo := p) (i := 0) (n := 0) (w := w5) as (evs2 & Hevs2)
      end.
      { intros a. exists []. now rewrite app_nil_r. }
      { intros a b c (x & Hx) (y & Hy). exists (x ++ y). now rewrite Hy, Hx, app_assoc. }
      { intros t a. exists []. now rewrite app_nil_r. }
      { intros a. exists []. now rewrite app_nil_r. }
      { intros a. exists []. now rewrite app_nil_r. }
      { intros id data a. exists []. now rewrite app_nil_r. }
      exists (evs ++ evs2). rewrite Hevs2. cbn [trace with_tracker tick_db tick_poll].
      rewrite Hwl, <- app_assoc. reflexivity. }
    destruct Htr1 as (evs1 & Htr1).
    destruct (run_scraping_pipeline E (m :: ms) ev w2) as [r1 w3]. simpl in Hs1, Htr1.
    subst r1.
    destruct (@run_analysis_pipeline_healthy E ev default_llm_config w3 (Hf _)) as (c & Hc).
    destruct (run_analysis_pipeline_frame E ev default_llm_config w3)
      as (_ & _ & _ & _ & evs2 & Htr2 & _).
    assert (Hin : In EnterAnalysis evs2).
    { rewrite run_analysis_pipeline_eq in Htr2.
      assert (Hpre : forall w', (exists evs, trace w' = trace (log EnterAnalysis w3) ++ evs) ->
                trace w' = trace w3 ++ evs2 -> In EnterAnalysis evs2).
      { intros w' (evs & He) He2. simpl in He. rewrite <- app_assoc in He.
        rewrite He in He2. apply app_inv_head in He2. subst evs2. now left. }
      destruct (SentimentAnalyzer E default_llm_config) as [a|e].
      - rewrite (Hf (db_calls w3)) in Htr2. cbv zeta in Htr2.
        destruct (get_unanalyzed_articles (w_db w3)) as [|x rest].
        + eapply Hpre; [|exact Htr2]. exists []. now rewrite app_nil_r.
        + eapply Hpre; [|exact Htr2]. cbn [snd].
          match goal with
          | |- context [analyze_articles E ev a ?its 0 0 ?w5] =>
              destruct (@respects_analyze_articles E
                          (fun a b => exists evs, trace b = trace a ++ evs)
                          (fun _ => True)) with
                (ev := ev) (a := a) (items := its) (i := 0) (n := 0) (w := w5)
                as (evs3 & Hevs3)
          end.
          { intros a0. exists []. now rewrite app_nil_r. }
          { intros a0 b0 c0 (x0 & Hx) (y0 & Hy). exists (x0 ++ y0).
            now rewrite Hy, Hx, app_assoc. }
          { intros t a0. exists []. now rewrite app_nil_r. }
          { intros a0. exists []. now rewrite app_nil_r. }
          { intros a0. exists []. now rewrite app_nil_r. }
          { intros e0 a0 _. exists [e0]. reflexivity. }
          { intros row a0. exists []. now rewrite app_nil_r. }
          { intros id p u a0. exists []. now rewrite app_nil_r. }
          { intros id a0. exists []. now rewrite app_nil_r. }
          { intros; exact I. }
          { intros; exact I. }
          exists evs3. exact Hevs3.
      - eapply Hpre; [|exact Htr2]. exists []. now rewrite app_nil_r. }
    destruct (run_analysis_pipeline E ev default_llm_config w3) as [r2 w4].
    simpl in Hc, Htr2. subst r2. split; [reflexivity|].
    exists (evs1 ++ evs2). split.
    + apply new_events_app. simpl. rewrite Htr2, Htr1, <- app_assoc. reflexivity.
    + apply in_or_app. now right.
Qed.

Lemma main_records_no_run_witness :
  fst (main alpha_env initial_world) = Ok tt /\
  exists evs, new_events initial_world (snd (main alpha_env initial_world)) =
                EnterScraping :: evs /\
              In EnterAnalysis evs.
Proof.
  exact (proj2 (@main_records_no_run alpha_env initial_world) (fun _ => eq_refl)
           alpha [] eq_refl).
Defined.

(** ** The extractor class *)

Lemma init_usable (L : llm_env) (kwargs : llm_config) (s : SentimentAnalyzerClass.self) :
  SentimentAnalyzerClass.init L kwargs = Ok s ->
  usable s /\
  SentimentAnalyzerClass.self_openai_api_key s =
    SentimentAnalyzerClass.or_ (cfg_openai_api_key kwargs) (getenv L "OPENAI_API_KEY") /\
  SentimentAnalyzerClass.self_groq_api_key s =
    SentimentAnalyzerClass.or_ (cfg_groq_api_key kwargs) (getenv L "GROQ_API_KEY").
Proof.
  unfold SentimentAnalyzerClass.init, SentimentAnalyzerClass._initialize_chain, usable.
  set (p := get_default _ SentimentAnalyzerClass.DEFAULT_LLM_PROVIDER).
  set (k1 := SentimentAnalyzerClass.or_ (cfg_openai_api_key kwargs) _).
  set (k2 := SentimentAnalyzerClass.or_ (cfg_groq_api_key kwargs) _).
  destruct (String.eqb p "openai") eqn:Hp1.
  - apply String.eqb_eq in Hp1.
    destruct (SentimentAnalyzerClass.truthy_str k1) eqn:Hk; simpl; [|discriminate].
    destruct (make_chain L p _ _); [|discriminate].
    intros [= <-]. simpl. split; [left; split; assumption|split; reflexivity].
  - destruct (String.eqb p "groq") eqn:Hp2; [|discriminate].
    apply String.eqb_eq in Hp2.
    destruct (SentimentAnalyzerClass.truthy_str k2) eqn:Hk; simpl; [|discriminate].
    destruct (make_chain L p _ _); [|discriminate].
    intros [= <-]. simpl. split; [right; split; assumption|split; reflexivity].
Qed.

(** the three passes of the loop, for a supported provider *)
Lemma analyze_text_passes (s : SentimentAnalyzerClass.self) (text : string) :
  usable s ->
  SentimentAnalyzerClass.analyze_text_for_sentiment s text =
    match SentimentAnalyzerClass.self_chain s text 0 with
    | Answered e u => (e, Some u)
    | ValidationError _ =>
        match SentimentAnalyzerClass.self_chain s text 1 with
        | Answered e u => (e, Some u)
        | ValidationError _ =>
            match SentimentAnalyzerClass.self_chain s text 2 with
            | Answered e u => (e, Some u)
            | _ => ([], None)
            end
        | OtherException _ => ([], None)
        end
    | OtherException _ => ([], None)
    end.
Proof.
  intros Hu.
  assert (Hb : String.eqb (SentimentAnalyzerClass.self_provider s) "openai" ||
               String.eqb (SentimentAnalyzerClass.self_provider s) "groq" = true).
  { destruct Hu as [[-> _]|[-> _]]; reflexivity. }
  unfold SentimentAnalyzerClass.analyze_text_for_sentiment, SentimentAnalyzerClass.attempts,
    SentimentAnalyzerClass.MAX_RETRIES.
  rewrite Hb. simpl.
  destruct (SentimentAnalyzerClass.self_chain s text 0); try reflexivity;
    destruct (SentimentAnalyzerClass.self_chain s text 1); try reflexivity;
    destruct (SentimentAnalyzerClass.self_chain s text 2); reflexivity.
Qed.

(** X13.  A constructed extractor has one of the two supported providers
    and a non-empty key for it, the key of the request if it gave one, the
    key of the environment otherwise.  Its method returns an answer of the
    model exactly when one of the first three attempts answers and all
    attempts before it failed validation; in every other case (an exception
    that is not a validation error, or three validation errors) it returns
    no entity and no usage. *)
Theorem retry_loop_outcome (L : llm_env) (kwargs : llm_config)
  (s : SentimentAnalyzerClass.self) (text : string) :
  SentimentAnalyzerClass.init L kwargs = Ok s ->
  (usable s /\
   SentimentAnalyzerClass.self_openai_api_key s =
     SentimentAnalyzerClass.or_ (cfg_openai_api_key kwargs) (getenv L "OPENAI_API_KEY") /\
   SentimentAnalyzerClass.self_groq_api_key s =
     SentimentAnalyzerClass.or_ (cfg_groq_api_key kwargs) (getenv L "GROQ_API_KEY")) /\
  (forall entities usage,
     SentimentAnalyzerClass.analyze_text_for_sentiment s text = (entities, Some usage) <->
     exists k,
       k < 3 /\ first_answer (SentimentAnalyzerClass.self_chain s) text k entities usage) /\
  (snd (SentimentAnalyzerClass.analyze_text_for_sentiment s text) = None ->
   SentimentAnalyzerClass.analyze_text_for_sentiment s text = ([], None)).
Proof.
  intros Hinit. pose proof (@init_usable L kwargs s Hinit) as Hp. split; [exact Hp|].
  destruct Hp as (Hu & _). rewrite (analyze_text_passes text Hu).
  set (c := SentimentAnalyzerClass.self_chain s).
  split.
  - intros entities usage. unfold first_answer. split.
    + destruct (c text 0) as [e0 u0|m0|m0] eqn:H0.
      * intros [= <- <-]. exists 0. split; [lia|]. split; [exact H0|]. intros j Hj. lia.
      * destruct (c text 1) as [e1 u1|m1|m1] eqn:H1.
        -- intros [= <- <-]. exists 1. split; [lia|]. split; [exact H1|].
           intros j Hj. assert (j = 0) as -> by lia. now exists m0.
        -- destruct (c text 2) as [e2 u2|m2|m2] eqn:H2; try discriminate.
           intros [= <- <-]. exists 2. split; [lia|]. split; [exact H2|].
           intros j Hj. destruct j as [|[|j]]; [now exists m0|now exists m1|lia].
        -- discriminate.
      * discriminate.
    + intros (k & Hk & Ha & Hbefore).
      assert (k = 0 \/ k = 1 \/ k = 2) as [-> | [-> | ->]] by lia.
      * now rewrite Ha.
      * destruct (Hbefore 0 ltac:(lia)) as (x0 & Hx0). now rewrite Hx0, Ha.
      * destruct (Hbefore 0 ltac:(lia)) as (x0 & Hx0).
        destruct (Hbefore 1 ltac:(lia)) as (x1 & Hx1).
        now rewrite Hx0, Hx1, Ha.
  - destruct (c text 0); [discriminate| |reflexivity].
    destruct (c text 1); [discriminate| |reflexivity].
    destruct (c text 2); [discriminate|reflexivity|reflexivity].
Qed.

Lemma retry_loop_outcome_witness :
  (usable keyed_extractor /\
   SentimentAnalyzerClass.self_openai_api_key keyed_extractor =
     SentimentAnalyzerClass.or_ (cfg_openai_api_key default_llm_config)
       (getenv keyed_llm "OPENAI_API_KEY") /\
   SentimentAnalyzerClass.self_groq_api_key keyed_extractor =
     SentimentAnalyzerClass.or_ (cfg_groq_api_key default_llm_config)
       (getenv keyed_llm "GROQ_API_KEY")) /\
  (forall entities usage,
     SentimentAnalyzerClass.analyze_text_for_sentiment keyed_extractor "text" =
       (entities, Some usage) <->
     exists k,
       k < 3 /\
       first_answer (SentimentAnalyzerClass.self_chain keyed_extractor) "text" k
         entities usage) /\
  (snd (SentimentAnalyzerClass.analyze_text_for_sentiment keyed_extractor "text") = None ->
   SentimentAnalyzerClass.analyze_text_for_sentiment keyed_extractor "text" = ([], None)).
Proof.
  exact (@retry_loop_outcome keyed_llm default_llm_config keyed_extractor "text" eq_refl).
Defined.

(** ** Extraction with the extractor class *)

Lemma analyze_articles_silent (E : env) (ev : nat) (a : analyzer) (items : list todo) :
  (forall text, analyze_text_for_sentiment a text = Ok ([], None)) ->
  forall i n w, fst (analyze_articles E ev a items i n w) = n.
Proof.
  intros Hsilent. induction items as [|x rest IH]; intros i n w; [reflexivity|].
  rewrite analyze_articles_cons. destruct (fst (is_set E ev w)); [reflexivity|].
  cbv zeta. rewrite IH.
  rewrite analyze_article_eq, Hsilent.
  change (add_sentiments E (todo_id x) [] n ?w1) with ((n, @None exn), w1).
  cbn [fst snd].
  match goal with
  | |- context [db_write E ?f ?w1] => destruct (db_write E f w1) as [[|] ?]
  end; reflexivity.
Qed.

(** X14.  Extraction with the extractor class, on a store that does not
    fail and without a stop request: since the method of the class returns
    on every failure of the model, every selected article is marked analyzed
    and nothing is left for a later run to select, whatever the model did.
    When the model never answers, the run still marks every article, counts
    zero entities and writes no sentiment. *)
Theorem model_failure_marks_processed (E : env) (L : llm_env) (ev : nat)
  (kwargs : llm_config) (s : SentimentAnalyzerClass.self) (w : world) :
  SentimentAnalyzer E kwargs = SentimentAnalyzer_class L kwargs ->
  SentimentAnalyzerClass.init L kwargs = Ok s ->
  db_wf (w_db w) ->
  (forall k, fault E k = None) ->
  stop_at E ev = None ->
  (forall x, In x (get_unanalyzed_articles (w_db w)) ->
     analyzed_flag (todo_id x) (w_db (snd (run_analysis_pipeline E ev kwargs w))) = Some true) /\
  selected_ids (w_db (snd (run_analysis_pipeline E ev kwargs w))) = [] /\
  ((forall text k, exists msg, SentimentAnalyzerClass.self_chain s text k = OtherException msg) ->
   fst (run_analysis_pipeline E ev kwargs w) = Ok (analysis_stats 0) /\
   sentiments (w_db (snd (run_analysis_pipeline E ev kwargs w))) = sentiments (w_db w)).
Proof.
  intros Hcls Hinit Hwf Hf Hs.
  assert (Ha : SentimentAnalyzer E kwargs = Ok (analyzer_of s)).
  { rewrite Hcls. unfold SentimentAnalyzer_class. now rewrite Hinit. }
  assert (Hflag : forall x, In x (get_unanalyzed_articles (w_db w)) ->
            analyzed_flag (todo_id x) (w_db (snd (run_analysis_pipeline E ev kwargs w)))
            = Some true).
  { intros x Hx.
    destruct (@run_analysis_pipeline_outcome E ev kwargs (analyzer_of s) w Ha (Hf _) Hwf)
      as (evs & _ & _ & Hout).
    destruct (Hout x Hx) as [(Hstop & _)|[(_ & (e & _ & He) & _)|(_ & _ & _ & Hfl)]].
    - contradiction.
    - specialize (He Hf). discriminate.
    - rewrite Hfl, (@selected_flag_false (w_db w) (todo_id x) Hwf (in_selected_ids _ _ Hx)).
      reflexivity. }
  split; [exact Hflag|]. split.
  - pose proof (run_analysis_pipeline_footprint E ev kwargs w)
      as (_ & _ & _ & _ & Hrows & Hmono & _).
    pose proof (run_analysis_pipeline_later E ev kwargs w) as Hlater.
    set (w' := snd (run_analysis_pipeline E ev kwargs w)) in *.
    assert (Hwf' : db_wf (w_db w')) by (eapply db_later_wf; [exact Hlater|exact Hwf]).
    destruct (selected_ids (w_db w')) as [|id rest] eqn:Hsel; [reflexivity|exfalso].
    assert (Hin : In id (selected_ids (w_db w'))) by (rewrite Hsel; now left).
    pose proof (@selected_flag_false (w_db w') id Hwf' Hin) as Hfalse.
    apply selected_ids_spec in Hin. destruct Hin as (a' & Hin' & Hid & Hun).
    assert (Hin2 : In (set_analyzed a') (map set_analyzed (articles (w_db w))))
      by (rewrite <- Hrows; now apply in_map).
    apply in_map_iff in Hin2. destruct Hin2 as (a0 & Heq & Hin0).
    assert (Hid0 : article_id a0 = id).
    { rewrite <- Hid. change (article_id (set_analyzed a0) = article_id (set_analyzed a')).
      now rewrite Heq. }
    assert (Htxt : cleaned_text a0 = cleaned_text a').
    { change (cleaned_text (set_analyzed a0) = cleaned_text (set_analyzed a')).
      now rewrite Heq. }
    assert (Htrue : analyzed_flag id (w_db w') = Some true).
    { destruct (is_analyzed a0) eqn:Han.
      - apply Hmono. unfold analyzed_flag. rewrite <- Hid0.
        rewrite (@find_unique (articles (w_db w)) a0 (proj1 Hwf) Hin0). simpl.
        now rewrite Han.
      - assert (Hsel0 : In id (selected_ids (w_db w))).
        { apply selected_ids_spec. exists a0. split; [exact Hin0|]. split; [exact Hid0|].
          unfold unanalyzed in *. rewrite Han, Htxt. simpl.
          apply andb_true_iff in Hun. apply Hun. }
        unfold selected_ids in Hsel0. apply in_map_iff in Hsel0.
        destruct Hsel0 as (x & Hx & Hxin). rewrite <- Hx. now apply Hflag. }
    congruence.
  - intros Hdown.
    assert (Hsilent : forall text,
              analyze_text_for_sentiment (analyzer_of s) text = Ok ([], None)).
    { intros text. simpl. f_equal.
      rewrite (analyze_text_passes text (proj1 (@init_usable L kwargs s Hinit))).
      destruct (Hdown text 0) as (msg & ->). reflexivity. }
    pose proof (run_analysis_pipeline_counts E ev kwargs w) as Hc.
    pose proof (run_analysis_pipeline_footprint E ev kwargs w)
      as (_ & _ & _ & _ & _ & _ & (news & Hnews) & _).
    assert (Hres : fst (run_analysis_pipeline E ev kwargs w) = Ok (analysis_stats 0)).
    { rewrite run_analysis_pipeline_eq, Ha, (Hf (db_calls w)). cbv zeta.
      destruct (get_unanalyzed_articles (w_db w)); [reflexivity|].
      cbn [fst]. now rewrite (@analyze_articles_silent E ev (analyzer_of s) _ Hsilent). }
    split; [exact Hres|].
    destruct (run_analysis_pipeline E ev kwargs w) as [r w']. simpl in Hres, Hc, Hnews |- *.
    subst r. destruct Hc as (c & Hc & Hlen). injection Hc as <-.
    rewrite Hnews, length_app in Hlen.
    destruct news; [now rewrite app_nil_r in Hnews|simpl in Hlen; lia].
Qed.

Lemma model_failure_marks_processed_witness :
  (forall x, In x (get_unanalyzed_articles (w_db two_articles)) ->
     analyzed_flag (todo_id x)
       (w_db (snd (run_analysis_pipeline down_env 0 default_llm_config two_articles)))
     = Some true) /\
  selected_ids (w_db (snd (run_analysis_pipeline down_env 0 default_llm_config two_articles)))
    = [] /\
  ((forall text k, exists msg,
      SentimentAnalyzerClass.self_chain keyed_extractor text k = OtherException msg) ->
   fst (run_analysis_pipeline down_env 0 default_llm_config two_articles) =
     Ok (analysis_stats 0) /\
   sentiments (w_db (snd (run_analysis_pipeline down_env 0 default_llm_config two_articles))) =
     sentiments (w_db two_articles)).
Proof.
  exact (@model_failure_marks_processed down_env keyed_llm 0 default_llm_config
           keyed_extractor two_articles eq_refl eq_refl two_articles_wf
           (fun _ => eq_refl) eq_refl).
Defined.

(** ** The run summary against the rows of the run *)

Lemma extraction_step_counts (E : env) (args : thread_args) (w1 : world) :
  match extraction_step E args w1 with
  | (Ok s2, w2) =>
      (s2 = empty_stats \/ exists c, s2 = analysis_stats c) /\
      List.length (sentiments (w_db w2)) =
        List.length (sentiments (w_db w1)) + get_default (st_entities_analyzed s2) 0 /\
      links (w_db w2) = links (w_db w1) /\
      List.length (articles (w_db w2)) = List.length (articles (w_db w1)) /\
      pipeline_runs (w_db w2) = pipeline_runs (w_db w1)
  | (Raise _, _) => True
  end.
Proof.
  unfold extraction_step. destruct (fst (is_set E (th_stop_event args) w1)).
  - split; [now left|]. simpl. repeat split. lia.
  - pose proof (run_analysis_pipeline_counts E (th_stop_event args) (th_llm_config args)
                  (tick_poll w1)) as Hc.
    pose proof (run_analysis_pipeline_footprint E (th_stop_event args) (th_llm_config args)
                  (tick_poll w1)) as (Hl & _ & _ & Hp & Ha & _).
    destruct (run_analysis_pipeline E (th_stop_event args) (th_llm_config args) (tick_poll w1))
      as [[s2|e] w2]; [|exact I].
    simpl in Hc, Hl, Hp, Ha. destruct Hc as (c & -> & Hlen).
    split; [right; now exists c|]. split; [exact Hlen|]. split; [exact Hl|].
    split; [|exact Hp].
    rewrite <- (length_map set_analyzed (articles (w_db w2))), Ha. apply length_map.
Qed.

(** X9.  The summary of a run whose body returns, against what the run
    did to the store: exactly one row is added to the run log; its
    [new_links_found] is the number of rows the run added to [links], its
    [entities_analyzed] the number of rows it added to [sentiments], its
    [articles_scraped] at least the number of rows it added to [articles];
    and its status is ["Completed"] or ["Stopped by user"]. *)
Theorem run_summary_counts_rows (E : env) (args : thread_args) (w : world) :
  fst (task_body E args w) = Ok tt ->
  exists row,
    pipeline_runs (w_db (snd (task_run E args w))) = pipeline_runs (w_db w) ++ [row] /\
    List.length (links (w_db (snd (task_run E args w)))) =
      List.length (links (w_db w)) + new_links_found row /\
    List.length (sentiments (w_db (snd (task_run E args w)))) =
      List.length (sentiments (w_db w)) + entities_analyzed row /\
    List.length (articles (w_db (snd (task_run E args w)))) <=
      List.length (articles (w_db w)) + articles_scraped row /\
    (run_status row = "Completed" \/ run_status row = "Stopped by user").
Proof.
  rewrite task_run_eq, task_body_eq.
  pose proof (run_scraping_pipeline_counts E (scraper_mods args) (th_stop_event args) w) as Hc1.
  pose proof (run_scraping_pipeline_footprint E (scraper_mods args) (th_stop_event args) w)
    as (_ & _ & Hsent & _ & Hruns).
  destruct (run_scraping_pipeline E (scraper_mods args) (th_stop_event args) w)
    as [[s1|e1] w1]; [|discriminate].
  simpl in Hsent, Hruns. destruct Hc1 as (a & b & -> & Hl1 & Ha1).
  pose proof (extraction_step_counts E args w1) as Hc2.
  destruct (extraction_step E args w1) as [[s2|e2] w2]; [|discriminate].
  destruct Hc2 as (Hs2 & Hlen2 & Hl2 & Ha2 & Hr2).
  set (st := if fst (is_set E (th_stop_event args) w2)
             then "Stopped by user" else "Completed").
  destruct (db_write_cases E
              (add_pipeline_run (merge (merge (scraping_stats a b) s2) (status_stats st)))
              (tick_poll w2)) as [(msg & H)|H]; rewrite H; [discriminate|].
  intros _. exists (summary_row (scraping_stats a b) s2 st).
  cbn [snd w_db with_db with_tracker tick_db tick_poll].
  split.
  { rewrite merged_row; [|now exists a, b|exact Hs2]. cbn [w_db tick_poll].
    now rewrite Hr2, Hruns. }
  cbn [add_pipeline_run links sentiments articles summary_row new_links_found
       entities_analyzed articles_scraped run_status scraping_stats
       st_new_links_found st_articles_scraped get_default].
  split; [now rewrite Hl2|]. split; [rewrite Hlen2, Hsent; reflexivity|].
  split; [rewrite Ha2; exact Ha1|].
  unfold st. destruct (fst (is_set E (th_stop_event args) w2)); [now right|now left].
Qed.

Lemma run_summary_counts_rows_witness :
  exists row,
    pipeline_runs (w_db (snd (task_run flaky_env beta_args initial_world))) =
      pipeline_runs (w_db initial_world) ++ [row] /\
    List.length (links (w_db (snd (task_run flaky_env beta_args initial_world)))) =
      List.length (links (w_db initial_world)) + new_links_found row /\
    List.length (sentiments (w_db (snd (task_run flaky_env beta_args initial_world)))) =
      List.length (sentiments (w_db initial_world)) + entities_analyzed row /\
    List.length (articles (w_db (snd (task_run flaky_env beta_args initial_world)))) <=
      List.length (articles (w_db initial_world)) + articles_scraped row /\
    (run_status row = "Completed" \/ run_status row = "Stopped by user").
Proof.
  refine (@run_summary_counts_rows flaky_env beta_args initial_world _).
  vm_compute. reflexivity.
Defined.

(** ** The schedule of the daily run *)

Lemma between_spec (lo hi c : ascii) :
  between lo hi c = true <->
  nat_of_ascii lo <= nat_of_ascii c /\ nat_of_ascii c <= nat_of_ascii hi.
Proof. unfold between. rewrite andb_true_iff, !Nat.leb_le. reflexivity. Qed.

Lemma digit_not_colon (lo hi c : ascii) :
  between lo hi c = true -> nat_of_ascii hi <= 57 -> Ascii.eqb c ":" = false.
Proof.
  intros H Hhi. apply between_spec in H. apply Ascii.eqb_neq. intros ->.
  change (nat_of_ascii ":") with 58 in H. lia.
Qed.

(** the strings the test accepts: two digits, a colon, two digits, and
    possibly a newline; the hour is at most 23 and the minute at most 59 *)
Lemma match_schedule_time_shape (t : string) :
  match_schedule_time t = true ->
  exists h1 h2 m1 m2 rest,
    t = String h1 (String h2 (String ":" (String m1 (String m2 rest)))) /\
    (rest = "" \/ rest = String "010" "") /\
    between "0" "9" h1 = true /\ between "0" "9" h2 = true /\
    between "0" "9" m1 = true /\ between "0" "9" m2 = true /\
    two_digits h1 h2 <= 23 /\ two_digits m1 m2 <= 59.
Proof.
  destruct t as [|h1 [|h2 [|c [|m1 [|m2 rest]]]]]; try discriminate.
  unfold match_schedule_time.
  rewrite !andb_true_iff, !orb_true_iff, !andb_true_iff.
  intros ((((Hh & Hc) & Hm1) & Hm2) & Hrest).
  apply Ascii.eqb_eq in Hc. subst c.
  apply between_spec in Hm1, Hm2.
  change (nat_of_ascii "0") with 48 in *. change (nat_of_ascii "5") with 53 in *.
  change (nat_of_ascii "9") with 57 in *.
  exists h1, h2, m1, m2, rest. split; [reflexivity|].
  split. { destruct Hrest as [H|H]; apply String.eqb_eq in H; auto. }
  assert (Hhour : (48 <= nat_of_ascii h1 <= 57) /\ (48 <= nat_of_ascii h2 <= 57) /\
                  two_digits h1 h2 <= 23).
  { unfold two_digits. destruct Hh as [[H1 H2]|[H1 H2]].
    - apply between_spec in H1, H2.
      change (nat_of_ascii "0") with 48 in *. change (nat_of_ascii "1") with 49 in *.
      change (nat_of_ascii "9") with 57 in *. lia.
    - apply Ascii.eqb_eq in H1. subst h1. apply between_spec in H2.
      change (nat_of_ascii "0") with 48 in *. change (nat_of_ascii "3") with 51 in *.
      change (nat_of_ascii "2") with 50. lia. }
  destruct Hhour as (Hh1 & Hh2 & Hhour).
  repeat split; try (apply between_spec;
                     change (nat_of_ascii "0") with 48; change (nat_of_ascii "9") with 57; lia);
    [exact Hhour|unfold two_digits; lia].
Qed.

Lemma split_schedule_time (h1 h2 m1 m2 : ascii) (rest : string) :
  between "0" "9" h1 = true -> between "0" "9" h2 = true ->
  between "0" "9" m1 = true -> between "0" "9" m2 = true ->
  rest = "" \/ rest = String "010" "" ->
  split (String h1 (String h2 (String ":" (String m1 (String m2 rest))))) =
  [String h1 (String h2 ""); String m1 (String m2 rest)].
Proof.
  intros H1 H2 H3 H4 Hrest. unfold split. simpl.
  rewrite (digit_not_colon _ _ _ H1), (digit_not_colon _ _ _ H2),
          (digit_not_colon _ _ _ H3), (digit_not_colon _ _ _ H4)
    by (change (nat_of_ascii "9") with 57; lia).
  destruct Hrest as [-> | ->]; reflexivity.
Qed.

Section ScheduleProperties.

Variable int : string -> result nat.

(** what is used of Python's [int]: it reads two ASCII digits as the number
    they write in base ten, also when a newline follows them *)
Hypothesis int_two_digits :
  forall a b, between "0" "9" a = true -> between "0" "9" b = true ->
    int (String a (String b "")) = Ok (two_digits a b).
Hypothesis int_two_digits_newline :
  forall a b, between "0" "9" a = true -> between "0" "9" b = true ->
    int (String a (String b (String "010" ""))) = Ok (two_digits a b).

Lemma hour_minute_accepted (t : string) :
  match_schedule_time t = true ->
  exists hour minute,
    hour_minute int t = Ok (hour, minute) /\ hour <= 23 /\ minute <= 59.
Proof.
  intros H. destruct (match_schedule_time_shape _ H)
    as (h1 & h2 & m1 & m2 & rest & -> & Hrest & H1 & H2 & H3 & H4 & Hh & Hm).
  exists (two_digits h1 h2), (two_digits m1 m2).
  split; [|split; assumption].
  unfold hour_minute. rewrite split_schedule_time by assumption.
  rewrite int_two_digits by assumption.
  destruct Hrest as [-> | ->];
    [rewrite int_two_digits by assumption|rewrite int_two_digits_newline by assumption];
    reflexivity.
Qed.

Lemma startup_after_set (t : string) (cfg : Dict.t string) :
  startup_schedule int (set_config_value "schedule_time" t cfg) = hour_minute int t.
Proof.
  unfold startup_schedule, create_app_config, set_config_value, get_config_value.
  rewrite dict_mem_set. simpl. rewrite dict_get_set. reflexivity.
Qed.

(** X17.  Every outcome of a schedule request.  It is refused with 400,
    and nothing changes, exactly when no time is given or the time fails the
    test.  A time that passes the test is two digits, a colon and two digits
    that [int] reads as an hour of at most 23 and a minute of at most 59.  If
    nothing fails the answer is 200, the time is stored as given and the job
    is set to that hour and minute.  If the write to the store fails, nothing
    changes.  If the scheduler fails, the answer is 500 although the time is
    stored already: the job keeps its old trigger until the next start.  In
    both cases where the time is stored, the start-up code reads the same
    hour and minute back from the store. *)
Theorem configure_schedule_outcome (F : sched_env) (new_time : option string)
  (st : sched_state) :
  (code (fst (configure_schedule int F new_time st)) = 400 /\
   snd (configure_schedule int F new_time st) = st /\
   (forall t, new_time = Some t -> match_schedule_time t = false)) \/
  (exists t hour minute,
     new_time = Some t /\ match_schedule_time t = true /\
     hour_minute int t = Ok (hour, minute) /\ hour <= 23 /\ minute <= 59 /\
     ((code (fst (configure_schedule int F new_time st)) = 200 /\
       config_fault F = None /\ reschedule_fault F = None /\
       app_config (snd (configure_schedule int F new_time st)) =
         Dict.set (app_config st) "schedule_time" t /\
       daily_pipeline_job (snd (configure_schedule int F new_time st)) =
         Some (hour, minute) /\
       startup_schedule int (app_config (snd (configure_schedule int F new_time st))) =
         Ok (hour, minute)) \/
      (code (fst (configure_schedule int F new_time st)) = 500 /\
       config_fault F <> None /\
       snd (configure_schedule int F new_time st) = st) \/
      (code (fst (configure_schedule int F new_time st)) = 500 /\
       config_fault F = None /\ reschedule_fault F <> None /\
       app_config (snd (configure_schedule int F new_time st)) =
         Dict.set (app_config st) "schedule_time" t /\
       daily_pipeline_job (snd (configure_schedule int F new_time st)) =
         daily_pipeline_job st /\
       startup_schedule int (app_config (snd (configure_schedule int F new_time st))) =
         Ok (hour, minute)))).
Proof.
  destruct new_time as [t|].
  2:{ left. simpl. repeat split. intros t [=]. }
  destruct (match_schedule_time t) eqn:Hm.
  2:{ left. unfold configure_schedule. rewrite Hm, orb_true_r. simpl.
      repeat split. intros t' [= <-]. exact Hm. }
  right. destruct (hour_minute_accepted _ Hm) as (hour & minute & Hhm & Hh & Hmin).
  exists t, hour, minute.
  split; [reflexivity|]. split; [exact Hm|]. split; [exact Hhm|].
  split; [exact Hh|]. split; [exact Hmin|].
  assert (Hne : String.eqb t "" = false).
  { destruct t; [discriminate|reflexivity]. }
  unfold configure_schedule. rewrite Hne, Hm, Hhm. simpl.
  destruct (config_fault F) as [msg|] eqn:Hcf.
  - right. left. repeat split. discriminate.
  - destruct (reschedule_fault F) as [msg|] eqn:Hrf.
    + right. right. simpl. repeat split; try discriminate.
      rewrite startup_after_set. exact Hhm.
    + left. simpl. repeat split.
      rewrite startup_after_set. exact Hhm.
Qed.

End ScheduleProperties.

Lemma int_of_two_digits_ok (a b : ascii) :
  between "0" "9" a = true -> between "0" "9" b = true ->
  int_of_two_digits (String a (String b "")) = Ok (two_digits a b) /\
  int_of_two_digits (String a (String b (String "010" ""))) = Ok (two_digits a b).
Proof. intros Ha Hb. unfold int_of_two_digits. rewrite Ha, Hb. split; reflexivity. Qed.

Lemma configure_schedule_outcome_witness :
  (code (fst (configure_schedule int_of_two_digits no_sched_fault (Some "02:30")
                idle_schedule)) = 400 /\
   snd (configure_schedule int_of_two_digits no_sched_fault (Some "02:30") idle_schedule) =
     idle_schedule /\
   (forall t, Some "02:30" = Some t -> match_schedule_time t = false)) \/
  (exists t hour minute,
     Some "02:30" = Some t /\ match_schedule_time t = true /\
     hour_minute int_of_two_digits t = Ok (hour, minute) /\ hour <= 23 /\ minute <= 59 /\
     ((code (fst (configure_schedule int_of_two_digits no_sched_fault (Some "02:30")
                    idle_schedule)) = 200 /\
       config_fault no_sched_fault = None /\ reschedule_fault no_sched_fault = None /\
       app_config (snd (configure_schedule int_of_two_digits no_sched_fault (Some "02:30")
                          idle_schedule)) =
         Dict.set (app_config idle_schedule) "schedule_time" t /\
       daily_pipeline_job (snd (configure_schedule int_of_two_digits no_sched_fault
                                  (Some "02:30") idle_schedule)) =
         Some (hour, minute) /\
       startup_schedule int_of_two_digits
         (app_config (snd (configure_schedule int_of_two_digits no_sched_fault (Some "02:30")
                             idle_schedule))) =
         Ok (hour, minute)) \/
      (code (fst (configure_schedule int_of_two_digits no_sched_fault (Some "02:30")
                    idle_schedule)) = 500 /\
       config_fault no_sched_fault <> None /\
       snd (configure_schedule int_of_two_digits no_sched_fault (Some "02:30") idle_schedule) =
         idle_schedule) \/
      (code (fst (configure_schedule int_of_two_digits no_sched_fault (Some "02:30")
                    idle_schedule)) = 500 /\
       config_fault no_sched_fault = None /\ reschedule_fault no_sched_fault <> None /\
       app_config (snd (configure_schedule int_of_two_digits no_sched_fault (Some "02:30")
                          idle_schedule)) =
         Dict.set (app_config idle_schedule) "schedule_time" t /\
       daily_pipeline_job (snd (configure_schedule int_of_two_digits no_sched_fault
                                  (Some "02:30") idle_schedule)) =
         daily_pipeline_job idle_schedule /\
       startup_schedule int_of_two_digits
         (app_config (snd (configure_schedule int_of_two_digits no_sched_fault (Some "02:30")
                             idle_schedule))) =
         Ok (hour, minute)))).
Proof.
  exact (@configure_schedule_outcome int_of_two_digits
           (fun a b Ha Hb => proj1 (int_of_two_digits_ok a b Ha Hb))
           (fun a b Ha Hb => proj2 (int_of_two_digits_ok a b Ha Hb))
           no_sched_fault (Some "02:30") idle_schedule).
Defined.

(** ** The registry over the life of the process *)

Lemma task_run_cache (E : env) (args : thread_args) (w : world) :
  w_scraper_cache (snd (task_run E args w)) = w_scraper_cache w.
Proof.
  rewrite task_run_eq, task_body_eq.
  destruct (run_scraping_pipeline_frame E (scraper_mods args) (th_stop_event args) w)
    as (_ & Hc1 & _).
  destruct (run_scraping_pipeline E (scraper_mods args) (th_stop_event args) w)
    as [[s1|e1] w1]; simpl in Hc1.
  - destruct (extraction_step_frame E args w1) as (_ & Hc2 & _).
    destruct (extraction_step E args w1) as [[s2|e2] w2]; simpl in Hc2.
    + match goal with
      | |- context [db_write E ?f ?w3] =>
          destruct (db_write_cases E f w3) as [(msg & H)|H]; rewrite H
      end.
      * unfold record_failure.
        match goal with
        | |- context [db_write E ?f ?w3] =>
            destruct (db_write_cases E f w3) as [(msg' & H')|H']; rewrite H'
        end; simpl; congruence.
      * simpl. congruence.
    + unfold record_failure.
      match goal with
      | |- context [db_write E ?f ?w3] =>
          destruct (db_write_cases E f w3) as [(msg' & H')|H']; rewrite H'
      end; simpl; congruence.
  - unfold record_failure.
    match goal with
    | |- context [db_write E ?f ?w3] =>
        destruct (db_write_cases E f w3) as [(msg' & H')|H']; rewrite H'
    end; simpl; congruence.
Qed.

(** X4.  Once discovery has returned a registry that is not empty, the
    registry is fixed for the process.  It is in the cache; and in every
    state whose cache holds it, every discovery, resolution and listing,
    whatever the directory holds by then, answers from it without scanning,
    and a trigger request or a run of the pipeline leaves it in the cache. *)
Theorem registry_is_fixed_once_found (E : env) (w w1 : world) (reg : Dict.t scraper) :
  discover_scrapers E w = (Ok reg, w1) ->
  reg <> [] ->
  w_scraper_cache w1 = reg /\
  forall w2, w_scraper_cache w2 = reg ->
    (forall E2,
       discover_scrapers E2 w2 = (Ok reg, w2) /\
       get_scraper_modules E2 None w2 = (Ok (Dict.values reg), w2) /\
       (forall names,
          get_scraper_modules E2 (Some names) w2 = (Ok (resolve_spec reg names), w2)) /\
       get_all_scraper_names E2 w2 = (Ok (sorted (Dict.keys reg)), w2)) /\
    (forall E2 req, w_scraper_cache (snd (trigger_pipeline E2 req w2)) = reg) /\
    (forall E2 args, w_scraper_cache (snd (pipeline_task E2 args w2)) = reg).
Proof.
  intros Hd Hne.
  assert (Ht : Dict.truthy reg = true) by (destruct reg; [contradiction|reflexivity]).
  split.
  { unfold discover_scrapers in Hd.
    destruct (Dict.truthy (w_scraper_cache w)); [now inversion Hd|].
    destruct (listdir E (scans w)); [|discriminate].
    destruct (scan _ _); inversion Hd; reflexivity. }
  intros w2 Hc.
  assert (Hmemo : forall E2, discover_scrapers E2 w2 = (Ok reg, w2)).
  { intros E2. rewrite <- Hc. apply discover_scrapers_cached. now rewrite Hc. }
  assert (Hres : forall E2 names,
            get_scraper_modules E2 names w2 =
            (Ok match names with
                | None => Dict.values reg
                | Some ns => resolve_spec reg ns
                end, w2)).
  { intros E2 names. unfold get_scraper_modules, bindM, bind. rewrite Hmemo.
    destruct names; [|reflexivity]. unfold ret. now rewrite select_modules_acc. }
  split; [|split].
  - intros E2. split; [apply Hmemo|]. split; [apply (Hres E2 None)|].
    split; [intros names; apply (Hres E2 (Some names))|].
    unfold get_all_scraper_names, bindM, bind. now rewrite Hmemo.
  - intros E2 req. unfold trigger_pipeline.
    destruct (is_running (w_tracker w2)); [exact Hc|].
    unfold bind. rewrite Hres.
    destruct (match req_scrapers req with
              | Some ns => resolve_spec reg ns
              | None => Dict.values reg
              end); exact Hc.
  - intros E2 args. unfold pipeline_task, bind. simpl. rewrite task_run_cache. exact Hc.
Qed.

Lemma registry_is_fixed_once_found_witness :
  w_scraper_cache (snd (discover_scrapers alpha_env initial_world)) = [("alpha.com", alpha)] /\
  forall w2, w_scraper_cache w2 = [("alpha.com", alpha)] ->
    (forall E2,
       discover_scrapers E2 w2 = (Ok [("alpha.com", alpha)], w2) /\
       get_scraper_modules E2 None w2 = (Ok (Dict.values [("alpha.com", alpha)]), w2) /\
       (forall names,
          get_scraper_modules E2 (Some names) w2 =
            (Ok (resolve_spec [("alpha.com", alpha)] names), w2)) /\
       get_all_scraper_names E2 w2 = (Ok (sorted (Dict.keys [("alpha.com", alpha)])), w2)) /\
    (forall E2 req,
       w_scraper_cache (snd (trigger_pipeline E2 req w2)) = [("alpha.com", alpha)]) /\
    (forall E2 args,
       w_scraper_cache (snd (pipeline_task E2 args w2)) = [("alpha.com", alpha)]).
Proof.
  refine (@registry_is_fixed_once_found alpha_env initial_world
            (snd (discover_scrapers alpha_env initial_world)) [("alpha.com", alpha)] _ _).
  - reflexivity.
  - discriminate.
Defined.

(** ** Instances *)

Lemma second_acquisition_no_new_reference_witness :
  match fst (run_scraping_pipeline gamma_env [gamma] 1
               (snd (run_scraping_pipeline gamma_env [gamma] 0 initial_world))) with
  | Ok s => st_new_links_found s = Some 0
  | Raise _ => True
  end /\
  links (w_db (snd (run_scraping_pipeline gamma_env [gamma] 1
                      (snd (run_scraping_pipeline gamma_env [gamma] 0 initial_world)))))
  = links (w_db (snd (run_scraping_pipeline gamma_env [gamma] 0 initial_world))).
Proof.
  exact (@second_acquisition_no_new_reference gamma_env [gamma] 0 initial_world gamma_env 1
           (fun _ => eq_refl) eq_refl).
Defined.

Lemma task_run_stopped_in_acquisition_witness :
  ~ In EnterAnalysis
       (new_events initial_world (snd (task_run cancel_env alpha_args initial_world))) /\
  pipeline_runs (w_db (snd (task_run cancel_env alpha_args initial_world))) =
    pipeline_runs (w_db initial_world) ++
    [summary_row (scraping_stats 1 0) empty_stats "Stopped by user"].
Proof.
  refine (@task_run_stopped_in_acquisition cancel_env alpha_args initial_world
            (snd (run_scraping_pipeline cancel_env [alpha] 0 initial_world))
            (scraping_stats 1 0) _ _ _).
  - vm_compute. reflexivity.
  - vm_compute. reflexivity.
  - reflexivity.
Defined.

(** ** What is handed to the extractor *)

(** X22.  Extraction hands to the extractor only what the query selects:
    every article for which the extractor is called is a row of the store as
    it was when the stage started, not analyzed yet, whose cleaned text is
    neither missing nor ["N/A"]. *)
Theorem only_unanalyzed_text_is_analyzed (E : env) (ev : nat) (kwargs : llm_config)
  (w : world) (id : nat) :
  db_wf (w_db w) ->
  In (Analyze id) (new_events w (snd (run_analysis_pipeline E ev kwargs w))) ->
  exists a t,
    In a (articles (w_db w)) /\ article_id a = id /\
    is_analyzed a = false /\ cleaned_text a = Some t /\ t <> "N/A".
Proof.
  intros Hwf Hin.
  pose proof (@run_analysis_pipeline_analyzes_selected E ev kwargs w id Hwf Hin) as Hsel.
  apply selected_ids_spec in Hsel. destruct Hsel as (a & Ha & Hid & Hun).
  unfold unanalyzed in Hun. apply andb_true_iff in Hun. destruct Hun as [Hflag Htext].
  destruct (cleaned_text a) as [t|] eqn:Ht; [|discriminate].
  exists a, t. split; [exact Ha|]. split; [exact Hid|].
  split; [now apply negb_true_iff in Hflag|]. split; [exact Ht|].
  simpl in Htext. apply negb_true_iff in Htext. now apply String.eqb_neq in Htext.
Qed.

Lemma only_unanalyzed_text_is_analyzed_witness :
  exists a t,
    In a (articles (w_db two_articles)) /\ article_id a = 1 /\
    is_analyzed a = false /\ cleaned_text a = Some t /\ t <> "N/A".
Proof.
  refine (@only_unanalyzed_text_is_analyzed flaky_env 0 default_llm_config two_articles 1
            two_articles_wf _).
  vm_compute. right. left. reflexivity.
Defined.

(** ** A source that fails *)

(** X23.  A source that fails does not keep the others from being
    acquired.  On a store that does not fail and without a stop request,
    acquisition returns, and every reference returned by an adapter whose
    listing call returned is stored, whatever the other adapters did.  If
    moreover the adapters return the locator they were given as the article's
    [url] and the store is well-formed, every link that is left without an
    article is one for which no adapter is selected or whose adapter returned
    nothing or raised. *)
Theorem adapter_failure_is_isolated (E : env) (mods : list scraper) (ev : nat) (w : world) :
  (forall k, fault E k = None) ->
  stop_at E ev = None ->
  (exists s, fst (run_scraping_pipeline E mods ev w) = Ok s) /\
  refs_known mods (w_db (snd (run_scraping_pipeline E mods ev w))) /\
  (links_wf (w_db w) ->
   (forall s, In s mods -> echoes s) ->
   forall l,
     In l (get_unscraped_links (w_db (snd (run_scraping_pipeline E mods ev w)))) ->
     unavailable (scraper_map mods) l).
Proof.
  intros Hf Hs. split; [now apply run_scraping_pipeline_healthy|].
  split; [now apply acquisition_stores_references|].
  intros Hwf Hecho. now apply acquisition_settles_links.
Qed.

Lemma adapter_failure_is_isolated_witness :
  (exists s, fst (run_scraping_pipeline alpha_env [delta; alpha] 0 initial_world) = Ok s) /\
  refs_known [delta; alpha]
    (w_db (snd (run_scraping_pipeline alpha_env [delta; alpha] 0 initial_world))) /\
  (links_wf (w_db initial_world) ->
   (forall s, In s [delta; alpha] -> echoes s) ->
   forall l,
     In l (get_unscraped_links
             (w_db (snd (run_scraping_pipeline alpha_env [delta; alpha] 0 initial_world)))) ->
     unavailable (scraper_map [delta; alpha]) l).
Proof.
  exact (@adapter_failure_is_isolated alpha_env [delta; alpha] 0 initial_world
           (fun _ => eq_refl) eq_refl).
Defined.

(** * Failures of single items in the extraction stage *)

Lemma db_write_cause (E : env) (f : db -> db) (w : world) :
  (exists msg, fault E (db_calls w) = Some msg /\
               db_write E f w = (Raise (OperationalError msg), tick_db w)) \/
  (fault E (db_calls w) = None /\
   db_write E f w = (Ok tt, with_db (f (w_db w)) (tick_db w))).
Proof.
  destruct (fault E (db_calls w)) as [msg|] eqn:Hf.
  - left. exists msg. split; [reflexivity|]. now apply db_write_fault.
  - right. split; [reflexivity|]. now apply db_write_ok.
Qed.

Lemma add_sentiments_calls (E : env) (id : nat) (es : list entity) :
  forall n w,
    db_calls w <= db_calls (snd (add_sentiments E id es n w)) /\
    (forall k msg,
       db_calls w <= k < db_calls (snd (add_sentiments E id es n w)) ->
       fault E k = Some msg ->
       snd (fst (add_sentiments E id es n w)) = Some (OperationalError msg)) /\
    (forall e, snd (fst (add_sentiments E id es n w)) = Some e ->
       exists msg k, e = OperationalError msg /\ fault E k = Some msg /\
                     db_calls w <= k < db_calls (snd (add_sentiments E id es n w))).
Proof.
  induction es as [|x es IH]; intros n w.
  - simpl. split; [lia|]. split; [intros; lia|discriminate].
  - unfold add_sentiments; fold (add_sentiments E). unfold bind.
    destruct (db_write_cause E (add_sentiment (sentiment_of id x)) w)
      as [(msg & Hf & ->)|(Hf & ->)].
    + simpl. split; [lia|]. split.
      * intros k msg' Hk Hfk. assert (k = db_calls w) by lia. subst. congruence.
      * intros e He. inversion He; subst. exists msg, (db_calls w). repeat split; auto; lia.
    + destruct (IH (n + 1) (with_db (add_sentiment (sentiment_of id x) (w_db w)) (tick_db w)))
        as (H1 & H2 & H3).
      simpl db_calls in *. split; [lia|]. split.
      * intros k msg Hk Hfk. apply (H2 k msg); [|exact Hfk].
        destruct (Nat.eq_dec k (db_calls w)) as [->|Hne]; [congruence|lia].
      * intros e He. destruct (H3 e He) as (msg & k & -> & Hfk & Hk).
        exists msg, k. repeat split; auto; lia.
Qed.

(** The [try] block of one article and the store.  It is left by the
    exception of the extractor, when the extractor raises; otherwise by the
    failure of the first of its writes that the store fails; otherwise it
    runs to its end. *)
Lemma analyze_article_cause (E : env) (a : analyzer) (x : todo) (n : nat) (w : world) :
  db_calls w <= db_calls (snd (analyze_article E a x n w)) /\
  (forall e, snd (fst (analyze_article E a x n w)) = Some e ->
     block_failure E a x e (db_calls w) (db_calls (snd (analyze_article E a x n w)))) /\
  (forall e, analyze_text_for_sentiment a (todo_text x) = Raise e ->
     snd (fst (analyze_article E a x n w)) = Some e) /\
  (forall k msg,
     db_calls w <= k < db_calls (snd (analyze_article E a x n w)) ->
     fault E k = Some msg ->
     snd (fst (analyze_article E a x n w)) = Some (OperationalError msg)).
Proof.
  rewrite analyze_article_eq. unfold block_failure.
  destruct (analyze_text_for_sentiment a (todo_text x)) as [[es usage]|e0] eqn:Hx.
  2:{ simpl. split; [lia|]. split; [|split].
      - intros e He. inversion He. now left.
      - intros e He. inversion He. reflexivity.
      - intros; lia. }
  set (w0 := log (Analyze (todo_id x)) w).
  assert (Hw0 : db_calls w0 = db_calls w) by reflexivity.
  assert (Hu : exists r1 w1,
             match usage with
             | Some u => db_write E (add_usage_log (todo_id x) (provider a) u) w0
             | None => (Ok tt, w0)
             end = (r1, w1) /\
             db_calls w <= db_calls w1 /\
             match r1 with
             | Raise e =>
                 exists msg, e = OperationalError msg /\ fault E (db_calls w) = Some msg /\
                             db_calls w1 = S (db_calls w)
             | Ok _ => forall k, db_calls w <= k < db_calls w1 -> fault E k = None
             end).
  { destruct usage as [u|].
    - destruct (db_write_cause E (add_usage_log (todo_id x) (provider a) u) w0)
        as [(msg & Hf & ->)|(Hf & ->)]; do 2 eexists; (split; [reflexivity|]);
        simpl; rewrite Hw0 in *.
      + split; [lia|]. exists msg. auto.
      + split; [lia|]. intros k Hk. assert (k = db_calls w) by lia. now subst.
    - do 2 eexists. split; [reflexivity|]. rewrite Hw0. split; [lia|]. intros; lia. }
  destruct Hu as (r1 & w1 & -> & Hle1 & Hr1).
  destruct r1 as [u1|e1].
  2:{ destruct Hr1 as (msg & -> & Hf & Hc). cbn [fst snd]. split; [lia|]. split; [|split].
      - intros e He. inversion He; subst. right. split; [eauto|].
        exists msg, (db_calls w). repeat split; auto; lia.
      - discriminate.
      - intros k msg' Hk Hfk. assert (k = db_calls w) by lia. subst. congruence. }
  destruct (add_sentiments_calls E (todo_id x) es n w1) as (Hle2 & Hf2 & Hc2).
  destruct (snd (fst (add_sentiments E (todo_id x) es n w1))) as [e2|] eqn:H2.
  { cbn [fst snd]. split; [lia|]. split; [|split].
    - intros e He. inversion He; subst. right. split; [eauto|].
      destruct (Hc2 e eq_refl) as (msg & k & -> & Hfk & Hk).
      exists msg, k. repeat split; auto; lia.
    - discriminate.
    - intros k msg Hk Hfk.
      destruct (Nat.lt_ge_cases k (db_calls w1)) as [Hlt|Hge].
      + rewrite Hr1 in Hfk by lia. discriminate.
      + apply (Hf2 k msg); [lia|exact Hfk]. }
  set (w2 := snd (add_sentiments E (todo_id x) es n w1)) in *.
  assert (Hnone : forall k, db_calls w <= k < db_calls w2 -> fault E k = None).
  { intros k Hk. destruct (Nat.lt_ge_cases k (db_calls w1)) as [Hlt|Hge].
    - apply Hr1. lia.
    - destruct (fault E k) as [msg|] eqn:Hfk; [|reflexivity].
      specialize (Hf2 k msg (conj Hge (proj2 Hk)) Hfk). discriminate. }
  destruct (db_write_cause E (mark_article_as_analyzed (todo_id x)) w2)
    as [(msg & Hf & ->)|(Hf & ->)]; cbn [fst snd]; simpl db_calls.
  - split; [lia|]. split; [|split].
    + intros e He. inversion He; subst. right. split; [eauto|].
      exists msg, (db_calls w2). repeat split; auto; lia.
    + discriminate.
    + intros k msg' Hk Hfk.
      destruct (Nat.eq_dec k (db_calls w2)) as [->|Hne]; [congruence|].
      rewrite Hnone in Hfk by lia. discriminate.
  - split; [lia|]. split; [discriminate|]. split; [discriminate|].
    intros k msg' Hk Hfk.
    destruct (Nat.eq_dec k (db_calls w2)) as [->|Hne]; [congruence|].
    rewrite Hnone in Hfk by lia. discriminate.
Qed.

Lemma block_failure_mono (E : env) (a : analyzer) (x : todo) (e : exn) (lo hi lo' hi' : nat) :
  lo' <= lo -> hi <= hi' ->
  block_failure E a x e lo hi -> block_failure E a x e lo' hi'.
Proof.
  intros Hlo Hhi [H|(Hr & msg & k & He & Hf & Hk)]; [now left|].
  right. split; [exact Hr|]. exists msg, k. repeat split; auto; lia.
Qed.

(** The loop, when no stop is requested, and its failures: every
    [AnalyzeFailed] it logs is the failure of the block of one of the items;
    an item on which the extractor raises is logged as failed with that
    exception; and so is an item for every write the store failed. *)
Lemma analyze_articles_failures (E : env) (ev : nat) (a : analyzer) (items : list todo) :
  stop_at E ev = None ->
  forall i n w,
    exists evs,
      trace (snd (analyze_articles E ev a items i n w)) = trace w ++ evs /\
      db_calls w <= db_calls (snd (analyze_articles E ev a items i n w)) /\
      (forall id e, In (AnalyzeFailed id e) evs ->
         exists x, In x items /\ todo_id x = id /\
           block_failure E a x e (db_calls w)
             (db_calls (snd (analyze_articles E ev a items i n w)))) /\
      (forall x e, In x items ->
         analyze_text_for_sentiment a (todo_text x) = Raise e ->
         In (AnalyzeFailed (todo_id x) e) evs) /\
      (forall k msg,
         db_calls w <= k < db_calls (snd (analyze_articles E ev a items i n w)) ->
         fault E k = Some msg ->
         exists x, In x items /\ In (AnalyzeFailed (todo_id x) (OperationalError msg)) evs).
Proof.
  intros Hs. induction items as [|y rest IH]; intros i n w.
  - exists []. simpl. split; [now rewrite app_nil_r|]. split; [lia|].
    split; [intros id e []|]. split; [intros x e []|]. intros; lia.
  - rewrite analyze_articles_cons, (is_set_never E ev w Hs). cbv zeta.
    set (w1 := with_tracker _ (tick_poll w)).
    assert (Hw1 : db_calls w1 = db_calls w) by reflexivity.
    pose proof (analyze_article_effect E a y n w1) as [Ht _].
    pose proof (analyze_article_cause E a y n w1) as (Hle & Hc1 & Hc2 & Hc3).
    destruct (analyze_article E a y n w1) as [[c oe] w2].
    cbn [fst snd] in Ht, Hle, Hc1, Hc2, Hc3 |- *.
    set (w3 := match oe with
               | Some e => log (AnalyzeFailed (todo_id y) e) w2
               | None => w2
               end).
    set (w4 := with_tracker _ w3).
    assert (Hw4 : db_calls w4 = db_calls w2) by (subst w4 w3; destruct oe; reflexivity).
    destruct (IH (i + 1) c w4) as (evs' & Ht' & Hle' & Hf1 & Hf2 & Hf3).
    set (w' := snd (analyze_articles E ev a rest (i + 1) c w4)) in *.
    set (fl := match oe with
               | Some e => [AnalyzeFailed (todo_id y) e]
               | None => []
               end).
    assert (Htr : trace w4 = trace w ++ Analyze (todo_id y) :: fl).
    { subst w4 w3 fl. destruct oe; simpl; rewrite Ht; simpl;
        rewrite <- ?app_assoc; reflexivity. }
    assert (FF : forall id e, In (AnalyzeFailed id e) (Analyze (todo_id y) :: fl ++ evs') <->
                              (oe = Some e /\ id = todo_id y) \/ In (AnalyzeFailed id e) evs').
    { intros id e. simpl. rewrite in_app_iff. split.
      - intros [H|[H|H]]; [discriminate| |now right].
        subst fl. destruct oe as [e0|]; simpl in H; [|contradiction].
        destruct H as [H|[]]. inversion H; subst. left. auto.
      - intros [[-> ->]|H]; [|right; now right].
        right. left. subst fl. simpl. now left. }
    rewrite Hw1 in *. rewrite Hw4 in *.
    exists (Analyze (todo_id y) :: fl ++ evs').
    split; [rewrite Ht', Htr, <- app_assoc; reflexivity|].
    split; [lia|]. split; [|split].
    + intros id e Hin. apply FF in Hin. destruct Hin as [[-> ->]|Hin].
      * exists y. split; [now left|]. split; [reflexivity|].
        eapply block_failure_mono; [| |apply Hc1; reflexivity]; lia.
      * destruct (Hf1 id e Hin) as (x & Hx & Hid & Hb).
        exists x. split; [now right|]. split; [exact Hid|].
        eapply block_failure_mono; [| |exact Hb]; lia.
    + intros x e [<-|Hx] He.
      * apply FF. left. split; [now apply Hc2|reflexivity].
      * apply FF. right. now apply (Hf2 x).
    + intros k msg Hk Hfk.
      destruct (Nat.lt_ge_cases k (db_calls w2)) as [Hlt|Hge].
      * exists y. split; [now left|]. apply FF. left. split; [|reflexivity].
        apply (Hc3 k msg); [lia|exact Hfk].
      * destruct (Hf3 k msg (conj Hge (proj2 Hk)) Hfk) as (x & Hx & Hin).
        exists x. split; [now right|]. apply FF. now right.
Qed.

(** an article the query selected, whose flag is still false in a store
    that differs by flags only, is selected again *)
Lemma still_selected (d d' : db) (id : nat) :
  db_wf d' ->
  map set_analyzed (articles d') = map set_analyzed (articles d) ->
  In id (selected_ids d) ->
  analyzed_flag id d' = Some false ->
  In id (selected_ids d').
Proof.
  intros [Hnd _] Hmap Hsel Hflag.
  apply selected_ids_spec in Hsel. destruct Hsel as (r & Hr & <- & Hu).
  assert (Hex : exists r', In r' (articles d') /\ set_analyzed r' = set_analyzed r).
  { apply (in_map set_analyzed) in Hr. rewrite <- Hmap in Hr.
    apply in_map_iff in Hr. destruct Hr as (r' & H1 & H2). eauto. }
  destruct Hex as (r' & Hr' & Heq).
  assert (Hid : article_id r' = article_id r) by (apply (f_equal article_id) in Heq; exact Heq).
  assert (Htx : cleaned_text r' = cleaned_text r)
    by (apply (f_equal cleaned_text) in Heq; exact Heq).
  apply selected_ids_spec. exists r'. split; [exact Hr'|]. split; [exact Hid|].
  unfold analyzed_flag in Hflag. rewrite <- Hid in Hflag.
  rewrite (find_unique _ _ Hnd Hr') in Hflag. simpl in Hflag. inversion Hflag as [Hfl].
  unfold unanalyzed in *. rewrite Hfl, Htx. simpl.
  apply andb_prop in Hu. tauto.
Qed.

Lemma nodup_map_inj {A B} (f : A -> B) (l : list A) (x y : A) :
  NoDup (map f l) -> In x l -> In y l -> f x = f y -> x = y.
Proof.
  induction l as [|z l IH]; simpl; [contradiction|].
  intros Hnd Hx Hy Hf. inversion Hnd as [|? ? Hz Hnd']; subst.
  destruct Hx as [->|Hx], Hy as [->|Hy]; auto.
  - exfalso. apply Hz. rewrite Hf. now apply in_map.
  - exfalso. apply Hz. rewrite <- Hf. now apply in_map.
Qed.

(** The extraction stage with a constructed extractor, no stop request and
    a store that answers the query, whatever the store does to the writes. *)
Lemma run_analysis_pipeline_failures (E : env) (ev : nat) (kwargs : llm_config)
  (a : analyzer) (w : world) :
  db_wf (w_db w) ->
  stop_at E ev = None ->
  SentimentAnalyzer E kwargs = Ok a ->
  fault E (db_calls w) = None ->
  (exists n, fst (run_analysis_pipeline E ev kwargs w) = Ok (analysis_stats n)) /\
  (forall x, In x (get_unanalyzed_articles (w_db w)) ->
     In (Analyze (todo_id x)) (new_events w (snd (run_analysis_pipeline E ev kwargs w))) /\
     (forall e, analyze_text_for_sentiment a (todo_text x) = Raise e ->
        In (AnalyzeFailed (todo_id x) e)
           (new_events w (snd (run_analysis_pipeline E ev kwargs w)))) /\
     (((exists e,
          In (AnalyzeFailed (todo_id x) e)
             (new_events w (snd (run_analysis_pipeline E ev kwargs w))) /\
          block_failure E a x e (S (db_calls w))
            (db_calls (snd (run_analysis_pipeline E ev kwargs w)))) /\
       analyzed_flag (todo_id x) (w_db (snd (run_analysis_pipeline E ev kwargs w)))
         = Some false)
      \/
      ((forall e,
          ~ In (AnalyzeFailed (todo_id x) e)
               (new_events w (snd (run_analysis_pipeline E ev kwargs w)))) /\
       (exists r, analyze_text_for_sentiment a (todo_text x) = Ok r) /\
       analyzed_flag (todo_id x) (w_db (snd (run_analysis_pipeline E ev kwargs w)))
         = Some true))) /\
  (forall k msg,
     db_calls w < k < db_calls (snd (run_analysis_pipeline E ev kwargs w)) ->
     fault E k = Some msg ->
     exists x, In x (get_unanalyzed_articles (w_db w)) /\
       In (AnalyzeFailed (todo_id x) (OperationalError msg))
          (new_events w (snd (run_analysis_pipeline E ev kwargs w)))).
Proof.
  intros Hwf Hs Ha Hf.
  destruct (@run_analysis_pipeline_outcome E ev kwargs a w Ha Hf Hwf) as (evs & Hev & _ & Hout).
  pose proof (@selected_ids_NoDup (w_db w) Hwf) as Hnd. unfold selected_ids in Hnd.
  revert Hev Hout. rewrite run_analysis_pipeline_eq, Ha, Hf. cbv zeta.
  destruct (get_unanalyzed_articles (w_db w)) as [|x0 xs] eqn:Hitems.
  { cbn [fst snd]. intros _ _. split; [eexists; reflexivity|].
    split; [intros x []|]. simpl. intros; lia. }
  set (items := x0 :: xs) in *.
  set (w1 := with_tracker _ (tick_db (log EnterAnalysis w))).
  cbn [fst snd]. intros Hev Hout.
  destruct (@analyze_articles_failures E ev a items Hs 0 0 w1)
    as (evs2 & Ht2 & Hle & Hf1 & Hf2 & Hf3).
  set (w' := snd (analyze_articles E ev a items 0 0 w1)) in *.
  assert (Hw1 : db_calls w1 = S (db_calls w)) by reflexivity.
  assert (Heq : evs2 = evs).
  { assert (H : new_events w w' = EnterAnalysis :: evs2).
    { apply new_events_app. rewrite Ht2. subst w1. simpl.
      rewrite <- app_assoc. reflexivity. }
    rewrite Hev in H. now inversion H. }
  subst evs2. rewrite Hw1 in *. rewrite Hev.
  split; [eexists; reflexivity|]. split.
  - intros x Hx.
    pose proof (@selected_flag_false (w_db w) (todo_id x) Hwf) as Hfalse.
    unfold selected_ids in Hfalse. rewrite Hitems in Hfalse.
    specialize (Hfalse (in_map todo_id _ _ Hx)).
    destruct (Hout x Hx)
      as [(Hstop & _)|[(HA & (e & HF & _) & Hfl)|(HA & HF & Hr & Hfl)]].
    + contradiction.
    + split; [now right|]. split; [intros e' He'; right; now apply (Hf2 x)|].
      left. split; [|congruence].
      exists e. split; [now right|].
      destruct (Hf1 _ _ HF) as (x' & Hx' & Hid & Hb).
      now rewrite <- (nodup_map_inj todo_id items x' x Hnd Hx' Hx Hid).
    + split; [now right|]. split; [intros e' He'; right; now apply (Hf2 x)|].
      right. split; [|split; [exact Hr|]].
      * intros e [H|H]; [discriminate|]. now apply (HF e).
      * rewrite Hfl, Hfalse. reflexivity.
  - intros k msg Hk Hfk.
    destruct (Hf3 k msg) as (x & Hx & Hin); [lia|exact Hfk|].
    exists x. split; [exact Hx|now right].
Qed.

(** C6.  Per-item failure is isolated.  Take a run body of [pipeline_task]
    with no stop request and a constructed extractor, in which acquisition
    returned, the store answered the unprocessed-item query and accepted the
    summary; the store may fail any write of the loop.  Then the loop is not
    aborted: the extractor is called on every selected article.  An article
    on whose text the extractor raises is logged as failed with that
    exception.  Every selected article either failed, and then what left its
    block is the exception of the extractor or the failure of a write the
    store refused, its flag is still false after the run and the query
    selects it again; or it did not fail, and then its flag is set and the
    query no longer selects it.  Every write of the loop that the store
    failed is the failure of one of the selected articles.  The stage
    returns its count, the run body ends normally, and the summary it
    records has the counts of the two stages and the status "Completed". *)
Theorem item_failure_is_isolated (E : env) (args : thread_args) (a : analyzer)
  (w0 w1 : world) (s1 : stats) :
  db_wf (w_db w0) ->
  stop_at E (th_stop_event args) = None ->
  SentimentAnalyzer E (th_llm_config args) = Ok a ->
  run_scraping_pipeline E (scraper_mods args) (th_stop_event args) w0 = (Ok s1, w1) ->
  fault E (db_calls w1) = None ->
  fault E (db_calls (snd (extraction_step E args w1))) = None ->
  (forall x,
     In x (get_unanalyzed_articles (w_db w1)) ->
     In (Analyze (todo_id x)) (new_events w1 (snd (extraction_step E args w1))) /\
     (forall e,
        analyze_text_for_sentiment a (todo_text x) = Raise e ->
        In (AnalyzeFailed (todo_id x) e) (new_events w1 (snd (extraction_step E args w1)))) /\
     (((exists e,
          In (AnalyzeFailed (todo_id x) e) (new_events w1 (snd (extraction_step E args w1))) /\
          block_failure E a x e (S (db_calls w1))
            (db_calls (snd (extraction_step E args w1)))) /\
       analyzed_flag (todo_id x) (w_db (snd (task_run E args w0))) = Some false /\
       In (todo_id x) (selected_ids (w_db (snd (task_run E args w0)))))
      \/
      ((forall e,
          ~ In (AnalyzeFailed (todo_id x) e)
               (new_events w1 (snd (extraction_step E args w1)))) /\
       (exists r, analyze_text_for_sentiment a (todo_text x) = Ok r) /\
       analyzed_flag (todo_id x) (w_db (snd (task_run E args w0))) = Some true /\
       ~ In (todo_id x) (selected_ids (w_db (snd (task_run E args w0))))))) /\
  (forall k msg,
     db_calls w1 < k < db_calls (snd (extraction_step E args w1)) ->
     fault E k = Some msg ->
     exists x,
       In x (get_unanalyzed_articles (w_db w1)) /\
       In (AnalyzeFailed (todo_id x) (OperationalError msg))
          (new_events w1 (snd (extraction_step E args w1)))) /\
  (exists n,
     fst (extraction_step E args w1) = Ok (analysis_stats n) /\
     fst (task_run E args w0) = Ok tt /\
     pipeline_runs (w_db (snd (task_run E args w0))) =
       pipeline_runs (w_db w0) ++ [summary_row s1 (analysis_stats n) "Completed"]).
Proof.
  intros Hwf0 Hs Ha H1 Hq Hsum.
  assert (Hwf1 : db_wf (w_db w1)).
  { apply (@db_later_wf (w_db w0)); [|exact Hwf0].
    pose proof (run_scraping_pipeline_later E (scraper_mods args) (th_stop_event args) w0) as L.
    rewrite H1 in L. exact L. }
  assert (Hwf3 : db_wf (w_db (snd (task_run E args w0)))).
  { apply (@db_later_wf (w_db w0)); [apply task_run_later|exact Hwf0]. }
  assert (Hstep : extraction_step E args w1 =
                  run_analysis_pipeline E (th_stop_event args) (th_llm_config args)
                    (tick_poll w1)).
  { unfold extraction_step. now rewrite (is_set_never E _ w1 Hs). }
  destruct (@run_analysis_pipeline_failures E (th_stop_event args) (th_llm_config args) a
              (tick_poll w1) Hwf1 Hs Ha Hq) as ((n & Hn) & Hitems & Hfaults).
  pose proof (run_analysis_pipeline_footprint E (th_stop_event args) (th_llm_config args)
                (tick_poll w1)) as (_ & _ & _ & Hruns2 & Hmap & _).
  pose proof (run_scraping_pipeline_frame E (scraper_mods args) (th_stop_event args) w0)
    as (Hruns1 & _).
  pose proof (@run_scraping_pipeline_stats E (scraper_mods args) (th_stop_event args) w0) as S1.
  rewrite H1 in Hruns1, S1. cbn [fst snd] in Hruns1, S1.
  destruct (S1 _ eq_refl) as (c1 & c2 & ->).
  revert Hsum. rewrite Hstep.
  change (new_events (tick_poll w1)) with (new_events w1) in *.
  change (db_calls (tick_poll w1)) with (db_calls w1) in *.
  change (w_db (tick_poll w1)) with (w_db w1) in *.
  set (r2 := run_analysis_pipeline E (th_stop_event args) (th_llm_config args) (tick_poll w1))
    in *.
  intros Hsum.
  assert (Hrun : task_run E args w0 =
            (Ok tt,
             with_tracker idle_tracker
               (with_db
                  (add_pipeline_run
                     (merge (merge (scraping_stats c1 c2) (analysis_stats n))
                        (status_stats "Completed")) (w_db (snd r2)))
                  (tick_db (tick_poll (snd r2)))))).
  { rewrite task_run_eq, task_body_eq, H1, Hstep. fold r2.
    destruct r2 as [r w2]. cbn [fst snd] in *. subst r.
    rewrite (is_set_never E _ w2 Hs).
    rewrite db_write_ok by exact Hsum. reflexivity. }
  assert (Harts : articles (w_db (snd (task_run E args w0))) = articles (w_db (snd r2))).
  { rewrite Hrun. reflexivity. }
  assert (Hflag : forall id,
            analyzed_flag id (w_db (snd (task_run E args w0))) =
            analyzed_flag id (w_db (snd r2))).
  { intros id. now apply analyzed_flag_articles. }
  split; [|split].
  - intros x Hx. destruct (Hitems x Hx) as (HA & HR & Hcases).
    split; [exact HA|]. split; [exact HR|].
    destruct Hcases as [(Hfail & Hfl)|(Hno & Hr & Hfl)].
    + left. split; [exact Hfail|]. rewrite Hflag. split; [exact Hfl|].
      apply (@still_selected (w_db w1)); [exact Hwf3| |now apply in_selected_ids|].
      * rewrite Harts. exact Hmap.
      * now rewrite Hflag.
    + right. split; [exact Hno|]. split; [exact Hr|]. rewrite Hflag.
      split; [exact Hfl|].
      apply flag_true_not_selected; [exact Hwf3|]. now rewrite Hflag.
  - exact Hfaults.
  - exists n. split; [exact Hn|]. rewrite Hrun. split; [reflexivity|].
    cbn [snd]. simpl w_db.
    rewrite merged_row; [|eauto|eauto].
    now rewrite Hruns2, Hruns1.
Qed.

(** two articles, an extractor that finds nothing, and a store that fails
    the write of the first article's flag *)
Lemma item_failure_is_isolated_witness :
  (forall x,
     In x (get_unanalyzed_articles (w_db two_articles)) ->
     In (Analyze (todo_id x))
        (new_events two_articles (snd (extraction_step locked_env beta_args two_articles))) /\
     (forall e,
        analyze_text_for_sentiment mute_analyzer (todo_text x) = Raise e ->
        In (AnalyzeFailed (todo_id x) e)
           (new_events two_articles
              (snd (extraction_step locked_env beta_args two_articles)))) /\
     (((exists e,
          In (AnalyzeFailed (todo_id x) e)
             (new_events two_articles
                (snd (extraction_step locked_env beta_args two_articles))) /\
          block_failure locked_env mute_analyzer x e (S (db_calls two_articles))
            (db_calls (snd (extraction_step locked_env beta_args two_articles)))) /\
       analyzed_flag (todo_id x)
         (w_db (snd (task_run locked_env beta_args initial_world))) = Some false /\
       In (todo_id x)
          (selected_ids (w_db (snd (task_run locked_env beta_args initial_world)))))
      \/
      ((forall e,
          ~ In (AnalyzeFailed (todo_id x) e)
               (new_events two_articles
                  (snd (extraction_step locked_env beta_args two_articles)))) /\
       (exists r, analyze_text_for_sentiment mute_analyzer (todo_text x) = Ok r) /\
       analyzed_flag (todo_id x)
         (w_db (snd (task_run locked_env beta_args initial_world))) = Some true /\
       ~ In (todo_id x)
            (selected_ids (w_db (snd (task_run locked_env beta_args initial_world))))))) /\
  (forall k msg,
     db_calls two_articles < k <
       db_calls (snd (extraction_step locked_env beta_args two_articles)) ->
     fault locked_env k = Some msg ->
     exists x,
       In x (get_unanalyzed_articles (w_db two_articles)) /\
       In (AnalyzeFailed (todo_id x) (OperationalError msg))
          (new_events two_articles
             (snd (extraction_step locked_env beta_args two_articles)))) /\
  (exists n,
     fst (extraction_step locked_env beta_args two_articles) = Ok (analysis_stats n) /\
     fst (task_run locked_env beta_args initial_world) = Ok tt /\
     pipeline_runs (w_db (snd (task_run locked_env beta_args initial_world))) =
       pipeline_runs (w_db initial_world) ++
       [summary_row (scraping_stats 2 2) (analysis_stats n) "Completed"]).
Proof.
  refine (@item_failure_is_isolated locked_env beta_args mute_analyzer initial_world
            two_articles (scraping_stats 2 2) _ _ _ _ _ _).
  - exact create_database_wf.
  - reflexivity.
  - reflexivity.
  - vm_compute. reflexivity.
  - vm_compute. reflexivity.
  - vm_compute. reflexivity.
Defined.

(** that run, computed: the first article is visited and its block is left
    by the failure of the store, the second is visited and marked, and the
    run is recorded as "Completed" *)
Example store_failure_is_isolated :
  let w := snd (pipeline_task locked_env beta_args initial_world) in
  trace w = [EnterScraping; EnterAnalysis; Analyze 1;
             AnalyzeFailed 1 (OperationalError "database is locked"); Analyze 2] /\
  analyzed_flag 1 (w_db w) = Some false /\
  analyzed_flag 2 (w_db w) = Some true /\
  selected_ids (w_db w) = [1] /\
  pipeline_runs (w_db w) =
    [{| new_links_found := 2; articles_scraped := 2; entities_analyzed := 0;
        run_status := "Completed" |}].
Proof.
  vm_compute. repeat split.
Qed.
